(** * Add-Non-Steam-CLI: the persistence and coordination core of [main.py]

    A shallow embedding of the Python program: the identifier generator
    ([generate_appid]), the catalogue document and entry insertion, the
    atomic writer ([atomic_write_file_with_vdf]), the loader and dumper of
    [shortcuts.vdf], and the Steam process coordinator.

    Python values are modelled as the interpreter has them: a [str] is a
    sequence of code points, [bytes] a sequence of octets, an [int] an
    unbounded integer, a [dict] an insertion-ordered list of bindings with
    pairwise distinct keys.  Effects (the file system, the log, the
    subprocesses that are started) are threaded through a state-and-exception
    monad; what the operating system answers is read from an environment. *)

From Stdlib Require Import ZArith List Bool Lia String Ascii.
From Stdlib Require Import DecimalString DecimalZ DecimalN DecimalNat DecimalPos.
From stdpp Require Import base option list gmap.

Local Open Scope Z_scope.
#[local] Set Warnings "-register-all".

(* ===================================================================== *)
(** ** Python strings, bytes and integers                                 *)
(* ===================================================================== *)

(** A Python [str]: the sequence of its code points ([ord] of each
    character).  Code points range over [0 .. 0x10FFFF]; the surrogate
    range [0xD800 .. 0xDFFF] is allowed in a [str] (it is what the
    [surrogateescape] handler produces for undecodable bytes of a file name
    or of standard input). *)
Definition str := list Z.

(** Python [bytes]: octets, each in [0 .. 255]. *)
Definition bytes := list Z.

(** A string literal of the source (ASCII only in the parts embedded). *)
Definition lit (s : string) : str :=
  List.map (fun a => Z.of_N (N_of_ascii a)) (list_ascii_of_string s).

Definition is_byte (b : Z) : Prop := 0 <= b < 256.

(** The code points that are Unicode scalar values. *)
Definition is_surrogate (c : Z) : bool := (0xD800 <=? c) && (c <=? 0xDFFF).
Definition is_scalar_value (c : Z) : bool :=
  (0 <=? c) && (c <? 0x110000) && negb (is_surrogate c).

(** Exceptions.  Only classes derived from [Exception] are modelled: every
    [except Exception] handler of the source catches all of them. *)
Inductive exn : Type :=
  | UnicodeEncodeError
  | TypeError
  | FileNotFoundError
  | FileExistsError
  | NotADirectoryError
  | IsADirectoryError
  | PermissionError
  | OSError
  | EOFError
  | RuntimeError
  | DecodeError.

Inductive result (A : Type) : Type :=
  | Ok (a : A)
  | Raise (e : exn).
Arguments Ok {A} a.
Arguments Raise {A} e.

(** [c.encode("utf-8")] for one code point; strict error handler. *)
Definition utf8_encode_char (c : Z) : result bytes :=
  if c <? 0 then Raise UnicodeEncodeError
  else if c <? 0x80 then Ok [c]
  else if c <? 0x800 then
    Ok [Z.lor 0xC0 (Z.shiftr c 6); Z.lor 0x80 (Z.land c 0x3F)]
  else if c <? 0x10000 then
    if is_surrogate c then Raise UnicodeEncodeError
    else Ok [Z.lor 0xE0 (Z.shiftr c 12);
             Z.lor 0x80 (Z.land (Z.shiftr c 6) 0x3F);
             Z.lor 0x80 (Z.land c 0x3F)]
  else if c <? 0x110000 then
    Ok [Z.lor 0xF0 (Z.shiftr c 18);
        Z.lor 0x80 (Z.land (Z.shiftr c 12) 0x3F);
        Z.lor 0x80 (Z.land (Z.shiftr c 6) 0x3F);
        Z.lor 0x80 (Z.land c 0x3F)]
  else Raise UnicodeEncodeError.

(** [s.encode("utf-8")]. *)
Fixpoint utf8_encode (s : str) : result bytes :=
  match s with
  | [] => Ok []
  | c :: s' =>
      match utf8_encode_char c with
      | Raise e => Raise e
      | Ok bs =>
          match utf8_encode s' with
          | Raise e => Raise e
          | Ok rest => Ok (bs ++ rest)
          end
      end
  end.

(** [str(n)] for an [int]. *)
Definition str_of_int (n : Z) : str :=
  lit (NilZero.string_of_int (Z.to_int n)).

(** [str(n)] for a length, which is a natural number. *)
Definition str_of_nat (n : nat) : str := str_of_int (Z.of_nat n).

(** The value of a string of decimal digits, read left to right. *)
Definition digit_value (c : Z) : option Z :=
  if (48 <=? c) && (c <=? 57) then Some (c - 48) else None.

Fixpoint decimal_value_from (acc : Z) (s : str) : option Z :=
  match s with
  | [] => Some acc
  | c :: s' =>
      match digit_value c with
      | Some d => decimal_value_from (10 * acc + d) s'
      | None => None
      end
  end.

Definition decimal_value (s : str) : option Z :=
  match s with
  | [] => None
  | _ => decimal_value_from 0 s
  end.

(* ===================================================================== *)
(** ** zlib.crc32                                                         *)
(* ===================================================================== *)

Module Zlib.

(** The reflected CRC-32 polynomial of zlib. *)
Definition poly : Z := 0xEDB88320.

(** One shift of the register. *)
Definition step (c : Z) : Z :=
  if Z.testbit c 0 then Z.lxor (Z.shiftr c 1) poly else Z.shiftr c 1.

(** One byte of input: eight shifts. *)
Definition update (c : Z) (b : Z) : Z :=
  Nat.iter 8 step (Z.lxor c (Z.land b 0xFF)).

(** [zlib.crc32(data)], initial value 0. *)
Definition crc32 (data : bytes) : Z :=
  Z.lxor (fold_left update data 0xFFFFFFFF) 0xFFFFFFFF.

End Zlib.

(* ===================================================================== *)
(** ** generate_appid                                                     *)
(* ===================================================================== *)

(** [generate_appid(game_name, exe_path)]. *)
Definition generate_appid (game_name exe_path : str) : result str :=
  match utf8_encode (exe_path ++ game_name) with
  | Raise e => Raise e
  | Ok unique =>
      let legacy_id := Z.lor (Zlib.crc32 unique) 0x80000000 in
      Ok (str_of_int legacy_id)
  end.

(* ===================================================================== *)
(** ** Values of a catalogue document and Python dictionaries             *)
(* ===================================================================== *)

(** What a binary VDF document holds: strings, integers, nested
    mappings.  A [dict] keeps its bindings in insertion order. *)
Inductive value : Type :=
  | VStr (s : str)
  | VInt (n : Z)
  | VMap (d : list (str * value)).

Definition dict := list (str * value).

(** [d.get(k)]. *)
Fixpoint dict_get (k : str) (d : dict) : option value :=
  match d with
  | [] => None
  | (k', v) :: d' => if bool_decide (k' = k) then Some v else dict_get k d'
  end.

(** [k in d]. *)
Definition dict_has (k : str) (d : dict) : bool :=
  match dict_get k d with Some _ => true | None => false end.

(** [d[k] = v]: an existing key keeps its position, a new key goes last. *)
Fixpoint dict_set (k : str) (v : value) (d : dict) : dict :=
  match d with
  | [] => [(k, v)]
  | (k', v') :: d' =>
      if bool_decide (k' = k) then (k', v) :: d' else (k', v') :: dict_set k v d'
  end.

(** The dictionary after [d.setdefault(k, v)]. *)
Definition dict_setdefault (k : str) (v : value) (d : dict) : dict :=
  if dict_has k d then d else dict_set k v d.

Definition dict_keys (d : dict) : list str := List.map fst d.

(** A dictionary has pairwise distinct keys. *)
Definition dict_wf (d : dict) : Prop := NoDup (dict_keys d).

(** [len(v)]: defined on strings and mappings, [TypeError] on an [int]. *)
Definition py_len (v : value) : result nat :=
  match v with
  | VStr s => Ok (length s)
  | VMap d => Ok (length d)
  | VInt _ => Raise TypeError
  end.

(** [v[k] = x]: item assignment, defined on mappings only. *)
Definition py_setitem (v : value) (k : str) (x : value) : result value :=
  match v with
  | VMap d => Ok (VMap (dict_set k x d))
  | _ => Raise TypeError
  end.

(** The empty catalogue, [{"shortcuts": {}}]. *)
Definition empty_catalogue : dict := [(lit "shortcuts", VMap [])].

(** [f'"{s}"']: the string between two quotation marks (code point 34). *)
Definition quote (s : str) : str := [34] ++ s ++ [34].

(** The [entry] literal of [add_non_steam_game] (lines 494-507). *)
Definition make_entry (app_id game_name exe game_path launch_options : str)
  : value :=
  VMap [ (lit "appid", VStr app_id);
         (lit "appname", VStr game_name);
         (lit "exe", VStr (quote exe));
         (lit "StartDir", VStr (quote game_path));
         (lit "LaunchOptions", VStr launch_options);
         (lit "IsHidden", VInt 0);
         (lit "AllowDesktopConfig", VInt 1);
         (lit "OpenVR", VInt 0);
         (lit "Devkit", VInt 0);
         (lit "DevkitGameID", VStr (lit ""));
         (lit "LastPlayTime", VInt 0);
         (lit "tags", VMap []) ].

(** Entry insertion of [add_non_steam_game] (lines 509-510):
    [idx = len(shortcuts.get("shortcuts", {}))] followed by
    [shortcuts.setdefault("shortcuts", {})[str(idx)] = entry].
    Returns the document after the insertion and the key assigned. *)
Definition append_entry (shortcuts : dict) (entry : value)
  : result (dict * str) :=
  match py_len (default (VMap []) (dict_get (lit "shortcuts") shortcuts)) with
  | Raise e => Raise e
  | Ok idx =>
      let shortcuts1 := dict_setdefault (lit "shortcuts") (VMap []) shortcuts in
      let inner := default (VMap []) (dict_get (lit "shortcuts") shortcuts1) in
      match py_setitem inner (str_of_nat idx) entry with
      | Raise e => Raise e
      | Ok inner' => Ok (dict_set (lit "shortcuts") inner' shortcuts1, str_of_nat idx)
      end
  end.

(** Entries appended one after the other, as repeated add operations do. *)
Fixpoint append_all (shortcuts : dict) (entries : list value) : result dict :=
  match entries with
  | [] => Ok shortcuts
  | e :: rest =>
      match append_entry shortcuts e with
      | Raise x => Raise x
      | Ok (shortcuts', _) => append_all shortcuts' rest
      end
  end.

(* ===================================================================== *)
(** ** The world: file system, trace, environment                         *)
(* ===================================================================== *)

(** A [pathlib.Path]: its components, innermost first, so that the head is
    [path.name] and the tail is [path.parent]. *)
Definition fspath := list str.

Definition parent (p : fspath) : fspath := tl p.
Definition name (p : fspath) : str := hd [] p.

(** [p / c] for a single component [c]. *)
Definition joinpath (p : fspath) (c : str) : fspath := c :: p.
Infix "//" := joinpath (at level 40, left associativity).

Inductive node : Type :=
  | File (content : bytes)
  | Dir.

Inductive level : Type := DEBUG | INFO | WARNING | ERROR.

(** What the program does to the outside, in the order it happens. *)
Inductive event : Type :=
  | Log (lv : level) (fmt : string)          (* logger.<lv>(fmt, ...) *)
  | Run (cmd : list str)                     (* subprocess.run(cmd, ...) *)
  | Popen (cmd : list str) (shell : bool)    (* subprocess.Popen(cmd, ...) *)
  | Sleep (ms : Z)                           (* time.sleep, in milliseconds *)
  | Prompt (fmt : string).                   (* input(fmt) *)

Record world : Type := World {
  files : gmap fspath node;
  trace : list event
}.

(** The file operations that the environment can make fail (permissions,
    a full disk, a file held by another process, ...). *)
Inductive op : Type :=
  | OpMkdir (p : fspath)
  | OpCopy (src dst : fspath)
  | OpMkstemp (dir : fspath)
  | OpOpenW (p : fspath)
  | OpOpenR (p : fspath)
  | OpUnlink (p : fspath)
  | OpReplace (src dst : fspath).

(** A separator of the path syntax of the host: the slash, and the
    backslash under the Windows flavour of [pathlib], the one taken when
    [platform.system()] is [Windows]. *)
Definition is_sep (system : str) (c : Z) : bool :=
  (c =? 47) || (bool_decide (system = lit "Windows") && (c =? 92)).

(** A string that [pathlib] reads as one component of a relative path: no
    separator in it, not empty, not [.] or [..], and no drive letter in
    front. *)
Definition is_component (system : str) (s : str) : bool :=
  negb (existsb (is_sep system) s)
  && negb (bool_decide (s = []) || bool_decide (s = lit ".")
           || bool_decide (s = lit ".."))
  && negb (match s with _ :: c :: _ => c =? 58 | _ => false end).

(** The shape of a [suffix]: empty, or a dot and what follows it in the
    last component. *)
Definition is_suffix (system : str) (e : str) : bool :=
  negb (existsb (is_sep system) e)
  && match e with [] => true | c :: _ => c =? 46 end.

(** What a request for an image comes to (lines 384-403): no request
    without an API key; a request that raises; or a response, with its
    status and, for the status 200, the URL read from its body ([None]
    when the body gives none) or the exception of reading it. *)
Inductive grid_answer : Type :=
  | NoRequest
  | RequestFailed
  | Response (status : Z) (url : result (option str)).

(** What the search for a game comes to (lines 453-465): no request
    without an API key; a request or an answer that makes the [try] block
    raise; or the identifier found, if any. *)
Inductive search_answer : Type :=
  | SearchNoKey
  | SearchFailed
  | SearchResult (game_id : option Z).

(** What the host answers.  Each field is read where the source calls the
    library function named in its comment.  The last two fields are what
    [pathlib] ensures of the two before them. *)
Class Env : Type := {
  fault : op -> option exn;               (* an operation refused by the OS *)
  tmp_names : list str;                   (* names tried by tempfile, in order *)
  strftime : str;                         (* time.strftime("%Y%m%d-%H%M%S") *)
  Path : str -> fspath;                     (* pathlib.Path(s) *)
  path_str : fspath -> str;                 (* str(p) *)
  expanduser : fspath -> result fspath;       (* p.expanduser() *)
  home : result fspath;                     (* Path.home() *)
  platform_system : str;                  (* platform.system() *)
  which : str -> option str;              (* shutil.which(cmd) *)
  subprocess_run : list str -> result (Z * str);  (* returncode, stdout *)
  subprocess_Popen : list str -> bool -> option exn;
  stdin_isatty : bool;                    (* sys.stdin.isatty() *)
  stdin_input : result str;               (* input(...) *)
  steamgriddb_search : str -> search_answer;     (* session.get of line 458 *)
  steamgriddb_images : Z -> str -> grid_answer;  (* session.get of line 396 *)
  http_get : str -> option (Z * bytes);   (* status and body; None: no answer *)
  pil_resize : bytes -> result bytes;     (* PIL convert/resize/save *)
  url_suffix : str -> str;                (* Path(url).suffix *)
  path_join : fspath -> str -> fspath;    (* p / s for a string s *)
  path_join_component :
    forall p s, is_component platform_system s = true -> path_join p s = p // s;
  url_suffix_shape :
    forall u, is_suffix platform_system (url_suffix u) = true
}.

(** The [vdf] package.  [binary_dump_fp_obj] is the call
    [vdf.binary_dump(fp, obj)] and [binary_dump_obj_fp] the call
    [vdf.binary_dump(obj, fp)]: each gives the bytes that reach [fp] and the
    exception the call ends with, if any. *)
Class VdfLib : Type := {
  binary_load : bytes -> result dict;
  binary_dump_fp_obj : dict -> bytes * option exn;
  binary_dump_obj_fp : dict -> bytes * option exn
}.

(** *** The state-and-exception monad *)

Definition M (A : Type) : Type := world -> result A * world.

Definition ret {A} (a : A) : M A := fun w => (Ok a, w).

Definition bind {A B} (m : M A) (k : A -> M B) : M B :=
  fun w =>
    match m w with
    | (Ok a, w') => k a w'
    | (Raise e, w') => (Raise e, w')
    end.

Definition raise {A} (e : exn) : M A := fun w => (Raise e, w).

(** [try: body / except Exception as e: handler e]. *)
Definition try_except {A} (body : M A) (handler : exn -> M A) : M A :=
  fun w =>
    match body w with
    | (Ok a, w') => (Ok a, w')
    | (Raise e, w') => handler e w'
    end.

Definition lift {A} (r : result A) : M A := fun w => (r, w).

Declare Scope py_scope.
Delimit Scope py_scope with py.
Notation "'do' x <- m ; k" := (bind m (fun x => k))
  (at level 10, x name, m at level 100, k at level 200,
   format "'[v' 'do'  x  <-  m ; '/' k ']'") : py_scope.
Notation "m ;; k" := (bind m (fun _ => k))
  (at level 100, k at level 200, right associativity) : py_scope.
Local Open Scope py_scope.

Definition emit (e : event) : M unit :=
  fun w => (Ok tt, World (files w) (trace w ++ [e])).

Definition emit_all (es : list event) : M unit :=
  fun w => (Ok tt, World (files w) (trace w ++ es)).

Definition get_files : M (gmap fspath node) := fun w => (Ok (files w), w).

Definition put_files (f : gmap fspath node) : M unit :=
  fun w => (Ok tt, World f (trace w)).

Definition logger (lv : level) (fmt : string) : M unit := emit (Log lv fmt).

(** [time.sleep]. *)
Definition sleep (ms : Z) : M unit := emit (Sleep ms).

(** *** File operations *)

(** The node at a path; the root is a directory that always exists. *)
Definition node_at (f : gmap fspath node) (p : fspath) : option node :=
  match p with
  | [] => Some Dir
  | _ :: _ => f !! p
  end.

Definition is_dir (f : gmap fspath node) (p : fspath) : bool :=
  match node_at f p with Some Dir => true | _ => false end.

Definition is_free (f : gmap fspath node) (p : fspath) : bool :=
  match node_at f p with None => true | Some _ => false end.

(** The tree after [p.mkdir(parents=True, exist_ok=True)]: missing
    ancestors are created; a regular file at [p] is [FileExistsError], a
    regular file above [p] is [NotADirectoryError]. *)
Fixpoint mkdir_tree (p : fspath) (f : gmap fspath node) : result (gmap fspath node) :=
  match node_at f p with
  | Some Dir => Ok f
  | Some (File _) => Raise FileExistsError
  | None =>
      match p with
      | [] => Ok f
      | _ :: up =>
          match mkdir_tree up f with
          | Ok f' => Ok (<[p := Dir]> f')
          | Raise _ => Raise NotADirectoryError
          end
      end
  end.

Section Operations.
Context `{Env}.

Definition check_fault (o : op) : M unit :=
  match fault o with
  | Some e => raise e
  | None => ret tt
  end.

(** [p.exists()] on a path that [os.stat] can examine: found or not
    found.  (Where the program calls it on a path of the user data
    directory outside any [try], [path_exists] below adds the exception
    of a path that cannot be examined.) *)
Definition exists_ (p : fspath) : M bool :=
  do f <- get_files; ret (negb (is_free f p)).

(** [p.mkdir(parents=True, exist_ok=True)]. *)
Definition mkdir (p : fspath) : M unit :=
  check_fault (OpMkdir p) ;;
  do f <- get_files;
  do f' <- lift (mkdir_tree p f);
  put_files f'.

(** Where [shutil.copy2(src, dst)] writes: into [dst] when [dst] is a
    directory. *)
Definition copy_target (f : gmap fspath node) (src dst : fspath) : fspath :=
  if is_dir f dst then dst // name src else dst.

(** [shutil.copy2(src, dst)]. *)
Definition copy2 (src dst : fspath) : M unit :=
  check_fault (OpCopy src dst) ;;
  do f <- get_files;
  match node_at f src with
  | None => raise FileNotFoundError
  | Some Dir => raise IsADirectoryError
  | Some (File c) =>
      let target := copy_target f src dst in
      if bool_decide (target = src) then raise OSError
      else if is_dir f target then raise IsADirectoryError
      else if negb (is_dir f (parent target)) then raise FileNotFoundError
      else put_files (<[target := File c]> f)
  end.

(** [with tempfile.NamedTemporaryFile(dir=dir, delete=False) as tf]: the
    first candidate name not in use is created, empty, and closed. *)
Definition NamedTemporaryFile (dir : fspath) : M fspath :=
  check_fault (OpMkstemp dir) ;;
  do f <- get_files;
  if negb (is_dir f dir) then raise FileNotFoundError
  else
    match List.find (fun n => is_free f (dir // n)) tmp_names with
    | None => raise FileExistsError
    | Some n => put_files (<[dir // n := File []]> f) ;; ret (dir // n)
    end.

(** [p.open("wb")]: the file is created or truncated. *)
Definition open_wb (p : fspath) : M unit :=
  check_fault (OpOpenW p) ;;
  do f <- get_files;
  if is_dir f p then raise IsADirectoryError
  else if negb (is_dir f (parent p)) then raise FileNotFoundError
  else put_files (<[p := File []]> f).

(** [p.open("rb")] and [read()]. *)
Definition read_rb (p : fspath) : M bytes :=
  check_fault (OpOpenR p) ;;
  do f <- get_files;
  match node_at f p with
  | None => raise FileNotFoundError
  | Some Dir => raise IsADirectoryError
  | Some (File c) => ret c
  end.

(** [p.unlink(missing_ok=True)]. *)
Definition unlink_missing_ok (p : fspath) : M unit :=
  check_fault (OpUnlink p) ;;
  do f <- get_files;
  match node_at f p with
  | None => ret tt
  | Some Dir => raise IsADirectoryError
  | Some (File _) => put_files (delete p f)
  end.

(** [src.replace(dst)] for a regular file [src] (the program renames
    nothing but the temporary file it has written). *)
Definition replace (src dst : fspath) : M unit :=
  check_fault (OpReplace src dst) ;;
  do f <- get_files;
  match node_at f src with
  | None => raise FileNotFoundError
  | Some Dir => raise NotADirectoryError
  | Some (File c) =>
      if is_dir f dst then raise IsADirectoryError
      else if negb (is_dir f (parent dst)) then raise FileNotFoundError
      else put_files (<[dst := File c]> (delete src f))
  end.

End Operations.

(* ===================================================================== *)
(** ** The atomic writer, the loader and the dumper                       *)
(* ===================================================================== *)

Definition BACKUP_DIRNAME : str := lit "backups_shortcuts".

(** What one call [write_callable(fp)] does: the bytes it writes to [fp],
    what it logs, and the exception it ends with, if any.  (The callable
    receives the open temporary file and writes the document into it.) *)
Record write_callable : Type := Writer {
  written : bytes;
  wlog : list event;
  raised : option exn
}.

Section Persistence.
Context `{Env} `{VdfLib}.

(** [write_callable(f)] on the file open at [fp]. *)
Definition call_writer (wr : write_callable) (fp : fspath) : M unit :=
  do f <- get_files;
  match node_at f fp with
  | Some (File c) => put_files (<[fp := File (c ++ written wr)]> f)
  | _ => ret tt
  end ;;
  emit_all (wlog wr) ;;
  match raised wr with
  | Some e => raise e
  | None => ret tt
  end.

(** Where the backup of [path] goes (lines 124-127). *)
Definition backup_dir_of (path : fspath) : fspath := parent path // BACKUP_DIRNAME.
Definition backup_path_of (path : fspath) : fspath :=
  backup_dir_of path // (name path ++ lit ".bak." ++ strftime).

(** Lines 128-132: the copy, and the handler that turns its failure into
    a warning. *)
Definition guarded_copy (path : fspath) : M unit :=
  try_except
    (copy2 path (backup_path_of path) ;;
     logger INFO "Создан бэкап: %s")
    (fun e => logger WARNING "Не удалось создать бэкап: %s").

(** Lines 122-132: the parent directory and the backup. *)
Definition backup_phase (path : fspath) : M unit :=
  mkdir (parent path) ;;
  do ex <- exists_ path;
  if ex then
    mkdir (backup_dir_of path) ;;
    guarded_copy path
  else ret tt.

(** Lines 137-146: the temporary file is written; on an exception it is
    removed, an error of the removal is ignored, and the exception is
    raised again. *)
Definition write_phase (tmp_path : fspath) (wr : write_callable) : M unit :=
  try_except
    (open_wb tmp_path ;; call_writer wr tmp_path)
    (fun e =>
       try_except (unlink_missing_ok tmp_path) (fun _ => ret tt) ;;
       raise e).

(** [atomic_write_file_with_vdf(path, write_callable)]. *)
Definition atomic_write_file_with_vdf (path : fspath) (wr : write_callable)
  : M unit :=
  backup_phase path ;;
  do tmp_path <- NamedTemporaryFile (parent path);
  write_phase tmp_path wr ;;
  replace tmp_path path ;;
  logger DEBUG "Атомарная запись выполнена: %s".

(** [if "shortcuts" not in data: data.setdefault("shortcuts", {})]. *)
Definition ensure_shortcuts (data : dict) : dict :=
  if negb (dict_has (lit "shortcuts") data)
  then dict_setdefault (lit "shortcuts") (VMap []) data
  else data.

(** [load_shortcuts_binary(path)]. *)
Definition load_shortcuts_binary (path : fspath) : M dict :=
  do ex <- exists_ path;
  if negb ex then
    logger INFO "shortcuts.vdf не найден, создаётся новая структура." ;;
    ret empty_catalogue
  else
    try_except
      (do content <- read_rb path;
       do data <- lift (binary_load content);
       ret (ensure_shortcuts data))
      (fun e =>
         logger ERROR "Не удалось загрузить бинарный VDF %s: %s" ;;
         raise e).

(** The [writer] closure of [dump_shortcuts_binary]: first the call
    [vdf.binary_dump(fp, obj)]; when it raises, the exception is logged at
    debug level and [vdf.binary_dump(obj, fp)] is called on the same
    [fp]. *)
Definition writer (shortcuts_obj : dict) : write_callable :=
  match binary_dump_fp_obj shortcuts_obj with
  | (w1, None) => Writer w1 [] None
  | (w1, Some e1) =>
      let first_log :=
        match e1 with
        | TypeError =>
            Log DEBUG "vdf.binary_dump(fp, obj) TypeError: %s — пробуем обратный порядок"
        | _ => Log DEBUG "vdf.binary_dump(fp, obj) failed: %s"
        end in
      match binary_dump_obj_fp shortcuts_obj with
      | (w2, None) => Writer (w1 ++ w2) [first_log] None
      | (w2, Some e2) =>
          Writer (w1 ++ w2)
            [first_log; Log ERROR "vdf.binary_dump failed с обеих сигнатур: %s"]
            (Some e2)
      end
  end.

(** [dump_shortcuts_binary(path, shortcuts_obj)]. *)
Definition dump_shortcuts_binary (path : fspath) (shortcuts_obj : dict) : M unit :=
  atomic_write_file_with_vdf path (writer shortcuts_obj) ;;
  logger INFO "shortcuts.vdf записан: %s".

End Persistence.

(* ===================================================================== *)
(** ** Steam detection and control                                        *)
(* ===================================================================== *)

(** String methods, on the ASCII range (the literals they are compared
    with are ASCII). *)
Definition lower_char (c : Z) : Z :=
  if (65 <=? c) && (c <=? 90) then c + 32 else c.

(** [s.lower()]. *)
Definition str_lower (s : str) : str := List.map lower_char s.

(** [s.startswith(prefix)]. *)
Fixpoint startswith (s prefix : str) : bool :=
  match prefix, s with
  | [], _ => true
  | a :: prefix', b :: s' => (a =? b) && startswith s' prefix'
  | _ :: _, [] => false
  end.

(** [sub in s]. *)
Fixpoint str_contains (sub s : str) : bool :=
  startswith s sub ||
  match s with
  | [] => false
  | _ :: s' => str_contains sub s'
  end.

(** [c.isspace()]: the white space that [strip] removes, which is the
    ASCII one (TAB to CR, FS to US, SPACE) and, above it, NEL, NBSP, the
    Ogham space mark, EN QUAD to HAIR SPACE, the line and paragraph
    separators, the narrow and the medium mathematical space and the
    ideographic space. *)
Definition is_space (c : Z) : bool :=
  ((9 <=? c) && (c <=? 13)) || ((28 <=? c) && (c <=? 32))
  || (c =? 0x85) || (c =? 0xA0) || (c =? 0x1680)
  || ((0x2000 <=? c) && (c <=? 0x200A))
  || (c =? 0x2028) || (c =? 0x2029) || (c =? 0x202F) || (c =? 0x205F)
  || (c =? 0x3000).

Fixpoint lstrip (s : str) : str :=
  match s with
  | c :: s' => if is_space c then lstrip s' else s
  | [] => []
  end.

(** [s.strip()]. *)
Definition str_strip (s : str) : str := rev (lstrip (rev (lstrip s))).

(** Truth value of an optional string ([None] and [""] are false). *)
Definition truthy (o : option str) : bool :=
  match o with
  | Some (_ :: _) => true
  | _ => false
  end.

(** [a or b] on optional strings. *)
Definition or_else (a b : option str) : option str :=
  if truthy a then a else b.

Section Coordinator.
Context `{Env}.

(** [subprocess.run(cmd, ...)] without [check]: the completed process,
    or the exception of a command that could not be started. *)
Definition run (cmd : list str) : M (Z * str) :=
  emit (Run cmd) ;; lift (subprocess_run cmd).

(** [subprocess.Popen(cmd, ...)]. *)
Definition popen (cmd : list str) (shell : bool) : M unit :=
  emit (Popen cmd shell) ;;
  match subprocess_Popen cmd shell with
  | Some e => raise e
  | None => ret tt
  end.

(** [for p in possible: if p.exists(): return ...]. *)
Fixpoint any_exists (ps : list fspath) : M bool :=
  match ps with
  | [] => ret false
  | p :: rest => do ex <- exists_ p; if ex then ret true else any_exists rest
  end.

Definition local_steam_sh (h : fspath) : fspath :=
  h // lit ".local" // lit "share" // lit "Steam" // lit "steam.sh".

(** [detect_steam_variant()]. *)
Definition detect_steam_variant : M str :=
  let system := str_lower platform_system in
  if startswith system (lit "windows") then ret (lit "windows")
  else
    do found <-
      (if startswith system (lit "linux") then
         do flatpak <-
           (if truthy (which (lit "flatpak")) then
              try_except
                (do r <- run [lit "flatpak"; lit "info"; lit "com.valvesoftware.Steam"];
                 ret (fst r =? 0))
                (fun _ => ret false)
            else ret false);
         if flatpak then ret (Some (lit "linux_flatpak"))
         else if truthy (which (lit "steam")) then ret (Some (lit "linux_native"))
         else
           do h <- lift home;
           do ex <- any_exists [local_steam_sh h;
                                Path (lit "/usr/bin/steam");
                                Path (lit "/usr/games/steam")];
           if ex then ret (Some (lit "linux_native")) else ret None
       else ret None);
    match found with
    | Some v => ret v
    | None =>
        if startswith system (lit "darwin") then ret (lit "darwin_native")
        else ret (lit "unknown")
    end.

(** The [try] block of [is_steam_running]. *)
Definition probe (variant : str) : M bool :=
  if bool_decide (variant = lit "windows") then
    do out <- run [lit "tasklist"; lit "/FI"; lit "IMAGENAME eq steam.exe"];
    ret (str_contains (lit "steam.exe") (str_lower (snd out)))
  else if bool_decide (variant = lit "linux_flatpak") then
    do out <- run [lit "pgrep"; lit "-f"; lit "com.valvesoftware.Steam"];
    ret (fst out =? 0)
  else
    do out <- run [lit "pgrep"; lit "-f"; lit "steam"];
    ret (fst out =? 0).

(** [is_steam_running(variant)]. *)
Definition is_steam_running (variant : str) : M bool :=
  try_except (probe variant) (fun _ => ret false).

(** The [try] block of [stop_steam]; [false] when no branch applies and
    control reaches the final [return False]. *)
Definition stop_commands (variant : str) : M bool :=
  if bool_decide (variant = lit "windows") then
    run [lit "taskkill"; lit "/IM"; lit "steam.exe"; lit "/F"] ;; ret true
  else if bool_decide (variant = lit "linux_flatpak") then
    run [lit "flatpak"; lit "kill"; lit "com.valvesoftware.Steam"] ;;
    run [lit "pkill"; lit "-f"; lit "steam"] ;;
    ret true
  else if bool_decide (variant = lit "linux_native")
          || bool_decide (variant = lit "darwin_native") then
    run [lit "pkill"; lit "-f"; lit "steam"] ;; ret true
  else ret false.

(** [stop_steam(variant)]. *)
Definition stop_steam (variant : str) : M bool :=
  try_except (stop_commands variant) (fun _ => ret false).

(** [for p in candidates: if p.exists(): Popen([str(p)]); return True]. *)
Fixpoint start_first_existing (candidates : list fspath) : M bool :=
  match candidates with
  | [] => ret false
  | p :: rest =>
      do ex <- exists_ p;
      if ex then popen [path_str p] false ;; ret true
      else start_first_existing rest
  end.

Definition windows_candidates : list fspath :=
  [ Path (lit "C:\Program Files (x86)\Steam\Steam.exe");
    Path (lit "C:\Program Files\Steam\Steam.exe");
    Path (lit "C:\Program Files (x86)\Steam\steam.exe") ].

(** The [linux_native] branch of [start_steam]: [true] when it has
    returned [True], [false] when control falls through to the next
    [if]. *)
Definition start_linux_native : M bool :=
  match or_else (which (lit "steam")) (which (lit "steamcmd")) with
  | Some (c :: cmd) => popen [c :: cmd] false ;; ret true
  | _ =>
      do h <- lift home;
      do ex <- exists_ (local_steam_sh h);
      if ex then popen [path_str (local_steam_sh h)] false ;; ret true
      else ret false
  end.

(** The [try] block of [start_steam]; [false] when control reaches the
    final [return False]. *)
Definition start_commands (variant : str) : M bool :=
  if bool_decide (variant = lit "windows") then
    do started <- start_first_existing windows_candidates;
    if started then ret true
    else
      try_except
        (popen [lit "start"; lit "steam://open"] true ;; ret true)
        (fun _ => ret false)
  else if bool_decide (variant = lit "linux_flatpak") then
    popen [lit "flatpak"; lit "run"; lit "com.valvesoftware.Steam"] false ;;
    ret true
  else
    do started <-
      (if bool_decide (variant = lit "linux_native")
       then start_linux_native else ret false);
    if started then ret true
    else if bool_decide (variant = lit "darwin_native") then
      popen [lit "open"; lit "-a"; lit "Steam"] false ;; ret true
    else ret false.

(** [start_steam(variant)]. *)
Definition start_steam (variant : str) : M bool :=
  try_except (start_commands variant) (fun _ => ret false).

(** The confirmation asked by [restart_steam_if_running] (lines
    318-322): [true] when the user has not answered [y] or [yes]. *)
Definition declined_at_prompt (prompt_before_restart : bool) : M bool :=
  if prompt_before_restart && stdin_isatty then
    emit (Prompt "Steam (%s) работает. Остановить и перезапустить? [y/N]: ") ;;
    do line <- lift stdin_input;
    let ans := str_lower (str_strip line) in
    ret (negb (bool_decide (ans = lit "y") || bool_decide (ans = lit "yes")))
  else ret false.

(** [restart_steam_if_running(prompt_before_restart, allow_restart)]. *)
Definition restart_steam_if_running (prompt_before_restart allow_restart : bool)
  : M (str * bool) :=
  do variant <- detect_steam_variant;
  do running <- is_steam_running variant;
  if negb running then ret (variant, false)
  else if negb allow_restart then ret (variant, false)
  else
    do declined <- declined_at_prompt prompt_before_restart;
    if declined then
      logger INFO "Пользователь отменил перезапуск Steam." ;;
      ret (variant, false)
    else
      logger INFO "Останавливаем Steam (%s)..." ;;
      do stopped <- stop_steam variant;
      sleep 1500 ;;
      logger INFO "Запускаем Steam (%s)..." ;;
      do started <- start_steam variant;
      let performed := stopped || started in
      ret (variant, performed).

End Coordinator.

(* ===================================================================== *)
(** ** NonSteamGameAdder                                                  *)
(* ===================================================================== *)

Section Adder.
Context `{Env} `{VdfLib}.

(** [self.steam_dir] of the adder. *)
Variable steam_dir : fspath.

(** [self._user_path(user_id)]; a user id is one directory name. *)
Definition _user_path (user_id : str) : fspath := steam_dir // user_id.

(** [self.download_image(url, out_path, resize_to)]; [resize] tells
    whether [resize_to] is given. *)
Definition download_image (url : str) (out_path : fspath) (resize : bool)
  : M bool :=
  try_except
    (match http_get url with
     | None => raise OSError
     | Some (status, content) =>
         if negb (status =? 200) then
           logger DEBUG "Image download failed %s -> %s" ;; ret false
         else
           mkdir (parent out_path) ;;
           open_wb out_path ;;
           call_writer (Writer content [] None) out_path ;;
           logger INFO "Downloaded image %s" ;;
           (if resize then
              try_except
                (do raw <- read_rb out_path;
                 do png <- lift (pil_resize raw);
                 open_wb out_path ;;
                 call_writer (Writer png [] None) out_path ;;
                 logger INFO "Resized %s to %s")
                (fun _ => logger WARNING "Failed to resize %s: %s")
            else ret tt) ;;
           ret true
     end)
    (fun _ => logger DEBUG "download_image exception: %s" ;; ret false).

(** The file name chosen for an image of kind [t]. *)
Definition grid_file_name (app_id t ext : str) : str :=
  if bool_decide (t = lit "grid") then app_id ++ lit "p" ++ ext
  else if bool_decide (t = lit "wide_grid") then app_id ++ ext
  else app_id ++ lit "_" ++ t ++ ext.

(** [self.fetch_steamgriddb_image_url(game_id, image_type)]. *)
Definition fetch_steamgriddb_image_url (game_id : Z) (image_type : str)
  : M (option str) :=
  match steamgriddb_images game_id image_type with
  | NoRequest => ret None
  | RequestFailed =>
      logger DEBUG "fetch_steamgriddb_image_url exception: %s" ;; ret None
  | Response status body =>
      logger INFO "Fetching %s for %s -> HTTP %s" ;;
      if status =? 200 then
        match body with
        | Ok url => ret url
        | Raise _ =>
            logger DEBUG "fetch_steamgriddb_image_url exception: %s" ;; ret None
        end
      else ret None
  end.

(** The body of the loop of [save_images_to_grid]. *)
Definition save_image (grid_folder : fspath) (app_id : str) (game_id : Z)
  (t : str) : M unit :=
  do found <- fetch_steamgriddb_image_url game_id t;
  match found with
  | Some (c :: url') =>
      let url := c :: url' in
      let ext := match url_suffix url with [] => lit ".png" | e => e end in
      let out := path_join grid_folder (grid_file_name app_id t ext) in
      download_image url out (bool_decide (t = lit "icon")) ;; ret tt
  | _ => ret tt
  end.

Fixpoint for_each {A} (body : A -> M unit) (l : list A) : M unit :=
  match l with
  | [] => ret tt
  | x :: rest => body x ;; for_each body rest
  end.

(** [self.save_images_to_grid(app_id, game_id, user_id)]. *)
Definition save_images_to_grid (app_id : str) (game_id : Z) (user_id : str)
  : M unit :=
  let grid_folder := _user_path user_id // lit "config" // lit "grid" in
  mkdir grid_folder ;;
  for_each (save_image grid_folder app_id game_id)
    [lit "grid"; lit "wide_grid"; lit "hero"; lit "logo"; lit "icon"].

(** Where the catalogue of a user is (line 488). *)
Definition shortcuts_file_of (user_id : str) : fspath :=
  _user_path user_id // lit "config" // lit "shortcuts.vdf".

(** Lines 488-492: the catalogue is loaded; any exception of the loader
    is replaced by the empty catalogue. *)
Definition load_or_empty (shortcuts_file : fspath) : M dict :=
  try_except (load_shortcuts_binary shortcuts_file)
             (fun _ => ret empty_catalogue).

(** Lines 488-510: the document that will be written, which is the
    loaded catalogue (or the empty one) after the insertion of [entry]. *)
Definition prepare_document (shortcuts_file : fspath) (entry : value)
  : M dict :=
  do shortcuts <- load_or_empty shortcuts_file;
  do inserted <- lift (append_entry shortcuts entry);
  ret (fst inserted).

(** [self.search_game_on_steamgriddb(game_name)].  With an API key, the
    name is quoted into the URL before the [try] block; the quoting
    encodes it in UTF-8, strictly. *)
Definition search_game_on_steamgriddb (game_name : str) : M (option Z) :=
  match steamgriddb_search game_name with
  | SearchNoKey => ret None
  | SearchFailed =>
      lift (utf8_encode game_name) ;;
      logger DEBUG "search_game_on_steamgriddb exception: %s" ;;
      ret None
  | SearchResult game_id =>
      lift (utf8_encode game_name) ;;
      ret game_id
  end.

(** [self.add_non_steam_game(game_exe_path, game_name, user_id,
    launch_options)]. *)
Definition add_non_steam_game
  (game_exe_path game_name user_id launch_options : str) : M dict :=
  do exe_p <- lift (expanduser (Path game_exe_path));
  let exe := path_str exe_p in
  do found <- exists_ (Path exe);
  if negb found then raise FileNotFoundError
  else
    do app_id <- lift (generate_appid game_name exe);
    let game_path := path_str (parent (Path exe)) in
    do found <- search_game_on_steamgriddb game_name;
    match found with
    | Some game_id =>
        if game_id =? 0 then
          logger DEBUG "game_id не найден или API недоступен; пропускаем скачивание картинок."
        else
          logger INFO "Найден game_id %s; скачиваем изображения." ;;
          save_images_to_grid app_id game_id user_id
    | None =>
        logger DEBUG "game_id не найден или API недоступен; пропускаем скачивание картинок."
    end ;;
    let shortcuts_file := shortcuts_file_of user_id in
    let entry := make_entry app_id game_name exe game_path launch_options in
    do shortcuts <- prepare_document shortcuts_file entry;
    do r <- restart_steam_if_running false true;
    (if snd r then
       logger INFO "Steam перезапущен (%s) для освобождения блокировок файлов." ;;
       sleep 2000
     else ret tt) ;;
    dump_shortcuts_binary shortcuts_file shortcuts ;;
    logger INFO "Добавлена игра %s с appid %s для пользователя %s" ;;
    ret [(lit "status", VStr (lit "success")); (lit "app_id", VStr app_id)].

End Adder.

(* ===================================================================== *)
(** ** The local users (lines 343-380)                                    *)
(* ===================================================================== *)

(** [v.get(k, dflt)]: [None] stands for the [AttributeError] of a value
    that is not a mapping. *)
Definition value_get (k : str) (dflt : value) (v : value) : option value :=
  match v with
  | VMap d => Some (default dflt (dict_get k d))
  | _ => None
  end.

(** [str(v) in ("1", "true", "True")]; the text of a mapping starts with a
    brace. *)
Definition is_flag (v : value) : bool :=
  match v with
  | VStr s =>
      bool_decide (s = lit "1") || bool_decide (s = lit "true")
      || bool_decide (s = lit "True")
  | VInt n =>
      bool_decide (str_of_int n = lit "1") || bool_decide (str_of_int n = lit "true")
      || bool_decide (str_of_int n = lit "True")
  | VMap _ => false
  end.

(** [str(info.get("MostRecent", "")) in ("1", "true", "True")]. *)
Definition most_recent (info : dict) : bool :=
  is_flag (default (VStr []) (dict_get (lit "MostRecent") info)).

(** How the loop of lines 375-377 ends: it returns a user, it runs to its
    end, or a record that is not a mapping makes [info.get] raise
    [AttributeError]. *)
Inductive lookup : Type :=
  | Found (uid : str) (info : dict)
  | Exhausted
  | Broken.

Fixpoint find_most_recent (users : dict) : lookup :=
  match users with
  | [] => Exhausted
  | (uid, VMap info) :: rest =>
      if most_recent info then Found uid info else find_most_recent rest
  | _ :: _ => Broken
  end.

(** [data.get("UserLocalConfigStore", {}).get("friends", {})
    .get("PersonaName", "Unknown")] (line 358). *)
Definition persona_name (data : dict) : option value :=
  match value_get (lit "UserLocalConfigStore") (VMap []) (VMap data) with
  | Some store =>
      match value_get (lit "friends") (VMap []) store with
      | Some friends => value_get (lit "PersonaName") (VStr (lit "Unknown")) friends
      | None => None
      end
  | None => None
  end.

Section Users.
Context `{Env}.

(** [self.steam_dir] of the adder. *)
Variable steam_dir : fspath.

(** [vdf.load(f)] on a file opened as text with [errors="replace"]: the
    document parsed from the bytes of the file, or the exception of the
    parser. *)
Variable vdf_load : bytes -> result dict.

(** The exception of [d.iterdir()] when the directory cannot be listed. *)
Variable iterdir_fault : fspath -> option exn.

(** Whether a directory on the way to a path cannot be searched.  Then
    [os.stat] fails on the path, and so does opening it, with the same
    exception, the one that [fault] gives for the opening. *)
Variable unsearchable : fspath -> bool.

Definition stat_fault (p : fspath) : option exn :=
  if unsearchable p then fault (OpOpenR p) else None.

(** [p.exists()] and [p.is_dir()] where they are called outside any [try]
    (lines 346, 350, 354 and 369): a path that is not found is [False];
    another failure of [os.stat] is raised. *)
Definition path_exists (p : fspath) : M bool :=
  match stat_fault p with
  | Some e => raise e
  | None => exists_ p
  end.

Definition path_is_dir (p : fspath) : M bool :=
  match stat_fault p with
  | Some e => raise e
  | None => do f <- get_files; ret (is_dir f p)
  end.

(** [d.iterdir()]: the entries of the directory, in the order the host
    gives them. *)
Definition iterdir (d : fspath) : M (list fspath) :=
  match iterdir_fault d with
  | Some e => raise e
  | None =>
      do f <- get_files;
      match node_at f d with
      | None => raise FileNotFoundError
      | Some (File _) => raise NotADirectoryError
      | Some Dir =>
          ret (List.filter (fun p => bool_decide (p <> [] /\ parent p = d))
                 (List.map fst (map_to_list f)))
      end
  end.

(** Lines 354-365: the name of the user whose directory is [d].  The
    [AttributeError] of a chain of [get] that meets a value that is not a
    mapping is caught by the handler of line 360, like the exceptions of
    the file and of the parser. *)
Definition local_user_name (d : fspath) : M value :=
  let lc := d // lit "config" // lit "localconfig.vdf" in
  do found <- path_exists lc;
  if found then
    try_except
      (do raw <- read_rb lc;
       do data <- lift (vdf_load raw);
       match persona_name data with
       | Some username => ret username
       | None =>
           logger DEBUG "Парсинг %s failed: %s" ;; ret (VStr (lit "Unknown"))
       end)
      (fun _ => logger DEBUG "Парсинг %s failed: %s" ;; ret (VStr (lit "Unknown")))
  else ret (VStr (lit "Unknown")).

(** The loop of lines 349-365 over the entries [ds], from the dictionary
    [out]. *)
Fixpoint scan_user_dirs (ds : list fspath) (out : dict) : M dict :=
  match ds with
  | [] => ret out
  | d :: rest =>
      do dir <- path_is_dir d;
      if negb dir then scan_user_dirs rest out
      else
        do username <- local_user_name d;
        scan_user_dirs rest (dict_set (name d) username out)
  end.

(** [self.get_local_steam_usernames()]. *)
Definition get_local_steam_usernames : M dict :=
  do found <- path_exists steam_dir;
  if negb found then
    logger WARNING "Steam userdata path не найден: %s" ;; ret []
  else
    do ds <- iterdir steam_dir;
    scan_user_dirs ds [].

(** Where the file of the users that have logged in is (line 368). *)
Definition loginusers_file : fspath :=
  parent steam_dir // lit "config" // lit "loginusers.vdf".

(** [self.get_current_steam_user()]. *)
Definition get_current_steam_user : M (option (str * dict)) :=
  do found <- path_exists loginusers_file;
  if negb found then ret None
  else
    try_except
      (do raw <- read_rb loginusers_file;
       do data <- lift (vdf_load raw);
       match default (VMap []) (dict_get (lit "users") data) with
       | VMap users =>
           match find_most_recent users with
           | Found uid info => ret (Some (uid, info))
           | Exhausted => ret None
           | Broken =>
               logger DEBUG "Failed to parse loginusers.vdf: %s" ;; ret None
           end
       | _ => logger DEBUG "Failed to parse loginusers.vdf: %s" ;; ret None
       end)
      (fun _ => logger DEBUG "Failed to parse loginusers.vdf: %s" ;; ret None).

End Users.

(* ===================================================================== *)
(** ** A concrete host and a concrete codec                               *)
(* ===================================================================== *)

(** To run the definitions on concrete inputs: a small codec in the layout
    of binary VDF (tag byte, NUL-terminated key, payload, 0x08 closing a
    mapping; strings restricted to ASCII), and a POSIX-like host. *)
Module Sample.

Definition le32 (n : Z) : bytes :=
  let u := n mod 2 ^ 32 in
  [Z.land u 0xFF; Z.land (Z.shiftr u 8) 0xFF;
   Z.land (Z.shiftr u 16) 0xFF; Z.land (Z.shiftr u 24) 0xFF].

Definition of_le32 (b0 b1 b2 b3 : Z) : Z :=
  let u := b0 + 2 ^ 8 * b1 + 2 ^ 16 * b2 + 2 ^ 24 * b3 in
  if u <? 2 ^ 31 then u else u - 2 ^ 32.

Fixpoint encode_binding (k : str) (v : value) : bytes :=
  match v with
  | VStr s => [1] ++ k ++ [0] ++ s ++ [0]
  | VInt n => [2] ++ k ++ [0] ++ le32 n
  | VMap d =>
      [0] ++ k ++ [0] ++
      (fix items (d : list (str * value)) : bytes :=
         match d with
         | [] => []
         | (k', v') :: d' => encode_binding k' v' ++ items d'
         end) d ++ [8]
  end.

Definition encode (d : dict) : bytes :=
  flat_map (fun kv => encode_binding (fst kv) (snd kv)) d ++ [8].

(** The bytes up to the first NUL, and what follows it. *)
Fixpoint cstring (bs : bytes) : option (str * bytes) :=
  match bs with
  | [] => None
  | b :: rest =>
      if b =? 0 then Some ([], rest)
      else if 128 <=? b then None
      else match cstring rest with
           | Some (s, rest') => Some (b :: s, rest')
           | None => None
           end
  end.

(** The bindings of one mapping, up to its closing 0x08. *)
Fixpoint decode_items (fuel : nat) (acc : dict) (bs : bytes)
  : option (dict * bytes) :=
  match fuel with
  | O => None
  | S fuel' =>
      match bs with
      | [] => None
      | tag :: rest =>
          if tag =? 8 then Some (acc, rest)
          else
            match cstring rest with
            | None => None
            | Some (k, rest1) =>
                if tag =? 0 then
                  match decode_items fuel' [] rest1 with
                  | Some (d, rest2) =>
                      decode_items fuel' (dict_set k (VMap d) acc) rest2
                  | None => None
                  end
                else if tag =? 1 then
                  match cstring rest1 with
                  | Some (v, rest2) =>
                      decode_items fuel' (dict_set k (VStr v) acc) rest2
                  | None => None
                  end
                else if tag =? 2 then
                  match rest1 with
                  | b0 :: b1 :: b2 :: b3 :: rest2 =>
                      decode_items fuel'
                        (dict_set k (VInt (of_le32 b0 b1 b2 b3)) acc) rest2
                  | _ => None
                  end
                else None
            end
      end
  end.

Definition decode (bs : bytes) : result dict :=
  match decode_items (S (length bs)) [] bs with
  | Some (d, []) => Ok d
  | _ => Raise DecodeError
  end.

(** The package as installed: [binary_dump(obj, fp)] is the signature, so
    the call with the arguments swapped raises [TypeError] before anything
    is written. *)
Definition vdf : VdfLib :=
  {| binary_load := decode;
     binary_dump_fp_obj := fun _ => ([], Some TypeError);
     binary_dump_obj_fp := fun d => (encode d, None) |}.

(** A package whose [binary_dump] fails half-way, after [n] bytes. *)
Definition vdf_failing (n : nat) : VdfLib :=
  {| binary_load := decode;
     binary_dump_fp_obj := fun _ => ([], Some TypeError);
     binary_dump_obj_fp := fun d => (firstn n (encode d), Some OSError) |}.

(** [s.split("/")] without the empty components, innermost first. *)
Fixpoint split_slash (cur : str) (acc : fspath) (s : str) : fspath :=
  match s with
  | [] => match cur with [] => acc | _ => rev cur :: acc end
  | c :: s' =>
      if c =? 47
      then split_slash [] (match cur with [] => acc | _ => rev cur :: acc end) s'
      else split_slash (c :: cur) acc s'
  end.

Definition posix_path (s : str) : fspath := split_slash [] [] s.

Definition posix_str (p : fspath) : str :=
  flat_map (fun c => 47 :: c) (rev p).

(** Where the components [comps], outermost first, lead from [acc]: [.]
    stays, [..] goes to the parent. *)
Fixpoint resolve (acc : fspath) (comps : list str) : fspath :=
  match comps with
  | [] => acc
  | c :: rest =>
      if bool_decide (c = lit "..") then resolve (parent acc) rest
      else if bool_decide (c = lit ".") then resolve acc rest
      else resolve (acc // c) rest
  end.

(** [p / s] on the hosts of the examples: one more component, or the
    file that the host reaches for the joined text, which starts again
    from the root when [s] is absolute. *)
Definition join (system : str) (p : fspath) (s : str) : fspath :=
  if is_component system s then p // s
  else if startswith s (lit "/") then resolve [] (rev (posix_path s))
  else resolve p (rev (posix_path s)).

Definition join_component (system : str) (p : fspath) (s : str)
  (Hs : is_component system s = true) : join system p s = p // s.
Proof. unfold join. rewrite Hs. reflexivity. Defined.

(** A Linux host with a native Steam.  [ft] tells which file operations
    fail; [tools] is the return code of the commands that are run, or the
    exception raised when no command can be started; [answer] is what
    the user types at a prompt. *)
Definition host (ft : op -> option exn) (tools : result Z) (answer : str)
  : Env :=
  {| fault := ft;
     tmp_names := [lit "tmpk3x9_q2a"; lit "tmp0w8h5zt_"];
     strftime := lit "20240229-235959";
     Path := posix_path;
     path_str := posix_str;
     expanduser := fun p => Ok p;
     home := Ok (posix_path (lit "/home/deck"));
     platform_system := lit "Linux";
     which := fun c => if bool_decide (c = lit "steam")
                       then Some (lit "/usr/bin/steam") else None;
     subprocess_run :=
       fun _ => match tools with Ok rc => Ok (rc, []) | Raise e => Raise e end;
     subprocess_Popen :=
       fun _ _ => match tools with Ok _ => None | Raise e => Some e end;
     stdin_isatty := true;
     stdin_input := Ok answer;
     steamgriddb_search := fun _ => SearchNoKey;
     steamgriddb_images := fun _ _ => NoRequest;
     http_get := fun _ => None;
     pil_resize := fun b => Ok b;
     url_suffix := fun _ => [];
     path_join := join (lit "Linux");
     path_join_component := join_component (lit "Linux");
     url_suffix_shape := fun _ => eq_refl |}.

(** Other hosts: the platform name, the commands found on the PATH and
    what standard input gives are chosen; no file operation fails. *)
Definition custom_host (system : str) (on_path : str -> option str)
  (tools : result Z) (input : result str) : Env :=
  {| fault := fun _ => None;
     tmp_names := [lit "tmpk3x9_q2a"; lit "tmp0w8h5zt_"];
     strftime := lit "20240229-235959";
     Path := posix_path;
     path_str := posix_str;
     expanduser := fun p => Ok p;
     home := Ok (posix_path (lit "/home/deck"));
     platform_system := system;
     which := on_path;
     subprocess_run :=
       fun _ => match tools with Ok rc => Ok (rc, []) | Raise e => Raise e end;
     subprocess_Popen :=
       fun _ _ => match tools with Ok _ => None | Raise e => Some e end;
     stdin_isatty := true;
     stdin_input := input;
     steamgriddb_search := fun _ => SearchNoKey;
     steamgriddb_images := fun _ _ => NoRequest;
     http_get := fun _ => None;
     pil_resize := fun b => Ok b;
     url_suffix := fun _ => [];
     path_join := join system;
     path_join_component := join_component system;
     url_suffix_shape := fun _ => eq_refl |}.

(** A Linux host with both a Flatpak and a native Steam. *)
Definition both_on_path (c : str) : option str :=
  if bool_decide (c = lit "flatpak") then Some (lit "/usr/bin/flatpak")
  else if bool_decide (c = lit "steam") then Some (lit "/usr/bin/steam")
  else None.

(** A host on which the artwork service knows every game and the image
    requests are answered with [status]. *)
Definition online_host (status : Z) : Env :=
  {| fault := fun _ => None;
     tmp_names := [lit "tmpk3x9_q2a"; lit "tmp0w8h5zt_"];
     strftime := lit "20240229-235959";
     Path := posix_path;
     path_str := posix_str;
     expanduser := fun p => Ok p;
     home := Ok (posix_path (lit "/home/deck"));
     platform_system := lit "Linux";
     which := fun _ => None;
     subprocess_run := fun _ => Ok (1, []);
     subprocess_Popen := fun _ _ => None;
     stdin_isatty := true;
     stdin_input := Ok [];
     steamgriddb_search := fun _ => SearchResult (Some 77);
     steamgriddb_images :=
       fun _ t =>
         Response 200 (Ok (Some (lit "https://cdn.example/" ++ t ++ lit ".png")));
     http_get := fun _ => Some (status, [137; 80; 78; 71]);
     pil_resize := fun b => Ok b;
     url_suffix := fun _ => lit ".png";
     path_join := join (lit "Linux");
     path_join_component := join_component (lit "Linux");
     url_suffix_shape := fun _ => eq_refl |}.

(** The same host, the images of which have the suffix [.vdf]. *)
Definition online_host_vdf : Env :=
  {| fault := fun _ => None;
     tmp_names := [lit "tmpk3x9_q2a"; lit "tmp0w8h5zt_"];
     strftime := lit "20240229-235959";
     Path := posix_path;
     path_str := posix_str;
     expanduser := fun p => Ok p;
     home := Ok (posix_path (lit "/home/deck"));
     platform_system := lit "Linux";
     which := fun _ => None;
     subprocess_run := fun _ => Ok (1, []);
     subprocess_Popen := fun _ _ => None;
     stdin_isatty := true;
     stdin_input := Ok [];
     steamgriddb_search := fun _ => SearchResult (Some 77);
     steamgriddb_images :=
       fun _ t =>
         Response 200 (Ok (Some (lit "https://cdn.example/" ++ t ++ lit ".vdf")));
     http_get := fun _ => Some (200, [137; 80; 78; 71]);
     pil_resize := fun b => Ok b;
     url_suffix := fun _ => lit ".vdf";
     path_join := join (lit "Linux");
     path_join_component := join_component (lit "Linux");
     url_suffix_shape := fun _ => eq_refl |}.

Definition no_fault : op -> option exn := fun _ => None.

(** Only the removal of files is refused (a file held open by another
    process, say). *)
Definition unlink_refused : op -> option exn :=
  fun o => match o with OpUnlink _ => Some PermissionError | _ => None end.

(** Copies are refused. *)
Definition copy_refused : op -> option exn :=
  fun o => match o with OpCopy _ _ => Some PermissionError | _ => None end.

(** Nothing can be opened for reading. *)
Definition open_refused : op -> option exn :=
  fun o => match o with OpOpenR _ => Some PermissionError | _ => None end.

(** The final rename is refused. *)
Definition replace_refused : op -> option exn :=
  fun o => match o with OpReplace _ _ => Some PermissionError | _ => None end.

Definition steam_dir : fspath := posix_path (lit "/home/deck/.steam/steam/userdata").
Definition user_id : str := lit "4242".
Definition config_dir : fspath := steam_dir // user_id // lit "config".
Definition catalogue : fspath := config_dir // lit "shortcuts.vdf".
Definition game_exe : str := lit "/games/foo/run.bin".

Definition mkdirs (ps : list fspath) (f : gmap fspath node) : gmap fspath node :=
  fold_left (fun f p => match mkdir_tree p f with Ok f' => f' | Raise _ => f end)
            ps f.

(** A disk with the game installed and an empty [config] directory. *)
Definition disk0 : gmap fspath node :=
  <[posix_path game_exe := File [127; 69; 76; 70]]>
    (mkdirs [config_dir; posix_path (lit "/games/foo")] ∅).

Definition foo_entry : value :=
  make_entry (lit "2792489181") (lit "Foo Game") game_exe (lit "/games/foo") [].

(** The same disk with a catalogue of one entry. *)
Definition disk1 : gmap fspath node :=
  <[catalogue := File (encode [(lit "shortcuts", VMap [(lit "0", foo_entry)])])]> disk0.

(** The same disk with a catalogue that does not decode. *)
Definition disk_bad : gmap fspath node :=
  <[catalogue := File [0; 115; 104; 111]]> disk0.


(** The disk with a catalogue and a regular file where the backup
    directory should be. *)
Definition disk_blocked : gmap fspath node :=
  <[config_dir // BACKUP_DIRNAME := File []]> disk1.

(** The files of the users, in the layout of the codec above, which
    stands for the text parser in the examples. *)
Definition loginusers : dict :=
  [(lit "users",
    VMap [(lit "111", VMap [(lit "AccountName", VStr (lit "guest"));
                            (lit "MostRecent", VStr (lit "0"))]);
          (lit "4242", VMap [(lit "AccountName", VStr (lit "deck"));
                             (lit "MostRecent", VStr (lit "1"))])])].

Definition localconfig : dict :=
  [(lit "UserLocalConfigStore",
    VMap [(lit "friends", VMap [(lit "PersonaName", VStr (lit "deck"))])])].

Definition loginusers_path : fspath :=
  posix_path (lit "/home/deck/.steam/steam/config/loginusers.vdf").

(** A disk with two users, one of them with a [localconfig.vdf], and a
    regular file beside their directories. *)
Definition disk_users : gmap fspath node :=
  <[loginusers_path := File (encode loginusers)]>
    (<[config_dir // lit "localconfig.vdf" := File (encode localconfig)]>
       (<[steam_dir // lit "readme.txt" := File []]>
          (mkdirs [config_dir; steam_dir // lit "111"; parent loginusers_path] ∅))).

End Sample.

(* ===================================================================== *)
(** ** Notions used to state the properties                               *)
(* ===================================================================== *)

(** A computation that only adds to the log. *)
Definition appends {A} (m : M A) : Prop :=
  forall w r w', m w = (r, w') -> exists t, trace w' = trace w ++ t.


(** A record of [loginusers.vdf] that the search passes over: a mapping
    without the flag. *)
Definition unflagged (kv : str * value) : Prop :=
  exists d, snd kv = VMap d /\ most_recent d = false.

(** Where the name [v] listed for the user directory [d] comes from: it is
    the default, or what [localconfig.vdf] of the user gives. *)
Definition name_source `{Env} (vdf_load : bytes -> result dict)
  (f : gmap fspath node) (d : fspath) (v : value) : Prop :=
  v = VStr (lit "Unknown") \/
  exists raw data,
    node_at f (d // lit "config" // lit "localconfig.vdf") = Some (File raw) /\
    vdf_load raw = Ok data /\
    persona_name data = Some v.

(** The bindings ["start"], ["start+1"], ... of the given entries. *)
Definition numbered (start : nat) (entries : list value) : dict :=
  combine (List.map str_of_nat (seq start (length entries))) entries.

(** The field names of a shortcut entry, as the specification spells
    them. *)
Definition spec_field_names : list str :=
  [ lit "appid"; lit "appname"; lit "exe"; lit "startDir"; lit "launchOptions";
    lit "isHidden"; lit "allowDesktopConfig"; lit "openVR"; lit "devkit";
    lit "devkitGameId"; lit "lastPlayTime"; lit "tags" ].

(** A string between quotation marks. *)
Definition is_quoted (s : str) : Prop :=
  exists body, s = [34] ++ body ++ [34].

(** A string of decimal digits. *)
Definition is_decimal (s : str) : Prop :=
  exists n, 0 <= n /\ decimal_value s = Some n.

(** The probes of the process table and of the installation: the only
    commands run before a decision to restart is taken. *)
Definition is_probe (e : event) : bool :=
  match e with
  | Run cmd =>
      bool_decide (cmd = [lit "flatpak"; lit "info"; lit "com.valvesoftware.Steam"])
      || bool_decide (cmd = [lit "tasklist"; lit "/FI"; lit "IMAGENAME eq steam.exe"])
      || bool_decide (cmd = [lit "pgrep"; lit "-f"; lit "com.valvesoftware.Steam"])
      || bool_decide (cmd = [lit "pgrep"; lit "-f"; lit "steam"])
  | _ => false
  end.


(** A computation that leaves an existing node at [q] as it is. *)
Definition stable {A} (q : fspath) (m : M A) : Prop :=
  forall w r w',
    m w = (r, w') -> files w !! q <> None -> files w' !! q = files w !! q.

(** The files after the removal of the temporary file has been tried:
    nothing changes when the removal is refused. *)
Definition after_cleanup `{Env} (tmp_path : fspath) (f : gmap fspath node)
  : gmap fspath node :=
  match fault (OpUnlink tmp_path) with
  | Some _ => f
  | None => delete tmp_path f
  end.

(** A computation that leaves the files alone and adds to the trace only
    events that satisfy [P]. *)
Definition quiet {A} (P : event -> bool) (m : M A) : Prop :=
  forall w r w',
    m w = (r, w') ->
    files w' = files w /\
    exists evs, trace w' = trace w ++ evs /\ forallb P evs = true.

(* ===================================================================== *)
(** * Properties                                                          *)
(* ===================================================================== *)

(** A run is determined by its result and its final world. *)
Lemma run_result {A} (x : result A * world) (a : A) :
  fst x = Ok a -> x = (Ok a, snd x).
Proof. destruct x as [r w]. cbn. intros ->. reflexivity. Qed.

Lemma run_exception {A} (x : result A * world) (e : exn) :
  fst x = Raise e -> x = (Raise e, snd x).
Proof. destruct x as [r w]. cbn. intros ->. reflexivity. Qed.

(** ** Bit-level facts *)

Lemma lxor_below (n a b : Z) :
  0 < n -> 0 <= a < 2 ^ n -> 0 <= b < 2 ^ n -> 0 <= Z.lxor a b < 2 ^ n.
Proof.
  intros Hn Ha Hb.
  assert (Hnn : 0 <= Z.lxor a b) by (apply Z.lxor_nonneg; lia).
  split; [exact Hnn|].
  destruct (Z.eq_dec (Z.lxor a b) 0) as [->|Hz]; [apply Z.pow_pos_nonneg; lia|].
  apply Z.log2_lt_pow2; [lia|].
  pose proof (Z.log2_lxor a b ltac:(lia) ltac:(lia)) as Hl.
  assert (Z.log2 a < n).
  { destruct (Z.eq_dec a 0) as [->|]; [simpl; lia|].
    apply Z.log2_lt_pow2; lia. }
  assert (Z.log2 b < n).
  { destruct (Z.eq_dec b 0) as [->|]; [simpl; lia|].
    apply Z.log2_lt_pow2; lia. }
  lia.
Qed.

Lemma shiftr1_below (n c : Z) :
  0 < n -> 0 <= c < 2 ^ n -> 0 <= Z.shiftr c 1 < 2 ^ n.
Proof.
  intros Hn Hc. rewrite Z.shiftr_div_pow2 by lia. change (2 ^ 1) with 2.
  split; [apply Z.div_pos; lia|].
  apply Z.div_lt_upper_bound; lia.
Qed.

Lemma land_255_byte (b : Z) : 0 <= Z.land b 0xFF < 2 ^ 32.
Proof.
  change 0xFF with (Z.ones 8). rewrite Z.land_ones by lia.
  pose proof (Z.mod_pos_bound b (2 ^ 8) ltac:(lia)). lia.
Qed.

Module ZlibFacts.
Import Zlib.

Lemma step_range (c : Z) : 0 <= c < 2 ^ 32 -> 0 <= step c < 2 ^ 32.
Proof.
  intros Hc. unfold step.
  pose proof (shiftr1_below 32 c ltac:(lia) Hc).
  destruct (Z.testbit c 0); [|assumption].
  apply lxor_below; [lia|assumption|unfold poly; lia].
Qed.

Lemma iter_step_range (k : nat) (c : Z) :
  0 <= c < 2 ^ 32 -> 0 <= Nat.iter k step c < 2 ^ 32.
Proof.
  intros Hc. induction k as [|k IH]; simpl; [assumption|].
  apply step_range, IH.
Qed.

Lemma update_range (c b : Z) : 0 <= c < 2 ^ 32 -> 0 <= update c b < 2 ^ 32.
Proof.
  intros Hc. unfold update. apply iter_step_range.
  apply lxor_below; [lia|assumption|apply land_255_byte].
Qed.

Lemma fold_update_range (data : bytes) (c : Z) :
  0 <= c < 2 ^ 32 -> 0 <= fold_left update data c < 2 ^ 32.
Proof.
  revert c. induction data as [|b data IH]; intros c Hc; simpl; [assumption|].
  apply IH, update_range, Hc.
Qed.

(** The checksum is a 32-bit unsigned number. *)
Lemma crc32_range (data : bytes) : 0 <= crc32 data < 2 ^ 32.
Proof.
  unfold crc32. apply lxor_below; [lia| |lia].
  apply fold_update_range. lia.
Qed.

(** The check value of CRC-32 and the checksum of the empty input. *)
Example crc32_check_value : crc32 (lit "123456789") = 0xCBF43926.
Proof. vm_compute. reflexivity. Qed.

Example crc32_empty : crc32 [] = 0.
Proof. reflexivity. Qed.

End ZlibFacts.

(** Forcing bit 31 of a 32-bit number. *)
Lemma lor_sign_bit_range (c : Z) :
  0 <= c < 2 ^ 32 -> 2 ^ 31 <= Z.lor c 0x80000000 < 2 ^ 32.
Proof.
  intros Hc.
  assert (Hl : Z.log2 (Z.lor c 0x80000000) = 31).
  { rewrite Z.log2_lor by lia. change (Z.log2 0x80000000) with 31.
    assert (Z.log2 c < 32).
    { destruct (Z.eq_dec c 0) as [->|]; [simpl; lia|].
      apply Z.log2_lt_pow2; lia. }
    lia. }
  assert (Hpos : 0 < Z.lor c 0x80000000).
  { assert (0 <= Z.lor c 0x80000000) by (apply Z.lor_nonneg; lia).
    destruct (Z.eq_dec (Z.lor c 0x80000000) 0) as [E|]; [|lia].
    apply Z.lor_eq_0_iff in E. lia. }
  pose proof (Z.log2_spec _ Hpos) as Hs. rewrite Hl in Hs.
  change (Z.succ 31) with 32 in Hs. exact Hs.
Qed.

Lemma land_pow2 (c k : Z) :
  0 <= k -> Z.land c (2 ^ k) = if Z.testbit c k then 2 ^ k else 0.
Proof.
  intros Hk. apply Z.bits_inj'. intros j Hj. rewrite Z.land_spec.
  destruct (Z.eq_dec j k) as [->|Hne].
  - rewrite Z.pow2_bits_true by lia. rewrite andb_true_r.
    destruct (Z.testbit c k) eqn:E.
    + symmetry. apply Z.pow2_bits_true. lia.
    + symmetry. apply Z.bits_0.
  - rewrite (Z.pow2_bits_false k j) by lia. rewrite andb_false_r.
    destruct (Z.testbit c k).
    + symmetry. apply Z.pow2_bits_false. lia.
    + symmetry. apply Z.bits_0.
Qed.

Lemma testbit_31 (c : Z) :
  0 <= c < 2 ^ 32 -> Z.testbit c 31 = negb (c <? 2 ^ 31).
Proof.
  intros Hc. destruct (c <? 2 ^ 31) eqn:E; cbn [negb].
  - apply Z.ltb_lt in E. apply Z.testbit_false; [lia|].
    rewrite Z.div_small by lia. reflexivity.
  - apply Z.ltb_ge in E. apply Z.testbit_true; [lia|].
    assert (c / 2 ^ 31 = 1) as ->; [|reflexivity].
    symmetry. apply (Z.div_unique c (2 ^ 31) 1 (c - 2 ^ 31)); lia.
Qed.

(** Forcing the bit adds [2^31] when the bit is clear and changes nothing
    when it is set. *)
Lemma lor_sign_bit_value (c : Z) :
  0 <= c < 2 ^ 32 ->
  Z.lor c 0x80000000 = if c <? 2 ^ 31 then c + 2 ^ 31 else c.
Proof.
  intros Hc.
  pose proof (Z.add_lor_land c 0x80000000) as Hadd.
  change 0x80000000 with (2 ^ 31) in *.
  rewrite land_pow2, testbit_31 in Hadd by lia.
  destruct (c <? 2 ^ 31); cbn [negb] in Hadd; lia.
Qed.

(** ** Decimal strings *)

Lemma lit_cons (a : ascii) (s : string) :
  lit (String a s) = Z.of_N (N_of_ascii a) :: lit s.
Proof. reflexivity. Qed.

Ltac eval_digit :=
  match goal with
  | |- context [digit_value ?c] =>
      let v := eval vm_compute in (digit_value c) in
      change (digit_value c) with v; cbv beta iota
  end.

Lemma decimal_from_uint_acc (d : Decimal.uint) (acc : positive) :
  decimal_value_from (Z.pos acc) (lit (NilEmpty.string_of_uint d))
  = Some (Z.pos (Pos.of_uint_acc d acc)).
Proof.
  revert acc. induction d as [|d IH|d IH|d IH|d IH|d IH|d IH|d IH|d IH|d IH|d IH];
    intros acc; [reflexivity|..];
    cbn [NilEmpty.string_of_uint Pos.of_uint_acc]; rewrite lit_cons;
    cbn [decimal_value_from]; eval_digit; rewrite <- IH; f_equal; lia.
Qed.

Lemma decimal_from_uint (d : Decimal.uint) :
  decimal_value_from 0 (lit (NilEmpty.string_of_uint d))
  = Some (Z.of_N (Pos.of_uint d)).
Proof.
  induction d as [|d IH|d IH|d IH|d IH|d IH|d IH|d IH|d IH|d IH|d IH];
    [reflexivity|exact IH|..];
    cbn [NilEmpty.string_of_uint Pos.of_uint]; rewrite lit_cons;
    cbn [decimal_value_from]; eval_digit; apply decimal_from_uint_acc.
Qed.

(** [str(n)] of a non-negative [n] is a non-empty string of digits whose
    value is [n]. *)
Lemma decimal_value_str_of_int (n : Z) :
  0 <= n -> decimal_value (str_of_int n) = Some n.
Proof.
  intros Hn. destruct n as [|p|p]; [reflexivity| |lia].
  unfold str_of_int. cbn [Z.to_int NilZero.string_of_int].
  pose proof (Unsigned.to_uint_nonnil p) as Hnil.
  pose proof (Unsigned.of_to p) as Hof.
  pose proof (decimal_from_uint (Pos.to_uint p)) as Hval.
  rewrite Hof in Hval. cbn [Z.of_N] in Hval.
  destruct (Pos.to_uint p) eqn:E; [congruence|..];
    cbn [NilZero.string_of_uint]; rewrite <- Hval; reflexivity.
Qed.

Lemma str_of_int_inj (a b : Z) :
  0 <= a -> 0 <= b -> str_of_int a = str_of_int b -> a = b.
Proof.
  intros Ha Hb E.
  pose proof (decimal_value_str_of_int a Ha) as Va.
  rewrite E, (decimal_value_str_of_int b Hb) in Va. congruence.
Qed.

Lemma str_of_nat_inj (a b : nat) : str_of_nat a = str_of_nat b -> a = b.
Proof.
  intros E. apply Nat2Z.inj. apply str_of_int_inj; [lia|lia|exact E].
Qed.

(** A string with a decimal value holds digits only. *)
Lemma decimal_value_from_digits (s : str) (acc v : Z) :
  decimal_value_from acc s = Some v -> Forall (fun c => 48 <= c <= 57) s.
Proof.
  revert acc. induction s as [|c s IH]; intros acc Hv; [constructor|].
  cbn [decimal_value_from] in Hv. unfold digit_value in Hv.
  destruct ((48 <=? c) && (c <=? 57)) eqn:E; [|discriminate].
  apply andb_true_iff in E. destruct E as [E1 E2].
  apply Z.leb_le in E1. apply Z.leb_le in E2.
  constructor; [lia|]. eapply IH, Hv.
Qed.

Lemma decimal_value_digits (s : str) (v : Z) :
  decimal_value s = Some v -> s <> [] /\ Forall (fun c => 48 <= c <= 57) s.
Proof.
  destruct s as [|c s]; [discriminate|]. intros Hv. split; [discriminate|].
  eapply decimal_value_from_digits, Hv.
Qed.

(** ** UTF-8 *)

Ltac split_comparisons :=
  repeat match goal with
         | |- context [?a <? ?b] => destruct (Z.ltb_spec a b)
         | |- context [?a <=? ?b] => destruct (Z.leb_spec a b)
         end.

Lemma utf8_encode_char_scalar (c : Z) :
  is_scalar_value c = true -> exists bs, utf8_encode_char c = Ok bs.
Proof.
  unfold is_scalar_value, utf8_encode_char, is_surrogate.
  split_comparisons; cbn [andb negb]; intros Hc;
    solve [discriminate | lia | eauto].
Qed.

Lemma utf8_encode_char_surrogate (c : Z) :
  is_surrogate c = true -> utf8_encode_char c = Raise UnicodeEncodeError.
Proof.
  unfold utf8_encode_char, is_surrogate.
  split_comparisons; cbn [andb]; intros Hc;
    solve [discriminate | lia | reflexivity].
Qed.

(** Encoding never fails on scalar values. *)
Lemma utf8_encode_scalar (s : str) :
  forallb is_scalar_value s = true -> exists bs, utf8_encode s = Ok bs.
Proof.
  induction s as [|c s IH]; intros Hs; [exists []; reflexivity|].
  cbn [forallb] in Hs. apply andb_true_iff in Hs. destruct Hs as [Hc Hs].
  destruct (utf8_encode_char_scalar c Hc) as [bc Ec].
  destruct (IH Hs) as [bs Es].
  exists (bc ++ bs). cbn [utf8_encode]. rewrite Ec, Es. reflexivity.
Qed.

(** The encoding of a concatenation is the concatenation of the
    encodings. *)
Lemma utf8_encode_app (a b : str) (ba bb : bytes) :
  utf8_encode a = Ok ba -> utf8_encode b = Ok bb ->
  utf8_encode (a ++ b) = Ok (ba ++ bb).
Proof.
  revert ba. induction a as [|c a IH]; intros ba Ea Eb.
  - cbn in Ea. injection Ea as <-. exact Eb.
  - cbn [utf8_encode] in Ea. cbn [app utf8_encode].
    change ((c :: a) ++ b) with (c :: (a ++ b)). cbn [utf8_encode].
    destruct (utf8_encode_char c) as [bc|e]; [|discriminate].
    destruct (utf8_encode a) as [ba'|e]; [|discriminate].
    injection Ea as <-. rewrite (IH ba' eq_refl Eb).
    rewrite <- app_assoc. reflexivity.
Qed.

(** A string that holds a surrogate is not encodable. *)
Lemma utf8_encode_surrogate (s : str) :
  existsb is_surrogate s = true -> utf8_encode s = Raise UnicodeEncodeError.
Proof.
  induction s as [|c s IH]; intros Hs; [discriminate|].
  cbn [existsb] in Hs. cbn [utf8_encode].
  destruct (is_surrogate c) eqn:Ec.
  - rewrite (utf8_encode_char_surrogate c Ec). reflexivity.
  - cbn [orb] in Hs.
    destruct (utf8_encode_char c) as [bc|e] eqn:E.
    + rewrite (IH Hs). reflexivity.
    + unfold utf8_encode_char in E.
      repeat match type of E with
             | (if ?b then _ else _) = _ => destruct b
             end; congruence.
Qed.

(** ** The identifier generator *)

(** The scenario of the specification. *)
Example generate_appid_foo :
  generate_appid (lit "Foo Game") (lit "/games/foo/run.bin")
  = Ok (lit "2792489181").
Proof. vm_compute. reflexivity. Qed.

(** C2, as stated, fails: a [str] may hold a lone surrogate (an
    undecodable byte of a file name, escaped), and [encode("utf-8")] then
    raises [UnicodeEncodeError], so that the generator fails. *)
Lemma generate_appid_lone_surrogate_raises :
  generate_appid (lit "Foo Game") (lit "/games/caf" ++ [0xDCE9])
  = Raise UnicodeEncodeError
  /\ ~ (exists id, generate_appid (lit "Foo Game") (lit "/games/caf" ++ [0xDCE9])
                   = Ok id).
Proof.
  assert (E : generate_appid (lit "Foo Game") (lit "/games/caf" ++ [0xDCE9])
              = Raise UnicodeEncodeError) by (vm_compute; reflexivity).
  split; [exact E|]. intros [id Hid]. rewrite E in Hid. discriminate.
Qed.

(** C2 (amended): for an executable path and a display name made of
    Unicode scalar values (no lone surrogate), the generator does not fail
    and returns the unsigned decimal string of the CRC-32 of the UTF-8
    bytes of the path followed by those of the name, with bit 31 forced:
    the number lies in [2^31, 2^32), it is the checksum plus [2^31] when
    the checksum is below [2^31] and the checksum itself otherwise, and the
    string returned is made of digits whose value is that number.  The
    generator is a function of its two arguments alone. *)
Theorem generate_appid_spec (exe_path game_name : str) :
  forallb is_scalar_value exe_path = true ->
  forallb is_scalar_value game_name = true ->
  exists be bn : bytes,
    utf8_encode exe_path = Ok be /\
    utf8_encode game_name = Ok bn /\
    let crc := Zlib.crc32 (be ++ bn) in
    let id := Z.lor crc 0x80000000 in
    generate_appid game_name exe_path = Ok (str_of_int id) /\
    0 <= crc < 2 ^ 32 /\
    2 ^ 31 <= id < 2 ^ 32 /\
    id = (if crc <? 2 ^ 31 then crc + 2 ^ 31 else crc) /\
    decimal_value (str_of_int id) = Some id /\
    Forall (fun c => 48 <= c <= 57) (str_of_int id).
Proof.
  intros He Hn.
  destruct (utf8_encode_scalar exe_path He) as [be Ee].
  destruct (utf8_encode_scalar game_name Hn) as [bn En].
  exists be, bn. split; [exact Ee|]. split; [exact En|].
  pose proof (ZlibFacts.crc32_range (be ++ bn)) as Hcrc.
  pose proof (lor_sign_bit_range _ Hcrc) as Hid.
  cbv zeta.
  assert (Hdec : decimal_value (str_of_int (Z.lor (Zlib.crc32 (be ++ bn)) 0x80000000))
                 = Some (Z.lor (Zlib.crc32 (be ++ bn)) 0x80000000)).
  { apply decimal_value_str_of_int. lia. }
  split.
  { unfold generate_appid. rewrite (utf8_encode_app _ _ _ _ Ee En). reflexivity. }
  split; [exact Hcrc|]. split; [exact Hid|].
  split; [apply lor_sign_bit_value, Hcrc|].
  split; [exact Hdec|].
  apply (decimal_value_digits _ _ Hdec).
Qed.

Lemma generate_appid_spec_witness :
  forallb is_scalar_value (lit "/games/foo/run.bin") = true /\
  forallb is_scalar_value (lit "Foo Game") = true /\
  exists be bn : bytes,
    utf8_encode (lit "/games/foo/run.bin") = Ok be /\
    utf8_encode (lit "Foo Game") = Ok bn /\
    let crc := Zlib.crc32 (be ++ bn) in
    let id := Z.lor crc 0x80000000 in
    generate_appid (lit "Foo Game") (lit "/games/foo/run.bin") = Ok (str_of_int id) /\
    0 <= crc < 2 ^ 32 /\
    2 ^ 31 <= id < 2 ^ 32 /\
    id = (if crc <? 2 ^ 31 then crc + 2 ^ 31 else crc) /\
    decimal_value (str_of_int id) = Some id /\
    Forall (fun c => 48 <= c <= 57) (str_of_int id).
Proof.
  split; [reflexivity|]. split; [reflexivity|].
  apply (generate_appid_spec (lit "/games/foo/run.bin") (lit "Foo Game"));
    reflexivity.
Defined.

(** Outside that domain the generator raises. *)
Lemma generate_appid_surrogate (exe_path game_name : str) :
  existsb is_surrogate (exe_path ++ game_name) = true ->
  generate_appid game_name exe_path = Raise UnicodeEncodeError.
Proof.
  intros Hs. unfold generate_appid.
  rewrite (utf8_encode_surrogate _ Hs). reflexivity.
Qed.

(** ** Dictionaries *)

Lemma dict_get_set_same (k : str) (v : value) (d : dict) :
  dict_get k (dict_set k v d) = Some v.
Proof.
  induction d as [|[k' v'] d IH]; cbn [dict_set dict_get].
  - rewrite bool_decide_eq_true_2; reflexivity.
  - destruct (bool_decide (k' = k)) eqn:E; cbn [dict_get]; rewrite E; auto.
Qed.

Lemma dict_get_set_other (k k' : str) (v : value) (d : dict) :
  k <> k' -> dict_get k' (dict_set k v d) = dict_get k' d.
Proof.
  intros Hne. induction d as [|[k0 v0] d IH]; cbn [dict_set dict_get].
  - rewrite bool_decide_eq_false_2; [reflexivity|exact Hne].
  - destruct (bool_decide (k0 = k)) eqn:E; cbn [dict_get].
    + apply bool_decide_eq_true_1 in E. subst k0.
      rewrite !bool_decide_eq_false_2 by exact Hne. reflexivity.
    + rewrite IH. reflexivity.
Qed.

Lemma dict_set_fresh (k : str) (v : value) (d : dict) :
  dict_get k d = None -> dict_set k v d = d ++ [(k, v)].
Proof.
  induction d as [|[k' v'] d IH]; cbn [dict_set dict_get app]; [reflexivity|].
  destruct (bool_decide (k' = k)); [discriminate|].
  intros Hd. rewrite (IH Hd). reflexivity.
Qed.

Lemma dict_set_set (k : str) (v v0 : value) (d : dict) :
  dict_set k v (dict_set k v0 d) = dict_set k v d.
Proof.
  induction d as [|[k' v'] d IH]; cbn [dict_set].
  - rewrite bool_decide_eq_true_2; reflexivity.
  - destruct (bool_decide (k' = k)) eqn:E; cbn [dict_set]; rewrite E;
      [reflexivity|]. rewrite IH. reflexivity.
Qed.

Lemma dict_has_set (k : str) (v : value) (d : dict) :
  dict_has k (dict_set k v d) = true.
Proof. unfold dict_has. rewrite dict_get_set_same. reflexivity. Qed.

Lemma dict_has_setdefault (k : str) (v : value) (d : dict) :
  dict_has k (dict_setdefault k v d) = true.
Proof.
  unfold dict_setdefault. destruct (dict_has k d) eqn:E; [exact E|].
  apply dict_has_set.
Qed.

Lemma dict_get_not_in (k : str) (d : dict) :
  ~ In k (dict_keys d) -> dict_get k d = None.
Proof.
  induction d as [|[k' v'] d IH]; cbn [dict_keys List.map fst dict_get In];
    [reflexivity|].
  intros Hn. rewrite bool_decide_eq_false_2 by tauto. apply IH. tauto.
Qed.

Lemma dict_keys_set_fresh (k : str) (v : value) (d : dict) :
  dict_get k d = None -> dict_keys (dict_set k v d) = dict_keys d ++ [k].
Proof.
  intros Hd. rewrite (dict_set_fresh _ _ _ Hd). unfold dict_keys.
  rewrite List.map_app. reflexivity.
Qed.

Lemma dict_keys_set_present (k : str) (v : value) (d : dict) :
  dict_has k d = true -> dict_keys (dict_set k v d) = dict_keys d.
Proof.
  unfold dict_has.
  induction d as [|[k' v'] d IH]; cbn [dict_set dict_get dict_keys List.map fst];
    [discriminate|].
  destruct (bool_decide (k' = k)) eqn:E; cbn [List.map fst]; [reflexivity|].
  intros Hd. f_equal. apply IH, Hd.
Qed.

(** Assignment keeps the keys pairwise distinct. *)
Lemma dict_set_wf (k : str) (v : value) (d : dict) :
  dict_wf d -> dict_wf (dict_set k v d).
Proof.
  unfold dict_wf. intros Hwf.
  destruct (dict_has k d) eqn:E.
  - rewrite dict_keys_set_present by exact E. exact Hwf.
  - assert (Hg : dict_get k d = None).
    { unfold dict_has in E. destruct (dict_get k d); [discriminate|reflexivity]. }
    rewrite dict_keys_set_fresh by exact Hg.
    apply NoDup_app. split; [exact Hwf|]. split.
    + intros x Hx Hk. apply list_elem_of_In in Hx.
      apply list_elem_of_In in Hk. cbn [In] in Hk.
      destruct Hk as [->|[]].
      clear - Hx Hg. induction d as [|[k' v'] d IH]; [exact Hx|].
      cbn [dict_keys List.map fst In dict_get] in *.
      destruct (bool_decide (k' = x)) eqn:E; [discriminate|].
      apply bool_decide_eq_false_1 in E. destruct Hx as [Hx|Hx]; [tauto|].
      apply IH; assumption.
    + apply NoDup_singleton.
Qed.

(** ** Entry insertion *)

Lemma numbered_length (start : nat) (entries : list value) :
  length (numbered start entries) = length entries.
Proof.
  unfold numbered. rewrite length_combine, length_map, length_seq. lia.
Qed.

Lemma numbered_keys (start : nat) (entries : list value) :
  dict_keys (numbered start entries)
  = List.map str_of_nat (seq start (length entries)).
Proof.
  unfold numbered, dict_keys. revert start.
  induction entries as [|e es IH]; intros start; [reflexivity|].
  cbn [length seq List.map combine fst]. f_equal. apply IH.
Qed.

Lemma numbered_snoc (start : nat) (entries : list value) (e : value) :
  numbered start (entries ++ [e])
  = numbered start entries ++ [(str_of_nat (start + length entries)%nat, e)].
Proof.
  unfold numbered. revert start.
  induction entries as [|x es IH]; intros start.
  - cbn. rewrite Nat.add_0_r. reflexivity.
  - cbn [app length seq List.map combine]. rewrite IH.
    replace (S start + length es)%nat with (start + S (length es))%nat by lia.
    reflexivity.
Qed.

(** The next key is not yet in a contiguously numbered mapping. *)
Lemma numbered_next_free (entries : list value) :
  dict_get (str_of_nat (length entries)) (numbered 0 entries) = None.
Proof.
  apply dict_get_not_in. rewrite numbered_keys. intros Hin.
  apply in_map_iff in Hin. destruct Hin as [i [Hi Hseq]].
  apply str_of_nat_inj in Hi. apply in_seq in Hseq. lia.
Qed.

Lemma append_entry_present (doc m : dict) (entry : value) :
  dict_get (lit "shortcuts") doc = Some (VMap m) ->
  append_entry doc entry
  = Ok (dict_set (lit "shortcuts")
          (VMap (dict_set (str_of_nat (length m)) entry m)) doc,
        str_of_nat (length m)).
Proof.
  intros Hd. unfold append_entry, dict_setdefault, dict_has.
  rewrite Hd. cbn [default py_len]. rewrite Hd. reflexivity.
Qed.

Lemma append_entry_absent (doc : dict) (entry : value) :
  dict_get (lit "shortcuts") doc = None ->
  append_entry doc entry
  = Ok (doc ++ [(lit "shortcuts", VMap [(lit "0", entry)])], lit "0").
Proof.
  intros Hd. unfold append_entry, dict_setdefault, dict_has.
  rewrite Hd. cbn [default py_len].
  rewrite dict_get_set_same. cbn [from_option id py_setitem length dict_set].
  rewrite dict_set_set, (dict_set_fresh _ _ _ Hd). reflexivity.
Qed.

Lemma append_all_numbered (done entries : list value) :
  append_all [(lit "shortcuts", VMap (numbered 0 done))] entries
  = Ok [(lit "shortcuts", VMap (numbered 0 (done ++ entries)))].
Proof.
  revert done. induction entries as [|e es IH]; intros done.
  - rewrite app_nil_r. reflexivity.
  - cbn [append_all].
    rewrite (append_entry_present _ (numbered 0 done) e) by reflexivity.
    rewrite numbered_length.
    rewrite (dict_set_fresh _ _ _ (numbered_next_free done)).
    pose proof (numbered_snoc 0 done e) as Hsnoc. cbn [Nat.add] in Hsnoc.
    rewrite <- Hsnoc.
    change (dict_set (lit "shortcuts") ?v [(lit "shortcuts", ?old)])
      with [(lit "shortcuts", v)].
    rewrite IH, <- app_assoc. reflexivity.
Qed.

(** C3: appending to a document whose ["shortcuts"] mapping is [m] binds
    the entry under the key [str(len(m))] (under ["0"] when the document
    has no ["shortcuts"] yet); hence appending [k] entries to the empty
    catalogue gives the mapping whose keys are ["0"], ..., ["k-1"] in
    insertion order, the i-th key bound to the i-th entry; and the same
    entry appended twice gives two rows. *)
Theorem append_entry_contiguous (doc m : dict) (entry : value)
  (entries : list value) :
  (dict_get (lit "shortcuts") doc = Some (VMap m) ->
   exists doc',
     append_entry doc entry = Ok (doc', str_of_nat (length m)) /\
     dict_get (lit "shortcuts") doc'
     = Some (VMap (dict_set (str_of_nat (length m)) entry m)) /\
     dict_get (str_of_nat (length m)) (dict_set (str_of_nat (length m)) entry m)
     = Some entry) /\
  (dict_get (lit "shortcuts") doc = None ->
   append_entry doc entry
   = Ok (doc ++ [(lit "shortcuts", VMap [(lit "0", entry)])], lit "0")) /\
  append_all empty_catalogue entries
  = Ok [(lit "shortcuts", VMap (numbered 0 entries))] /\
  dict_keys (numbered 0 entries)
  = List.map str_of_nat (seq 0 (length entries)) /\
  length (numbered 0 entries) = length entries /\
  append_all empty_catalogue [entry; entry]
  = Ok [(lit "shortcuts", VMap [(lit "0", entry); (lit "1", entry)])].
Proof.
  split.
  { intros Hd. eexists. split; [apply append_entry_present, Hd|].
    split; apply dict_get_set_same. }
  split; [apply append_entry_absent|].
  split; [apply (append_all_numbered [] entries)|].
  split; [apply numbered_keys|].
  split; [apply numbered_length|].
  apply (append_all_numbered [] [entry; entry]).
Qed.

Lemma append_entry_contiguous_witness :
  dict_get (lit "shortcuts")
    [(lit "shortcuts", VMap [(lit "0", Sample.foo_entry)])]
  = Some (VMap [(lit "0", Sample.foo_entry)]) /\
  exists doc',
    append_entry [(lit "shortcuts", VMap [(lit "0", Sample.foo_entry)])]
      Sample.foo_entry
    = Ok (doc', lit "1").
Proof.
  split; [reflexivity|].
  destruct (proj1 (append_entry_contiguous
                     [(lit "shortcuts", VMap [(lit "0", Sample.foo_entry)])]
                     [(lit "0", Sample.foo_entry)] Sample.foo_entry [])
              eq_refl) as [doc' [Happ _]].
  exists doc'. exact Happ.
Defined.

(** The keys of three appended entries, spelled out. *)
Example append_three_keys (a b c : value) :
  append_all empty_catalogue [a; b; c]
  = Ok [(lit "shortcuts", VMap [(lit "0", a); (lit "1", b); (lit "2", c)])].
Proof. apply (append_all_numbered [] [a; b; c]). Qed.

(** ** The shortcut entry *)

Lemma generate_appid_decimal (game_name exe app_id : str) :
  generate_appid game_name exe = Ok app_id -> is_decimal app_id.
Proof.
  unfold generate_appid. destruct (utf8_encode (exe ++ game_name)) as [u|e];
    [|discriminate].
  intros E. injection E as <-.
  pose proof (lor_sign_bit_range _ (ZlibFacts.crc32_range u)) as Hr.
  exists (Z.lor (Zlib.crc32 u) 0x80000000).
  split; [lia|]. apply decimal_value_str_of_int. lia.
Qed.

(** C9 (amended): the entry built by the add operation has exactly twelve
    fields, in this order and under these keys: [appid] (the decimal
    string of the generator), [appname], [exe] and [StartDir] (paths
    between quotation marks), [LaunchOptions] (the string given, possibly
    empty), the flags [IsHidden], [AllowDesktopConfig], [OpenVR], [Devkit]
    as integers 0 or 1, [DevkitGameID] (a string), [LastPlayTime] (0) and
    [tags] (an empty mapping).  Eight of the names of the specification
    ([startDir], [launchOptions], [isHidden], [allowDesktopConfig],
    [openVR], [devkit], [devkitGameId], [lastPlayTime]) are not keys of
    the entry: they agree with its keys only up to letter case. *)
Theorem make_entry_fields (game_name exe game_path launch_options app_id : str) :
  generate_appid game_name exe = Ok app_id ->
  exists fields : dict,
    make_entry app_id game_name exe game_path launch_options = VMap fields /\
    dict_keys fields
    = [ lit "appid"; lit "appname"; lit "exe"; lit "StartDir";
        lit "LaunchOptions"; lit "IsHidden"; lit "AllowDesktopConfig";
        lit "OpenVR"; lit "Devkit"; lit "DevkitGameID"; lit "LastPlayTime";
        lit "tags" ] /\
    List.map str_lower (dict_keys fields) = List.map str_lower spec_field_names /\
    dict_wf fields /\
    dict_get (lit "appid") fields = Some (VStr app_id) /\
    is_decimal app_id /\
    dict_get (lit "appname") fields = Some (VStr game_name) /\
    dict_get (lit "exe") fields = Some (VStr (quote exe)) /\
    is_quoted (quote exe) /\
    dict_get (lit "StartDir") fields = Some (VStr (quote game_path)) /\
    is_quoted (quote game_path) /\
    dict_get (lit "LaunchOptions") fields = Some (VStr launch_options) /\
    dict_get (lit "IsHidden") fields = Some (VInt 0) /\
    dict_get (lit "AllowDesktopConfig") fields = Some (VInt 1) /\
    dict_get (lit "OpenVR") fields = Some (VInt 0) /\
    dict_get (lit "Devkit") fields = Some (VInt 0) /\
    dict_get (lit "DevkitGameID") fields = Some (VStr []) /\
    dict_get (lit "LastPlayTime") fields = Some (VInt 0) /\
    dict_get (lit "tags") fields = Some (VMap []) /\
    (forall k,
       In k [ lit "startDir"; lit "launchOptions"; lit "isHidden";
              lit "allowDesktopConfig"; lit "openVR"; lit "devkit";
              lit "devkitGameId"; lit "lastPlayTime" ] ->
       dict_get k fields = None).
Proof.
  intros Hid. eexists. split; [reflexivity|].
  split; [reflexivity|]. split; [reflexivity|].
  split.
  { unfold dict_wf. apply (bool_decide_unpack _). vm_compute. reflexivity. }
  split; [reflexivity|]. split; [eapply generate_appid_decimal, Hid|].
  split; [reflexivity|]. split; [reflexivity|].
  split; [exists exe; reflexivity|]. split; [reflexivity|].
  split; [exists game_path; reflexivity|].
  repeat (split; [reflexivity|]).
  intros k Hk. cbn [In] in Hk.
  repeat (destruct Hk as [<-|Hk]; [vm_compute; reflexivity|]).
  destruct Hk.
Qed.

Lemma make_entry_fields_witness :
  generate_appid (lit "Foo Game") Sample.game_exe = Ok (lit "2792489181") /\
  exists fields : dict,
    Sample.foo_entry = VMap fields /\
    dict_get (lit "appid") fields = Some (VStr (lit "2792489181")) /\
    dict_get (lit "AllowDesktopConfig") fields = Some (VInt 1).
Proof.
  split; [vm_compute; reflexivity|].
  destruct (make_entry_fields (lit "Foo Game") Sample.game_exe
              (lit "/games/foo") [] (lit "2792489181") eq_refl)
    as [fields [Hf [_ [_ [_ [Ha [_ [_ [_ [_ [_ [_ [_ [_ [Hd _]]]]]]]]]]]]]]].
  exists fields. split; [exact Hf|]. split; [exact Ha|exact Hd].
Defined.

(** C9, as stated, fails: the entry has no field named [startDir]; the
    start directory is under [StartDir], and the keys of the entry are not
    the names that the specification lists. *)
Lemma make_entry_spec_names_are_not_keys :
  exists fields : dict,
    Sample.foo_entry = VMap fields /\
    dict_keys fields <> spec_field_names /\
    dict_get (lit "startDir") fields = None /\
    dict_get (lit "StartDir") fields = Some (VStr (quote (lit "/games/foo"))).
Proof.
  eexists. split; [reflexivity|]. split; [|split].
  - intros E. vm_compute in E. discriminate E.
  - vm_compute. reflexivity.
  - vm_compute. reflexivity.
Qed.

(** ** The loader *)

Ltac unfold_monad :=
  unfold bind, ret, raise, try_except, lift, logger, sleep, emit, emit_all,
    get_files, put_files in *.

Lemma ensure_shortcuts_has (data : dict) :
  dict_has (lit "shortcuts") (ensure_shortcuts data) = true.
Proof.
  unfold ensure_shortcuts.
  destruct (dict_has (lit "shortcuts") data) eqn:E; cbn [negb]; [exact E|].
  apply dict_has_setdefault.
Qed.

Lemma ensure_shortcuts_present (data : dict) :
  dict_has (lit "shortcuts") data = true -> ensure_shortcuts data = data.
Proof. unfold ensure_shortcuts. intros ->. reflexivity. Qed.

Lemma ensure_shortcuts_absent (data : dict) :
  dict_has (lit "shortcuts") data = false ->
  ensure_shortcuts data = data ++ [(lit "shortcuts", VMap [])].
Proof.
  unfold ensure_shortcuts, dict_setdefault. intros E. rewrite E. cbn [negb].
  apply dict_set_fresh. unfold dict_has in E.
  destruct (dict_get (lit "shortcuts") data); [discriminate|reflexivity].
Qed.

(** Every binding of the decoded data is in the document returned. *)
Lemma ensure_shortcuts_keeps (data : dict) (k : str) (v : value) :
  dict_get k data = Some v -> dict_get k (ensure_shortcuts data) = Some v.
Proof.
  intros Hk. unfold ensure_shortcuts, dict_setdefault.
  destruct (dict_has (lit "shortcuts") data) eqn:E; cbn [negb]; [exact Hk|].
  rewrite dict_get_set_other; [exact Hk|].
  intros <-. unfold dict_has in E. rewrite Hk in E. discriminate.
Qed.

Section LoaderFacts.
Context `{Env} `{VdfLib}.

Lemma exists_spec (p : fspath) (w : world) :
  exists_ p w = (Ok (negb (is_free (files w) p)), w).
Proof. reflexivity. Qed.

Lemma read_rb_file (p : fspath) (w : world) (content : bytes) :
  node_at (files w) p = Some (File content) ->
  fault (OpOpenR p) = None ->
  read_rb p w = (Ok content, w).
Proof.
  intros Hn Hf. unfold read_rb, check_fault. rewrite Hf.
  unfold_monad. rewrite Hn. reflexivity.
Qed.

(** Reading changes nothing, whatever it returns. *)
Lemma read_rb_world (p : fspath) (w w' : world) (r : result bytes) :
  read_rb p w = (r, w') -> w' = w.
Proof.
  unfold read_rb, check_fault. destruct (fault (OpOpenR p)); unfold_monad.
  - intros E. injection E as _ <-. reflexivity.
  - destruct (node_at (files w) p) as [[c|]|]; intros E;
      injection E as _ <-; reflexivity.
Qed.

(** A file that decodes: the document is returned and nothing changes. *)
Lemma load_shortcuts_binary_decoded (path : fspath) (w : world)
  (content : bytes) (data : dict) :
  node_at (files w) path = Some (File content) ->
  fault (OpOpenR path) = None ->
  binary_load content = Ok data ->
  load_shortcuts_binary path w = (Ok (ensure_shortcuts data), w).
Proof.
  intros Hn Hf Hd.
  unfold load_shortcuts_binary, bind. rewrite exists_spec.
  unfold is_free. rewrite Hn. cbn [negb].
  unfold try_except, bind. rewrite (read_rb_file _ _ _ Hn Hf).
  unfold lift. rewrite Hd. reflexivity.
Qed.

(** A file that does not decode: the error is logged and raised. *)
Lemma load_shortcuts_binary_undecodable (path : fspath) (w : world)
  (content : bytes) (e : exn) :
  node_at (files w) path = Some (File content) ->
  fault (OpOpenR path) = None ->
  binary_load content = Raise e ->
  load_shortcuts_binary path w
  = (Raise e,
     World (files w)
       (trace w ++ [Log ERROR "Не удалось загрузить бинарный VDF %s: %s"])).
Proof.
  intros Hn Hf Hd.
  unfold load_shortcuts_binary, bind. rewrite exists_spec.
  unfold is_free. rewrite Hn. cbn [negb].
  unfold try_except, bind. rewrite (read_rb_file _ _ _ Hn Hf).
  unfold lift. rewrite Hd. reflexivity.
Qed.

(** C4: [load_shortcuts_binary] returns a fresh [{"shortcuts": {}}] when
    nothing exists at the path; when the file exists and decodes, it
    returns the decoded document (the very dictionary decoded, to which
    an empty ["shortcuts"] is added in place if it has none: every
    binding decoded is kept, and a document that has the key is returned
    as it is); when the file exists and the decoder raises, or the file
    cannot be read, the error is logged and raised to the caller. *)
Theorem load_shortcuts_binary_cases (path : fspath) (w : world) :
  (node_at (files w) path = None ->
   load_shortcuts_binary path w
   = (Ok empty_catalogue,
      World (files w)
        (trace w ++ [Log INFO "shortcuts.vdf не найден, создаётся новая структура."]))) /\
  (forall content data,
     node_at (files w) path = Some (File content) ->
     fault (OpOpenR path) = None ->
     binary_load content = Ok data ->
     load_shortcuts_binary path w = (Ok (ensure_shortcuts data), w) /\
     (dict_has (lit "shortcuts") data = true -> ensure_shortcuts data = data) /\
     (forall k v, dict_get k data = Some v ->
                  dict_get k (ensure_shortcuts data) = Some v)) /\
  (forall content e,
     node_at (files w) path = Some (File content) ->
     fault (OpOpenR path) = None ->
     binary_load content = Raise e ->
     load_shortcuts_binary path w
     = (Raise e,
        World (files w)
          (trace w ++ [Log ERROR "Не удалось загрузить бинарный VDF %s: %s"]))) /\
  (forall e,
     node_at (files w) path <> None ->
     read_rb path w = (Raise e, w) ->
     load_shortcuts_binary path w
     = (Raise e,
        World (files w)
          (trace w ++ [Log ERROR "Не удалось загрузить бинарный VDF %s: %s"]))).
Proof.
  split; [|split; [|split]].
  - intros Hn. unfold load_shortcuts_binary, bind. rewrite exists_spec.
    unfold is_free. rewrite Hn. reflexivity.
  - intros content data Hn Hf Hd.
    split; [|split; [apply ensure_shortcuts_present|apply ensure_shortcuts_keeps]].
    apply (load_shortcuts_binary_decoded _ _ _ _ Hn Hf Hd).
  - intros content e Hn Hf Hd.
    apply (load_shortcuts_binary_undecodable _ _ _ _ Hn Hf Hd).
  - intros e Hn Hr.
    unfold load_shortcuts_binary, bind. rewrite exists_spec.
    unfold is_free. destruct (node_at (files w) path); [|congruence].
    cbn [negb]. unfold try_except, bind. rewrite Hr. reflexivity.
Qed.

(** A document returned by the loader has the ["shortcuts"] key. *)
Lemma load_shortcuts_binary_has (path : fspath) (w w' : world) (doc : dict) :
  load_shortcuts_binary path w = (Ok doc, w') ->
  dict_has (lit "shortcuts") doc = true.
Proof.
  unfold load_shortcuts_binary, bind. rewrite exists_spec.
  destruct (negb (negb (is_free (files w) path))).
  - unfold_monad. intros E. injection E as <- _. reflexivity.
  - unfold try_except, bind.
    destruct (read_rb path w) as [[content|e] w1]; unfold_monad.
    + destruct (binary_load content) as [data|e].
      * intros E. injection E as <- _. apply ensure_shortcuts_has.
      * discriminate.
    + discriminate.
Qed.

(** The loader leaves the files as they are. *)
Lemma load_shortcuts_binary_files (path : fspath) (w w' : world)
  (r : result dict) :
  load_shortcuts_binary path w = (r, w') -> files w' = files w.
Proof.
  unfold load_shortcuts_binary, bind. rewrite exists_spec.
  destruct (negb (negb (is_free (files w) path))).
  - unfold_monad. intros E. injection E as _ <-. reflexivity.
  - unfold try_except, bind.
    destruct (read_rb path w) as [[content|e] w1] eqn:Er;
      apply read_rb_world in Er; subst w1; unfold_monad.
    + destruct (binary_load content) as [data|e];
        intros E; injection E as _ <-; reflexivity.
    + intros E. injection E as _ <-. reflexivity.
Qed.

End LoaderFacts.

Lemma load_shortcuts_binary_cases_witness :
  node_at Sample.disk1 Sample.catalogue
  = Some (File (Sample.encode
                  [(lit "shortcuts", VMap [(lit "0", Sample.foo_entry)])])) /\
  @load_shortcuts_binary (Sample.host Sample.no_fault (Ok 1) []) Sample.vdf
    Sample.catalogue (World Sample.disk1 [])
  = (Ok [(lit "shortcuts", VMap [(lit "0", Sample.foo_entry)])],
     World Sample.disk1 []).
Proof.
  split; [vm_compute; reflexivity|].
  pose proof (proj1 (proj2 (@load_shortcuts_binary_cases
                              (Sample.host Sample.no_fault (Ok 1) []) Sample.vdf
                              Sample.catalogue (World Sample.disk1 []))))
    as Hload.
  destruct (Hload (Sample.encode
                     [(lit "shortcuts", VMap [(lit "0", Sample.foo_entry)])])
              [(lit "shortcuts", VMap [(lit "0", Sample.foo_entry)])])
    as [Hok _].
  - vm_compute. reflexivity.
  - reflexivity.
  - vm_compute. reflexivity.
  - exact Hok.
Defined.

(** ** The ["shortcuts"] key *)

Lemma append_entry_has (doc doc' : dict) (entry : value) (k : str) :
  append_entry doc entry = Ok (doc', k) ->
  dict_has (lit "shortcuts") doc' = true.
Proof.
  unfold append_entry.
  destruct (py_len _) as [idx|e]; [|discriminate].
  destruct (py_setitem _ _ _) as [inner'|e]; [|discriminate].
  intros E. injection E as <- _. apply dict_has_set.
Qed.

Section DocumentFacts.
Context `{Env} `{VdfLib}.

Lemma load_or_empty_has (path : fspath) (w w' : world) (doc : dict) :
  load_or_empty path w = (Ok doc, w') ->
  dict_has (lit "shortcuts") doc = true.
Proof.
  unfold load_or_empty, try_except.
  destruct (load_shortcuts_binary path w) as [[d|e] w1] eqn:El.
  - intros E. injection E as <- _. eapply load_shortcuts_binary_has, El.
  - unfold ret. intros E. injection E as <- _. reflexivity.
Qed.

Lemma load_or_empty_files (path : fspath) (w w' : world) (r : result dict) :
  load_or_empty path w = (r, w') -> files w' = files w.
Proof.
  unfold load_or_empty, try_except.
  destruct (load_shortcuts_binary path w) as [[d|e] w1] eqn:El;
    apply load_shortcuts_binary_files in El.
  - intros E. injection E as _ <-. exact El.
  - unfold ret. intros E. injection E as _ <-. exact El.
Qed.

Lemma prepare_document_has (path : fspath) (entry : value) (w w' : world)
  (doc : dict) :
  prepare_document path entry w = (Ok doc, w') ->
  dict_has (lit "shortcuts") doc = true.
Proof.
  unfold prepare_document, bind.
  destruct (load_or_empty path w) as [[d|e] w1]; [|discriminate].
  unfold lift.
  destruct (append_entry d entry) as [[d' k]|e] eqn:Ea; [|discriminate].
  unfold ret. intros E. injection E as <- _. eapply append_entry_has, Ea.
Qed.

Lemma prepare_document_files (path : fspath) (entry : value) (w w' : world)
  (r : result dict) :
  prepare_document path entry w = (r, w') -> files w' = files w.
Proof.
  unfold prepare_document, bind.
  destruct (load_or_empty path w) as [[d|e] w1] eqn:El;
    apply load_or_empty_files in El.
  - unfold lift. destruct (append_entry d entry) as [[d' k]|e]; unfold ret;
      intros E; injection E as _ <-; exact El.
  - intros E. injection E as _ <-. exact El.
Qed.

(** C8: every catalogue document the program holds has the top-level
    ["shortcuts"] key: the empty catalogue created for a missing file has
    it; the loader adds it to decoded data that lacks it, so whatever
    the loader returns has it; the fallback taken when the loader raises
    has it; entry insertion yields a document that has it, whatever
    document it starts from; so the document that the add operation
    writes has it. *)
Theorem shortcuts_key_present (path : fspath) (entry : value)
  (w w' : world) (data doc doc' : dict) (k : str) :
  dict_has (lit "shortcuts") empty_catalogue = true /\
  dict_has (lit "shortcuts") (ensure_shortcuts data) = true /\
  (load_shortcuts_binary path w = (Ok doc, w') ->
   dict_has (lit "shortcuts") doc = true) /\
  (load_or_empty path w = (Ok doc, w') ->
   dict_has (lit "shortcuts") doc = true) /\
  (append_entry doc entry = Ok (doc', k) ->
   dict_has (lit "shortcuts") doc' = true) /\
  (prepare_document path entry w = (Ok doc, w') ->
   dict_has (lit "shortcuts") doc = true).
Proof.
  split; [reflexivity|].
  split; [apply ensure_shortcuts_has|].
  split; [apply load_shortcuts_binary_has|].
  split; [apply load_or_empty_has|].
  split; [apply append_entry_has|].
  apply prepare_document_has.
Qed.

End DocumentFacts.

(** A catalogue file that decodes to a document without ["shortcuts"]
    (here the empty mapping, the single byte 0x08). *)
Lemma shortcuts_key_present_witness :
  @load_shortcuts_binary (Sample.host Sample.no_fault (Ok 1) []) Sample.vdf
    Sample.catalogue (World (<[Sample.catalogue := File [8]]> Sample.disk0) [])
  = (Ok empty_catalogue,
     World (<[Sample.catalogue := File [8]]> Sample.disk0) []) /\
  dict_has (lit "shortcuts") empty_catalogue = true.
Proof.
  assert (Hl : @load_shortcuts_binary (Sample.host Sample.no_fault (Ok 1) []) Sample.vdf
                 Sample.catalogue
                 (World (<[Sample.catalogue := File [8]]> Sample.disk0) [])
               = (Ok empty_catalogue,
                  World (<[Sample.catalogue := File [8]]> Sample.disk0) [])).
  { apply (@load_shortcuts_binary_decoded
             (Sample.host Sample.no_fault (Ok 1) []) Sample.vdf
             Sample.catalogue
             (World (<[Sample.catalogue := File [8]]> Sample.disk0) [])
             [8] []).
    - vm_compute. reflexivity.
    - reflexivity.
    - vm_compute. reflexivity. }
  split; [exact Hl|].
  exact (proj1 (proj2 (proj2
           (@shortcuts_key_present (Sample.host Sample.no_fault (Ok 1) []) Sample.vdf
              Sample.catalogue (VInt 0)
              (World (<[Sample.catalogue := File [8]]> Sample.disk0) [])
              (World (<[Sample.catalogue := File [8]]> Sample.disk0) [])
              [] empty_catalogue [] []))) Hl).
Defined.

(** ** Process control *)

Section CoordinatorFacts.
Context `{Env}.

Lemma guarded_total (body : M bool) (w : world) :
  exists b w', try_except body (fun _ => ret false) w = (Ok b, w').
Proof.
  unfold try_except, ret. destruct (body w) as [[b|e] w1]; eauto.
Qed.

Lemma guarded_raise (body : M bool) (w w1 : world) (e : exn) :
  body w = (Raise e, w1) ->
  try_except body (fun _ => ret false) w = (Ok false, w1).
Proof. unfold try_except, ret. intros ->. reflexivity. Qed.

Lemma run_raise (cmd : list str) (w : world) (e : exn) :
  subprocess_run cmd = Raise e ->
  run cmd w = (Raise e, World (files w) (trace w ++ [Run cmd])).
Proof. intros Hr. unfold run. unfold_monad. rewrite Hr. reflexivity. Qed.

Lemma popen_raise (cmd : list str) (sh : bool) (w : world) (e : exn) :
  subprocess_Popen cmd sh = Some e ->
  popen cmd sh w = (Raise e, World (files w) (trace w ++ [Popen cmd sh])).
Proof. intros Hr. unfold popen. unfold_monad. rewrite Hr. reflexivity. Qed.

(** Without a working [subprocess.run] the probe and the stop report
    [False]. *)
Lemma probe_without_run (variant : str) (w : world) :
  (forall cmd, exists e, subprocess_run cmd = Raise e) ->
  exists e w1, probe variant w = (Raise e, w1).
Proof.
  intros Hall. unfold probe.
  repeat match goal with
         | |- context [bool_decide ?P] => destruct (bool_decide P)
         end;
    match goal with
    | |- context [run ?cmd] =>
        destruct (Hall cmd) as [e He]; exists e; eexists;
        unfold bind; rewrite (run_raise _ _ _ He); reflexivity
    end.
Qed.

Lemma stop_without_run (variant : str) (w : world) :
  (forall cmd, exists e, subprocess_run cmd = Raise e) ->
  fst (stop_steam variant w) = Ok false.
Proof.
  intros Hall. unfold stop_steam, stop_commands.
  repeat match goal with
         | |- context [bool_decide ?P] => destruct (bool_decide P)
         end; cbn [orb];
    try match goal with
      | |- context [try_except (run ?cmd ;; _)] =>
          destruct (Hall cmd) as [e He];
          unfold try_except, bind; rewrite (run_raise _ _ _ He)
      end; reflexivity.
Qed.

Lemma start_first_existing_without_popen (candidates : list fspath) (w : world) :
  (forall cmd sh, exists e, subprocess_Popen cmd sh = Some e) ->
  (exists e w1, start_first_existing candidates w = (Raise e, w1)) \/
  start_first_existing candidates w = (Ok false, w).
Proof.
  intros Hall. induction candidates as [|p rest IH]; [right; reflexivity|].
  assert (Hstep : start_first_existing (p :: rest) w
                  = if negb (is_free (files w) p)
                    then (popen [path_str p] false ;; ret true) w
                    else start_first_existing rest w).
  { cbn [start_first_existing]. unfold bind at 1. rewrite exists_spec.
    destruct (negb (is_free (files w) p)); reflexivity. }
  rewrite Hstep. destruct (negb (is_free (files w) p)); [|exact IH].
  left. destruct (Hall [path_str p] false) as [e He].
  exists e. eexists. unfold bind. rewrite (popen_raise _ _ _ _ He). reflexivity.
Qed.

Lemma start_linux_native_without_popen (w : world) :
  (forall cmd sh, exists e, subprocess_Popen cmd sh = Some e) ->
  (exists e w1, start_linux_native w = (Raise e, w1)) \/
  start_linux_native w = (Ok false, w).
Proof.
  intros Hall. unfold start_linux_native.
  destruct (or_else (which (lit "steam")) (which (lit "steamcmd")))
    as [[|c cmd]|].
  2:{ left. destruct (Hall [c :: cmd] false) as [e He]. exists e. eexists.
      unfold bind. rewrite (popen_raise _ _ _ _ He). reflexivity. }
  all: unfold bind, lift; destruct home as [h|e]; [|left; eauto];
    rewrite exists_spec;
    destruct (negb (is_free (files w) (local_steam_sh h)));
    [left; destruct (Hall [path_str (local_steam_sh h)] false) as [e He];
     exists e; eexists; rewrite (popen_raise _ _ _ _ He); reflexivity
    |right; reflexivity].
Qed.

Lemma start_without_popen (variant : str) (w : world) :
  (forall cmd sh, exists e, subprocess_Popen cmd sh = Some e) ->
  fst (start_steam variant w) = Ok false.
Proof.
  intros Hall. unfold start_steam, start_commands, try_except.
  destruct (bool_decide (variant = lit "windows")).
  { unfold bind at 1.
    destruct (start_first_existing_without_popen windows_candidates w Hall)
      as [[e [w1 ->]]| ->]; [reflexivity|].
    destruct (Hall [lit "start"; lit "steam://open"] true) as [e He].
    unfold try_except, bind. rewrite (popen_raise _ _ _ _ He). reflexivity. }
  destruct (bool_decide (variant = lit "linux_flatpak")).
  { destruct (Hall [lit "flatpak"; lit "run"; lit "com.valvesoftware.Steam"] false)
      as [e He].
    unfold bind. rewrite (popen_raise _ _ _ _ He). reflexivity. }
  unfold bind at 1.
  assert (Hmid : (exists e w1,
                    (if bool_decide (variant = lit "linux_native")
                     then start_linux_native else ret false) w = (Raise e, w1)) \/
                 (if bool_decide (variant = lit "linux_native")
                  then start_linux_native else ret false) w = (Ok false, w)).
  { destruct (bool_decide (variant = lit "linux_native"));
      [apply start_linux_native_without_popen, Hall|right; reflexivity]. }
  destruct Hmid as [[e [w1 ->]]| ->]; [reflexivity|].
  destruct (bool_decide (variant = lit "darwin_native")); [|reflexivity].
  destruct (Hall [lit "open"; lit "-a"; lit "Steam"] false) as [e He].
  unfold bind. rewrite (popen_raise _ _ _ _ He). reflexivity.
Qed.

(** C7: for every variant (any string), [is_steam_running], [stop_steam]
    and [start_steam] return a boolean and never raise; an exception in
    the probe makes [is_steam_running] return [False]; an exception while
    stopping or starting makes [stop_steam] and [start_steam] return
    [False]; in particular on a host where no command can be run at all,
    the three of them return [False]. *)
Theorem process_control_never_raises (variant : str) (w : world) :
  (exists b w', is_steam_running variant w = (Ok b, w')) /\
  (exists b w', stop_steam variant w = (Ok b, w')) /\
  (exists b w', start_steam variant w = (Ok b, w')) /\
  (forall e w1, probe variant w = (Raise e, w1) ->
                is_steam_running variant w = (Ok false, w1)) /\
  (forall e w1, stop_commands variant w = (Raise e, w1) ->
                stop_steam variant w = (Ok false, w1)) /\
  (forall e w1, start_commands variant w = (Raise e, w1) ->
                start_steam variant w = (Ok false, w1)) /\
  ((forall cmd, exists e, subprocess_run cmd = Raise e) ->
   fst (is_steam_running variant w) = Ok false /\
   fst (stop_steam variant w) = Ok false) /\
  ((forall cmd sh, exists e, subprocess_Popen cmd sh = Some e) ->
   fst (start_steam variant w) = Ok false).
Proof.
  split; [apply guarded_total|].
  split; [apply guarded_total|].
  split; [apply guarded_total|].
  split; [intros e w1; apply guarded_raise|].
  split; [intros e w1; apply guarded_raise|].
  split; [intros e w1; apply guarded_raise|].
  split.
  - intros Hall. split; [|apply stop_without_run, Hall].
    destruct (probe_without_run variant w Hall) as [e [w1 Hp]].
    unfold is_steam_running. rewrite (guarded_raise _ _ _ _ Hp). reflexivity.
  - apply start_without_popen.
Qed.

End CoordinatorFacts.

(** A host on which no command can be started. *)
Lemma process_control_never_raises_witness :
  (forall cmd, exists e,
      @subprocess_run (Sample.host Sample.no_fault (Raise FileNotFoundError) []) cmd
      = Raise e) /\
  fst (@is_steam_running (Sample.host Sample.no_fault (Raise FileNotFoundError) [])
         (lit "linux_native") (World Sample.disk0 [])) = Ok false /\
  fst (@stop_steam (Sample.host Sample.no_fault (Raise FileNotFoundError) [])
         (lit "linux_native") (World Sample.disk0 [])) = Ok false.
Proof.
  assert (Hall : forall cmd, exists e,
             @subprocess_run (Sample.host Sample.no_fault (Raise FileNotFoundError) []) cmd
             = Raise e) by (intros cmd; exists FileNotFoundError; reflexivity).
  split; [exact Hall|].
  exact (proj1 (proj2 (proj2 (proj2 (proj2 (proj2 (proj2
           (@process_control_never_raises
              (Sample.host Sample.no_fault (Raise FileNotFoundError) [])
              (lit "linux_native") (World Sample.disk0 [])))))))) Hall).
Defined.

(** ** Computations that do not touch the files *)

Section Quiet.
Context `{Env}.
Variable P : event -> bool.

Lemma quiet_ret {A} (a : A) : quiet P (ret a).
Proof.
  intros w r w' E. injection E as _ <-. split; [reflexivity|].
  exists []. rewrite app_nil_r. split; reflexivity.
Qed.

Lemma quiet_raise {A} (e : exn) : quiet P (@raise A e).
Proof.
  intros w r w' E. injection E as _ <-. split; [reflexivity|].
  exists []. rewrite app_nil_r. split; reflexivity.
Qed.

Lemma quiet_lift {A} (x : result A) : quiet P (lift x).
Proof.
  intros w r w' E. injection E as _ <-. split; [reflexivity|].
  exists []. rewrite app_nil_r. split; reflexivity.
Qed.

Lemma quiet_emit (e : event) : P e = true -> quiet P (emit e).
Proof.
  intros He w r w' E. injection E as _ <-. split; [reflexivity|].
  exists [e]. split; [reflexivity|]. cbn. rewrite He. reflexivity.
Qed.

Lemma quiet_bind {A B} (m : M A) (k : A -> M B) :
  quiet P m -> (forall a, quiet P (k a)) -> quiet P (bind m k).
Proof.
  intros Hm Hk w r w' E. unfold bind in E.
  destruct (m w) as [[a|e] w1] eqn:Em.
  - destruct (Hm _ _ _ Em) as [Hf [evs1 [Ht1 Hp1]]].
    destruct (Hk a _ _ _ E) as [Hf2 [evs2 [Ht2 Hp2]]].
    split; [congruence|]. exists (evs1 ++ evs2).
    rewrite Ht2, Ht1, <- app_assoc, forallb_app, Hp1, Hp2. split; reflexivity.
  - injection E as _ <-. eapply Hm, Em.
Qed.

Lemma quiet_try {A} (body : M A) (handler : exn -> M A) :
  quiet P body -> (forall e, quiet P (handler e)) ->
  quiet P (try_except body handler).
Proof.
  intros Hm Hk w r w' E. unfold try_except in E.
  destruct (body w) as [[a|e] w1] eqn:Em.
  - injection E as <- <-. eapply Hm, Em.
  - destruct (Hm _ _ _ Em) as [Hf [evs1 [Ht1 Hp1]]].
    destruct (Hk e _ _ _ E) as [Hf2 [evs2 [Ht2 Hp2]]].
    split; [congruence|]. exists (evs1 ++ evs2).
    rewrite Ht2, Ht1, <- app_assoc, forallb_app, Hp1, Hp2. split; reflexivity.
Qed.

Lemma quiet_exists (p : fspath) : quiet P (exists_ p).
Proof.
  unfold exists_, get_files. intros w r w' E. unfold bind, ret in E.
  injection E as _ <-. split; [reflexivity|].
  exists []. rewrite app_nil_r. split; reflexivity.
Qed.

Lemma quiet_run (cmd : list str) : P (Run cmd) = true -> quiet P (run cmd).
Proof.
  intros Hp. unfold run. apply quiet_bind; [apply quiet_emit, Hp|].
  intros _. apply quiet_lift.
Qed.

Lemma quiet_popen (cmd : list str) (sh : bool) :
  P (Popen cmd sh) = true -> quiet P (popen cmd sh).
Proof.
  intros Hp. unfold popen. apply quiet_bind; [apply quiet_emit, Hp|].
  intros _. destruct (subprocess_Popen cmd sh); [apply quiet_raise|apply quiet_ret].
Qed.

Lemma quiet_any_exists (ps : list fspath) : quiet P (any_exists ps).
Proof.
  induction ps as [|p ps IH]; cbn [any_exists]; [apply quiet_ret|].
  apply quiet_bind; [apply quiet_exists|].
  intros [|]; [apply quiet_ret|exact IH].
Qed.

End Quiet.

Create HintDb quiet.
#[export] Hint Resolve quiet_ret quiet_raise quiet_lift quiet_exists
  quiet_any_exists : quiet.

(** Splits a computation into its sequenced parts and its branches. *)
Ltac quiet_step :=
  first
    [ apply quiet_ret
    | apply quiet_raise
    | apply quiet_lift
    | apply quiet_exists
    | apply quiet_any_exists
    | apply quiet_run; reflexivity
    | apply quiet_popen; reflexivity
    | apply quiet_emit; reflexivity
    | apply quiet_try; [|intros ?]
    | apply quiet_bind; [|intros ?]
    | match goal with
      | |- quiet _ (if ?b then _ else _) => destruct b
      | |- quiet _ (match ?x with _ => _ end) => destruct x
      end ].

Ltac quiet_auto := repeat quiet_step; auto with quiet.

Section CoordinatorQuiet.
Context `{Env}.

(** Detecting the variant and probing the process table run probes
    only. *)
Lemma detect_steam_variant_probes : quiet is_probe detect_steam_variant.
Proof. unfold detect_steam_variant. quiet_auto. Qed.

Lemma is_steam_running_probes (variant : str) :
  quiet is_probe (is_steam_running variant).
Proof. unfold is_steam_running, probe. quiet_auto. Qed.







End CoordinatorQuiet.


(** ** The restart coordinator *)

Section RestartFacts.
Context `{Env}.

(** Without a prompt nothing is asked and nothing is declined. *)
Lemma declined_at_prompt_off (w : world) :
  declined_at_prompt false w = (Ok false, w).
Proof. reflexivity. Qed.

Lemma declined_at_prompt_no_tty (prompt_before_restart : bool) (w : world) :
  stdin_isatty = false ->
  declined_at_prompt prompt_before_restart w = (Ok false, w).
Proof.
  intros Htty. unfold declined_at_prompt. rewrite Htty, andb_false_r.
  reflexivity.
Qed.

(** C6 (amended): once the variant is detected and the probe has
    answered, [restart_steam_if_running] has run nothing but probes.  It
    returns [(variant, False)] on the spot when the client is not running
    or when [allow_restart] is false.  Otherwise the confirmation is asked
    when [prompt_before_restart] is set and standard input is a terminal:
    an [input] that raises makes the function raise, with nothing stopped
    or started; an answer that, stripped and in lower case, is neither [y]
    nor [yes] is noted in the log and gives [(variant, False)], again with
    nothing stopped or started.  When nothing is asked, or the answer is
    [y] or [yes], the function calls [stop_steam], sleeps 1.5 seconds,
    calls [start_steam], and returns [(variant, stopped or started)]. *)
Theorem restart_steam_if_running_spec
  (prompt_before_restart allow_restart : bool) (w w1 w2 : world)
  (variant : str) (running : bool) :
  detect_steam_variant w = (Ok variant, w1) ->
  is_steam_running variant w1 = (Ok running, w2) ->
  (files w2 = files w /\
   exists evs, trace w2 = trace w ++ evs /\ forallb is_probe evs = true) /\
  (running = false \/ allow_restart = false ->
   restart_steam_if_running prompt_before_restart allow_restart w
   = (Ok (variant, false), w2)) /\
  (running = true -> allow_restart = true ->
   let asked := prompt_before_restart && stdin_isatty in
   let w3 :=
     if asked
     then World (files w2)
            (trace w2
             ++ [Prompt "Steam (%s) работает. Остановить и перезапустить? [y/N]: "])
     else w2 in
   (asked = true -> forall e, stdin_input = Raise e ->
    restart_steam_if_running prompt_before_restart allow_restart w
    = (Raise e, w3)) /\
   (asked = true -> forall line, stdin_input = Ok line ->
    str_lower (str_strip line) <> lit "y" ->
    str_lower (str_strip line) <> lit "yes" ->
    restart_steam_if_running prompt_before_restart allow_restart w
    = (Ok (variant, false),
       World (files w3)
         (trace w3 ++ [Log INFO "Пользователь отменил перезапуск Steam."]))) /\
   (asked = false \/
    (exists line, stdin_input = Ok line /\
       (str_lower (str_strip line) = lit "y" \/
        str_lower (str_strip line) = lit "yes")) ->
    exists (stopped started : bool) (w4 w5 : world),
      stop_steam variant
        (World (files w3) (trace w3 ++ [Log INFO "Останавливаем Steam (%s)..."]))
      = (Ok stopped, w4) /\
      start_steam variant
        (World (files w4)
           (trace w4 ++ [Sleep 1500] ++ [Log INFO "Запускаем Steam (%s)..."]))
      = (Ok started, w5) /\
      restart_steam_if_running prompt_before_restart allow_restart w
      = (Ok (variant, stopped || started), w5))).
Proof.
  intros Hdet Hrun.
  split.
  { destruct (detect_steam_variant_probes _ _ _ Hdet) as [Hf1 [evs1 [Ht1 Hp1]]].
    destruct (is_steam_running_probes variant _ _ _ Hrun) as [Hf2 [evs2 [Ht2 Hp2]]].
    split; [congruence|]. exists (evs1 ++ evs2).
    rewrite Ht2, Ht1, <- app_assoc, forallb_app, Hp1, Hp2. split; reflexivity. }
  split.
  { intros Hno. unfold restart_steam_if_running, bind. rewrite Hdet, Hrun.
    destruct Hno as [-> | ->]; [reflexivity|].
    destruct running; reflexivity. }
  intros -> ->. cbv zeta.
  assert (Hgo : forall w3,
            declined_at_prompt prompt_before_restart w2 = (Ok false, w3) ->
            exists (stopped started : bool) (w4 w5 : world),
              stop_steam variant
                (World (files w3)
                   (trace w3 ++ [Log INFO "Останавливаем Steam (%s)..."]))
              = (Ok stopped, w4) /\
              start_steam variant
                (World (files w4)
                   (trace w4 ++ [Sleep 1500]
                    ++ [Log INFO "Запускаем Steam (%s)..."]))
              = (Ok started, w5) /\
              restart_steam_if_running prompt_before_restart true w
              = (Ok (variant, stopped || started), w5)).
  { intros w3 Hdecl.
    destruct (guarded_total (stop_commands variant)
                (World (files w3)
                   (trace w3 ++ [Log INFO "Останавливаем Steam (%s)..."])))
      as [stopped [w4 Hstop]].
    destruct (guarded_total (start_commands variant)
                (World (files w4)
                   (trace w4 ++ [Sleep 1500]
                    ++ [Log INFO "Запускаем Steam (%s)..."])))
      as [started [w5 Hstart]].
    exists stopped, started, w4, w5.
    split; [exact Hstop|]. split; [exact Hstart|].
    unfold restart_steam_if_running, bind. rewrite Hdet, Hrun.
    cbn [negb]. rewrite Hdecl. unfold logger, sleep, emit. cbn [files trace].
    fold (stop_steam variant) in Hstop. fold (start_steam variant) in Hstart.
    rewrite Hstop. rewrite <- app_assoc, Hstart. reflexivity. }
  split; [|split].
  - intros Hask e Hin. rewrite Hask.
    unfold restart_steam_if_running, bind. rewrite Hdet, Hrun. cbn [negb].
    unfold declined_at_prompt. rewrite Hask. unfold bind, emit, lift.
    rewrite Hin. reflexivity.
  - intros Hask line Hin Hy Hyes. rewrite Hask.
    unfold restart_steam_if_running, bind. rewrite Hdet, Hrun. cbn [negb].
    unfold declined_at_prompt. rewrite Hask. unfold bind, emit, lift, ret.
    rewrite Hin.
    rewrite (bool_decide_eq_false_2 _ Hy), (bool_decide_eq_false_2 _ Hyes).
    reflexivity.
  - intros [Hask | [line [Hin Hans]]].
    + rewrite Hask. apply Hgo. unfold declined_at_prompt. rewrite Hask.
      reflexivity.
    + destruct (prompt_before_restart && stdin_isatty) eqn:Hask.
      * apply Hgo. unfold declined_at_prompt. rewrite Hask.
        unfold bind, emit, lift, ret. rewrite Hin.
        destruct Hans as [-> | ->]; reflexivity.
      * apply Hgo. unfold declined_at_prompt. rewrite Hask. reflexivity.
Qed.

End RestartFacts.

(** A running client, a restart that is allowed and a prompt answered
    [YES] between a no-break space and an ideographic space: the kill, the
    settle delay and the launch are made. *)
Lemma restart_steam_if_running_spec_witness :
  exists (stopped started : bool) (w5 : world),
    @restart_steam_if_running
      (Sample.host Sample.no_fault (Ok 0) [160; 89; 69; 83; 12288])
      true true (World ∅ [])
    = (Ok (lit "linux_native", stopped || started), w5).
Proof.
  assert (Hd : @detect_steam_variant
                 (Sample.host Sample.no_fault (Ok 0) [160; 89; 69; 83; 12288])
                 (World ∅ [])
               = (Ok (lit "linux_native"), World ∅ []))
    by (vm_compute; reflexivity).
  assert (Hr : @is_steam_running
                 (Sample.host Sample.no_fault (Ok 0) [160; 89; 69; 83; 12288])
                 (lit "linux_native") (World ∅ [])
               = (Ok true, World ∅ [Run [lit "pgrep"; lit "-f"; lit "steam"]]))
    by (vm_compute; reflexivity).
  pose proof (proj2 (proj2 (@restart_steam_if_running_spec
                              (Sample.host Sample.no_fault (Ok 0)
                                 [160; 89; 69; 83; 12288])
                              true true _ _ _ _ _ Hd Hr))
                eq_refl eq_refl) as Hspec.
  cbv zeta in Hspec. destruct Hspec as [_ [_ Hgo]].
  destruct Hgo as [stopped [started [w4 [w5 [_ [_ Hre]]]]]].
  { right. exists [160; 89; 69; 83; 12288]. split; [reflexivity|].
    right. vm_compute. reflexivity. }
  exists stopped, started, w5. exact Hre.
Defined.

(** What a confirmed restart does on the sample host. *)
Example restart_confirmed :
  @restart_steam_if_running (Sample.host Sample.no_fault (Ok 0) (lit " Yes "))
    true true (World ∅ [])
  = (Ok (lit "linux_native", true),
     World ∅
       [ Run [lit "pgrep"; lit "-f"; lit "steam"];
         Prompt "Steam (%s) работает. Остановить и перезапустить? [y/N]: ";
         Log INFO "Останавливаем Steam (%s)...";
         Run [lit "pkill"; lit "-f"; lit "steam"];
         Sleep 1500;
         Log INFO "Запускаем Steam (%s)...";
         Popen [lit "/usr/bin/steam"] false ]).
Proof. vm_compute. reflexivity. Qed.

(** An answer wrapped in a no-break space counts as [y]. *)
Example restart_after_padded_answer :
  fst (@restart_steam_if_running (Sample.host Sample.no_fault (Ok 0) [160; 121])
         true true (World ∅ []))
  = Ok (lit "linux_native", true).
Proof. vm_compute. reflexivity. Qed.

(** C6, as stated, fails: the client is running and the restart is
    allowed, yet no stop and no start is issued, because the user has
    answered [n] at the confirmation prompt. *)
Lemma restart_declined_at_prompt :
  @is_steam_running (Sample.host Sample.no_fault (Ok 0) (lit "n"))
    (lit "linux_native") (World ∅ [])
  = (Ok true, World ∅ [Run [lit "pgrep"; lit "-f"; lit "steam"]]) /\
  @restart_steam_if_running (Sample.host Sample.no_fault (Ok 0) (lit "n"))
    true true (World ∅ [])
  = (Ok (lit "linux_native", false),
     World ∅
       [ Run [lit "pgrep"; lit "-f"; lit "steam"];
         Prompt "Steam (%s) работает. Остановить и перезапустить? [y/N]: ";
         Log INFO "Пользователь отменил перезапуск Steam." ]).
Proof. split; vm_compute; reflexivity. Qed.


(** ** The file system *)

Lemma node_at_cons (f : gmap fspath node) (c : str) (p : fspath) :
  node_at f (c :: p) = f !! (c :: p).
Proof. reflexivity. Qed.

Lemma node_at_None (f : gmap fspath node) (p : fspath) :
  node_at f p = None -> f !! p = None /\ p <> [].
Proof. destruct p; [discriminate|]. intros Hn. split; [exact Hn|discriminate]. Qed.

Lemma node_at_File (f : gmap fspath node) (p : fspath) (c : bytes) :
  node_at f p = Some (File c) -> f !! p = Some (File c) /\ p <> [].
Proof. destruct p; [discriminate|]. intros Hn. split; [exact Hn|discriminate]. Qed.

Lemma suffix_tl_impossible (p : fspath) : p <> [] -> ~ p `suffix_of` tl p.
Proof.
  intros Hp Hs. apply suffix_length in Hs.
  destruct p; [congruence|]. cbn in Hs. lia.
Qed.

(** [mkdir] only adds directories, at paths above or at its argument that
    were free. *)
Lemma mkdir_tree_lookup (p q : fspath) (f f' : gmap fspath node) :
  mkdir_tree p f = Ok f' ->
  f' !! q = f !! q \/
  (f !! q = None /\ f' !! q = Some Dir /\ q `suffix_of` p /\ q <> []).
Proof.
  revert f'. induction p as [|c up IH]; intros f' Hm.
  - cbn in Hm. injection Hm as <-. left. reflexivity.
  - cbn [mkdir_tree] in Hm. rewrite node_at_cons in Hm.
    destruct (f !! (c :: up)) as [[content|]|] eqn:Ep.
    + discriminate.
    + injection Hm as <-. left. reflexivity.
    + destruct (mkdir_tree up f) as [f1|e]; [|discriminate].
      injection Hm as <-.
      destruct (decide (q = c :: up)) as [->|Hne].
      * right. rewrite lookup_insert_eq.
        split; [exact Ep|]. split; [reflexivity|]. split; [reflexivity|discriminate].
      * rewrite lookup_insert_ne by congruence.
        destruct (IH f1 eq_refl) as [Hsame|[Hn [Hd [Hs Hq]]]]; [left; exact Hsame|].
        right. split; [exact Hn|]. split; [exact Hd|].
        split; [apply suffix_cons_r, Hs|exact Hq].
Qed.

Lemma mkdir_tree_keeps (p q : fspath) (f f' : gmap fspath node) :
  mkdir_tree p f = Ok f' -> f !! q <> None -> f' !! q = f !! q.
Proof.
  intros Hm Hq. destruct (mkdir_tree_lookup p q f f' Hm) as [Hs|[Hn _]];
    [exact Hs|congruence].
Qed.

Lemma mkdir_tree_elsewhere (p q : fspath) (f f' : gmap fspath node) :
  mkdir_tree p f = Ok f' -> ~ q `suffix_of` p -> f' !! q = f !! q.
Proof.
  intros Hm Hq. destruct (mkdir_tree_lookup p q f f' Hm) as [Hs|[_ [_ [Hs _]]]];
    [exact Hs|tauto].
Qed.

Lemma mkdir_tree_is_dir (p : fspath) (f f' : gmap fspath node) :
  mkdir_tree p f = Ok f' -> is_dir f' p = true.
Proof.
  destruct p as [|c up]; [reflexivity|].
  cbn [mkdir_tree]. unfold is_dir. rewrite !node_at_cons.
  destruct (f !! (c :: up)) as [[content|]|] eqn:Ep.
  - discriminate.
  - intros E. injection E as <-. rewrite Ep. reflexivity.
  - destruct (mkdir_tree up f) as [f1|e]; [|discriminate].
    intros E. injection E as <-. rewrite lookup_insert_eq. reflexivity.
Qed.

Section FileFacts.
Context `{Env}.

Lemma mkdir_inv (p : fspath) (w w' : world) (r : result unit) :
  mkdir p w = (r, w') ->
  trace w' = trace w /\
  ((r = Ok tt /\ mkdir_tree p (files w) = Ok (files w')) \/
   (exists e, r = Raise e /\ w' = w)).
Proof.
  unfold mkdir, check_fault. destruct (fault (OpMkdir p)) as [e|]; unfold_monad.
  - intros E. injection E as <- <-. split; [reflexivity|]. right. eauto.
  - destruct (mkdir_tree p (files w)) as [f'|e] eqn:Em.
    + intros E. injection E as <- <-. split; [reflexivity|]. left. auto.
    + intros E. injection E as <- <-. split; [reflexivity|]. right. eauto.
Qed.

Lemma copy2_inv (src dst : fspath) (w w' : world) (r : result unit) :
  copy2 src dst w = (r, w') ->
  trace w' = trace w /\
  ((exists e, r = Raise e /\ w' = w) \/
   (exists c, r = Ok tt /\ node_at (files w) src = Some (File c) /\
              files w' = <[copy_target (files w) src dst := File c]> (files w))).
Proof.
  unfold copy2, check_fault. destruct (fault (OpCopy src dst)) as [e|];
    unfold_monad.
  { intros E. injection E as <- <-. split; [reflexivity|]. left. eauto. }
  cbv zeta.
  destruct (node_at (files w) src) as [[c|]|];
    try (intros E; injection E as <- <-; split; [reflexivity|]; left; eauto).
  destruct (bool_decide (copy_target (files w) src dst = src));
    [intros E; injection E as <- <-; split; [reflexivity|]; left; eauto|].
  destruct (is_dir (files w) (copy_target (files w) src dst));
    [intros E; injection E as <- <-; split; [reflexivity|]; left; eauto|].
  destruct (negb (is_dir (files w) (parent (copy_target (files w) src dst))));
    intros E; injection E as <- <-; (split; [reflexivity|]).
  - left. eauto.
  - right. exists c. auto.
Qed.

Lemma NamedTemporaryFile_inv (dir tmp : fspath) (w w' : world) :
  NamedTemporaryFile dir w = (Ok tmp, w') ->
  exists n, tmp = dir // n /\ In n tmp_names /\
            files w !! tmp = None /\ is_dir (files w) dir = true /\
            w' = World (<[tmp := File []]> (files w)) (trace w).
Proof.
  unfold NamedTemporaryFile, check_fault.
  destruct (fault (OpMkstemp dir)) as [e|]; unfold_monad; [discriminate|].
  destruct (is_dir (files w) dir) eqn:Ed; cbn [negb]; [|discriminate].
  destruct (List.find _ tmp_names) as [n|] eqn:Ef; [|discriminate].
  intros E. injection E as <- <-.
  apply find_some in Ef. destruct Ef as [Hin Hfree].
  exists n. split; [reflexivity|]. split; [exact Hin|].
  split; [|split; reflexivity].
  unfold is_free in Hfree. unfold joinpath in Hfree.
  rewrite node_at_cons in Hfree.
  destruct (files w !! (n :: dir)) eqn:Efree; [discriminate|exact Efree].
Qed.

Lemma NamedTemporaryFile_raise (dir : fspath) (w w' : world) (e : exn) :
  NamedTemporaryFile dir w = (Raise e, w') -> w' = w.
Proof.
  unfold NamedTemporaryFile, check_fault.
  destruct (fault (OpMkstemp dir)); unfold_monad;
    [intros E; injection E as _ <-; reflexivity|].
  destruct (negb (is_dir (files w) dir));
    [intros E; injection E as _ <-; reflexivity|].
  destruct (List.find _ tmp_names); [discriminate|].
  intros E; injection E as _ <-; reflexivity.
Qed.

Lemma replace_inv (src dst : fspath) (w w' : world) (r : result unit) :
  replace src dst w = (r, w') ->
  trace w' = trace w /\
  ((exists e, r = Raise e /\ w' = w) \/
   (exists c, r = Ok tt /\ node_at (files w) src = Some (File c) /\
              files w' = <[dst := File c]> (delete src (files w)))).
Proof.
  unfold replace, check_fault. destruct (fault (OpReplace src dst)) as [e|];
    unfold_monad.
  { intros E. injection E as <- <-. split; [reflexivity|]. left. eauto. }
  destruct (node_at (files w) src) as [[c|]|];
    try (intros E; injection E as <- <-; split; [reflexivity|]; left; eauto).
  destruct (is_dir (files w) dst);
    [intros E; injection E as <- <-; split; [reflexivity|]; left; eauto|].
  destruct (negb (is_dir (files w) (parent dst)));
    intros E; injection E as <- <-; (split; [reflexivity|]).
  - left. eauto.
  - right. exists c. auto.
Qed.

End FileFacts.


(** ** The atomic writer *)

Lemma mkdir_tree_node_kept (p q : fspath) (f f' : gmap fspath node) :
  mkdir_tree p f = Ok f' -> node_at f q <> None -> f' !! q = f !! q.
Proof.
  intros Hm Hq. destruct (mkdir_tree_lookup p q f f' Hm) as [Hs|[Hn [_ [_ Hne]]]];
    [exact Hs|].
  destruct q; [congruence|]. exfalso. apply Hq. exact Hn.
Qed.

Lemma mkdir_tree_parent (q : fspath) (f f' : gmap fspath node) :
  mkdir_tree (parent q) f = Ok f' -> f' !! q = f !! q.
Proof.
  intros Hm.
  destruct (mkdir_tree_lookup (parent q) q f f' Hm) as [Hs|[_ [_ [Hs Hne]]]];
    [exact Hs|].
  exfalso. exact (suffix_tl_impossible q Hne Hs).
Qed.

Section WriterFacts.
Context `{Env}.

Lemma backup_path_length (path : fspath) :
  length (backup_path_of path) = S (S (length (parent path))).
Proof. reflexivity. Qed.

Lemma path_length_le (path : fspath) : (length path <= S (length (parent path)))%nat.
Proof. destruct path; cbn; lia. Qed.

(** The backup never lands on the canonical path. *)
Lemma copy_target_not_path (f : gmap fspath node) (path : fspath) :
  copy_target f path (backup_path_of path) <> path.
Proof.
  intros E. apply (f_equal (@length str)) in E.
  pose proof (path_length_le path) as Hl. pose proof (backup_path_length path) as Hb.
  unfold copy_target in E.
  destruct (is_dir f (backup_path_of path)); cbn [joinpath length] in E; lia.
Qed.

Lemma copy_target_cases (f : gmap fspath node) (path : fspath) :
  copy_target f path (backup_path_of path) = backup_path_of path \/
  copy_target f path (backup_path_of path) = backup_path_of path // name path.
Proof. unfold copy_target. destruct (is_dir _ _); auto. Qed.

(** The guarded copy never raises: either the copy is made and noted at
    INFO level, or it has failed, nothing is written, and a warning is
    logged. *)
Lemma guarded_copy_cases (path : fspath) (w : world) :
  (exists c,
     node_at (files w) path = Some (File c) /\
     guarded_copy path w
     = (Ok tt,
        World (<[copy_target (files w) path (backup_path_of path) := File c]> (files w))
          (trace w ++ [Log INFO "Создан бэкап: %s"]))) \/
  ((exists e, copy2 path (backup_path_of path) w = (Raise e, w)) /\
   guarded_copy path w
   = (Ok tt, World (files w) (trace w ++ [Log WARNING "Не удалось создать бэкап: %s"]))).
Proof.
  unfold guarded_copy, try_except, bind.
  destruct (copy2 path (backup_path_of path) w) as [r w1] eqn:Ec.
  destruct (copy2_inv _ _ _ _ _ Ec) as [Ht [[e [-> ->]]|[c [-> [Hn Hf]]]]].
  - right. split; [eauto|reflexivity].
  - left. exists c. split; [exact Hn|].
    unfold logger, emit. rewrite Ht, Hf. reflexivity.
Qed.

(** The backup phase leaves the canonical path as it is, whatever
    happens. *)
Lemma backup_phase_path (path : fspath) (w w' : world) (r : result unit) :
  backup_phase path w = (r, w') -> files w' !! path = files w !! path.
Proof.
  unfold backup_phase. unfold bind at 1.
  destruct (mkdir (parent path) w) as [r1 w1] eqn:Em1.
  destruct (mkdir_inv _ _ _ _ Em1) as [_ [[-> Ht1]|[e [-> ->]]]];
    [|intros E; injection E as _ <-; reflexivity].
  pose proof (mkdir_tree_parent path _ _ Ht1) as Hp1.
  unfold bind at 1. rewrite exists_spec.
  destruct (is_free (files w1) path) eqn:Efree; cbn [negb].
  { unfold ret. intros E. injection E as _ <-. exact Hp1. }
  assert (Hex : node_at (files w1) path <> None).
  { unfold is_free in Efree. destruct (node_at (files w1) path); [discriminate|discriminate]. }
  unfold bind.
  destruct (mkdir (backup_dir_of path) w1) as [r2 w2] eqn:Em2.
  destruct (mkdir_inv _ _ _ _ Em2) as [_ [[-> Ht2]|[e [-> ->]]]];
    [|intros E; injection E as _ <-; exact Hp1].
  pose proof (mkdir_tree_node_kept _ path _ _ Ht2 Hex) as Hp2.
  destruct (guarded_copy_cases path w2) as [[c [_ ->]]|[_ ->]];
    intros E; injection E as _ <-; cbn [files].
  - rewrite lookup_insert_ne by apply copy_target_not_path. congruence.
  - congruence.
Qed.

Lemma open_wb_file (p : fspath) (w : world) (c0 : bytes) :
  node_at (files w) p = Some (File c0) ->
  is_dir (files w) (parent p) = true ->
  open_wb p w
  = match fault (OpOpenW p) with
    | Some e => (Raise e, w)
    | None => (Ok tt, World (<[p := File []]> (files w)) (trace w))
    end.
Proof.
  intros Hn Hd. unfold open_wb, check_fault.
  destruct (fault (OpOpenW p)); unfold_monad; [reflexivity|].
  unfold is_dir at 1. rewrite Hn, Hd. reflexivity.
Qed.

Lemma call_writer_file (wr : write_callable) (p : fspath) (w : world) (c0 : bytes) :
  node_at (files w) p = Some (File c0) ->
  call_writer wr p w
  = (match raised wr with Some e => Raise e | None => Ok tt end,
     World (<[p := File (c0 ++ written wr)]> (files w)) (trace w ++ wlog wr)).
Proof.
  intros Hn. unfold call_writer. unfold_monad. rewrite Hn. cbn [files trace].
  destruct (raised wr); reflexivity.
Qed.

Lemma unlink_file (p : fspath) (w : world) (c0 : bytes) :
  node_at (files w) p = Some (File c0) ->
  unlink_missing_ok p w
  = match fault (OpUnlink p) with
    | Some e => (Raise e, w)
    | None => (Ok tt, World (delete p (files w)) (trace w))
    end.
Proof.
  intros Hn. unfold unlink_missing_ok, check_fault.
  destruct (fault (OpUnlink p)); unfold_monad; [reflexivity|].
  rewrite Hn. reflexivity.
Qed.

(** Lines 137-146, on a temporary file that has just been created. *)
Lemma write_phase_eq (tmp_path : fspath) (wr : write_callable) (w : world)
  (c0 : bytes) :
  node_at (files w) tmp_path = Some (File c0) ->
  is_dir (files w) (parent tmp_path) = true ->
  write_phase tmp_path wr w
  = match fault (OpOpenW tmp_path) with
    | Some e0 => (Raise e0, World (after_cleanup tmp_path (files w)) (trace w))
    | None =>
        match raised wr with
        | None =>
            (Ok tt,
             World (<[tmp_path := File (written wr)]> (files w))
               (trace w ++ wlog wr))
        | Some e =>
            (Raise e,
             World (after_cleanup tmp_path
                      (<[tmp_path := File (written wr)]> (files w)))
               (trace w ++ wlog wr))
        end
    end.
Proof.
  intros Hn Hd.
  destruct (node_at_File _ _ _ Hn) as [Hl Hne].
  destruct tmp_path as [|n dir]; [congruence|].
  destruct w as [f t]. cbn [files trace] in *.
  unfold write_phase, try_except, bind.
  rewrite (open_wb_file (n :: dir) (World f t) c0 Hn Hd). cbn [files trace].
  destruct (fault (OpOpenW (n :: dir))) as [e0|].
  - rewrite (unlink_file (n :: dir) (World f t) c0 Hn).
    unfold after_cleanup. cbn [files trace].
    destruct (fault (OpUnlink (n :: dir))); reflexivity.
  - rewrite (call_writer_file wr (n :: dir) _ []);
      [|cbn [files]; rewrite node_at_cons, lookup_insert_eq; reflexivity].
    cbn [files trace app]. rewrite insert_insert_eq.
    destruct (raised wr) as [e|]; [|reflexivity].
    rewrite (unlink_file _ _ (written wr));
      [|cbn [files]; rewrite node_at_cons, lookup_insert_eq; reflexivity].
    unfold after_cleanup. cbn [files trace].
    destruct (fault (OpUnlink (n :: dir))); reflexivity.
Qed.

End WriterFacts.

Section AtomicWriteFacts.
Context `{Env}.

(** The temporary file is ready to be written once it has been created. *)
Lemma temporary_file_ready (dir tmp_path : fspath) (w1 w2 : world) :
  NamedTemporaryFile dir w1 = (Ok tmp_path, w2) ->
  files w1 !! tmp_path = None /\
  tmp_path <> [] /\
  parent tmp_path = dir /\
  w2 = World (<[tmp_path := File []]> (files w1)) (trace w1) /\
  node_at (files w2) tmp_path = Some (File []) /\
  is_dir (files w2) (parent tmp_path) = true.
Proof.
  intros Hn. destruct (NamedTemporaryFile_inv _ _ _ _ Hn)
    as [n [-> [_ [Hfree [Hdir ->]]]]].
  split; [exact Hfree|]. split; [discriminate|]. split; [reflexivity|].
  split; [reflexivity|]. unfold joinpath, parent in *. cbn [files tl].
  split; [rewrite node_at_cons; apply lookup_insert_eq|].
  unfold is_dir in *. destruct dir as [|c dir]; [reflexivity|].
  rewrite node_at_cons in *. rewrite lookup_insert_ne; [exact Hdir|].
  intros E. apply (f_equal (@length str)) in E. cbn in E. lia.
Qed.

(** C1 (amended): when the backup phase and the creation of the temporary
    file have succeeded, the file opens, and [write_callable] raises [e]
    after writing some bytes, [atomic_write_file_with_vdf] raises [e]
    again and has tried to delete the temporary file.  The deletion is
    best effort: if it is refused, the refusal is swallowed and the
    temporary file stays, holding what was written; if it is not, the
    temporary file is gone.  A file that existed at the canonical path
    has the content it had before the call in both cases; a canonical
    path that did not exist still does not exist when the deletion has
    succeeded. *)
Theorem atomic_write_writer_raises (path tmp_path : fspath)
  (wr : write_callable) (e : exn) (w w1 w2 : world) :
  backup_phase path w = (Ok tt, w1) ->
  NamedTemporaryFile (parent path) w1 = (Ok tmp_path, w2) ->
  fault (OpOpenW tmp_path) = None ->
  raised wr = Some e ->
  exists w',
    atomic_write_file_with_vdf path wr w = (Raise e, w') /\
    trace w' = trace w1 ++ wlog wr /\
    (node_at (files w) path <> None -> files w' !! path = files w !! path) /\
    (fault (OpUnlink tmp_path) = None ->
     files w' !! tmp_path = None /\ files w' !! path = files w !! path) /\
    (fault (OpUnlink tmp_path) <> None ->
     files w' !! tmp_path = Some (File (written wr))).
Proof.
  intros Hb Hn Hopen Hraise.
  pose proof (backup_phase_path _ _ _ _ Hb) as Hpath.
  destruct (temporary_file_ready _ _ _ _ Hn)
    as [Hfree [Hne [_ [Hw2 [Hfile Hdir]]]]].
  pose proof (write_phase_eq tmp_path wr w2 [] Hfile Hdir) as Hwp.
  rewrite Hopen, Hraise in Hwp.
  eexists. split.
  { unfold atomic_write_file_with_vdf, bind. rewrite Hb, Hn, Hwp. reflexivity. }
  cbn [files trace]. rewrite Hw2. cbn [files trace].
  rewrite insert_insert_eq.
  split; [reflexivity|].
  split; [|split].
  - intros Hex.
    assert (Hd : tmp_path <> path).
    { intros ->. apply Hex. destruct path; [congruence|].
      exact (eq_trans (eq_sym Hpath) Hfree). }
    unfold after_cleanup. destruct (fault (OpUnlink tmp_path)).
    + rewrite lookup_insert_ne by exact Hd. exact Hpath.
    + rewrite lookup_delete_ne, lookup_insert_ne by exact Hd. exact Hpath.
  - intros Hu. unfold after_cleanup. rewrite Hu.
    split; [apply lookup_delete_eq|].
    destruct (decide (tmp_path = path)) as [->|Hd].
    + rewrite lookup_delete_eq. exact (eq_trans (eq_sym Hfree) Hpath).
    + rewrite lookup_delete_ne, lookup_insert_ne by exact Hd. exact Hpath.
  - intros Hu. unfold after_cleanup.
    destruct (fault (OpUnlink tmp_path)); [|congruence].
    apply lookup_insert_eq.
Qed.

(** [mkdir] on a directory that exists changes nothing; on a regular file
    it raises [FileExistsError]. *)
Lemma mkdir_existing (p : fspath) (f : gmap fspath node) (t : list event) :
  fault (OpMkdir p) = None -> is_dir f p = true ->
  mkdir p (World f t) = (Ok tt, World f t).
Proof.
  intros Hf Hd. unfold mkdir, check_fault. rewrite Hf. unfold_monad.
  cbn [files trace].
  assert (Ht : mkdir_tree p f = Ok f).
  { unfold is_dir in Hd. destruct p; cbn [mkdir_tree];
      destruct (node_at f _) as [[c|]|]; try discriminate; reflexivity. }
  rewrite Ht. reflexivity.
Qed.

Lemma mkdir_blocked (p : fspath) (f : gmap fspath node) (t : list event)
  (c : bytes) :
  fault (OpMkdir p) = None -> node_at f p = Some (File c) ->
  mkdir p (World f t) = (Raise FileExistsError, World f t).
Proof.
  intros Hf Hn. unfold mkdir, check_fault. rewrite Hf. unfold_monad.
  cbn [files trace].
  assert (Ht : mkdir_tree p f = Raise FileExistsError).
  { destruct p; cbn [mkdir_tree]; rewrite Hn; reflexivity. }
  rewrite Ht. reflexivity.
Qed.

(** Lines 122-127 stop the write when the backup directory cannot be
    made: [backup_dir.mkdir] is called before the [try] that guards the
    copy. *)
Lemma backup_dir_failure_is_fatal (path : fspath) (wr : write_callable)
  (w w1 : world) (e : exn) :
  mkdir (parent path) w = (Ok tt, w1) ->
  node_at (files w1) path <> None ->
  mkdir (backup_dir_of path) w1 = (Raise e, w1) ->
  atomic_write_file_with_vdf path wr w = (Raise e, w1).
Proof.
  intros Hm1 Hex Hm2.
  unfold atomic_write_file_with_vdf, backup_phase, bind.
  rewrite Hm1, exists_spec. unfold is_free.
  destruct (node_at (files w1) path); [|congruence].
  cbn [negb]. rewrite Hm2. reflexivity.
Qed.

(** A copy that fails, on the contrary, is survived: the backup phase
    succeeds with a warning in the log, and nothing is written. *)
Lemma backup_copy_failure_is_not_fatal (path : fspath) (w w1 w2 : world) (e : exn) :
  mkdir (parent path) w = (Ok tt, w1) ->
  node_at (files w1) path <> None ->
  mkdir (backup_dir_of path) w1 = (Ok tt, w2) ->
  copy2 path (backup_path_of path) w2 = (Raise e, w2) ->
  backup_phase path w
  = (Ok tt,
     World (files w2) (trace w2 ++ [Log WARNING "Не удалось создать бэкап: %s"])).
Proof.
  intros Hm1 Hex Hm2 Hc.
  unfold backup_phase, bind. rewrite Hm1, exists_spec. unfold is_free.
  destruct (node_at (files w1) path); [|congruence].
  cbn [negb]. rewrite Hm2. unfold guarded_copy, try_except, bind.
  rewrite Hc. reflexivity.
Qed.

End AtomicWriteFacts.

(** The writer fails after three bytes on a host where the catalogue
    exists and files can be removed. *)
Lemma atomic_write_writer_raises_witness :
  exists w',
    @atomic_write_file_with_vdf (Sample.host Sample.no_fault (Ok 1) [])
      Sample.catalogue (Writer [0; 115; 104] [] (Some OSError))
      (World Sample.disk1 [])
    = (Raise OSError, w') /\
    files w' !! (Sample.config_dir // lit "tmpk3x9_q2a") = None /\
    files w' !! Sample.catalogue = Sample.disk1 !! Sample.catalogue.
Proof.
  destruct (@atomic_write_writer_raises (Sample.host Sample.no_fault (Ok 1) [])
              Sample.catalogue (Sample.config_dir // lit "tmpk3x9_q2a")
              (Writer [0; 115; 104] [] (Some OSError)) OSError
              (World Sample.disk1 [])
              (snd (@backup_phase (Sample.host Sample.no_fault (Ok 1) [])
                      Sample.catalogue (World Sample.disk1 [])))
              (snd (@NamedTemporaryFile (Sample.host Sample.no_fault (Ok 1) [])
                      (parent Sample.catalogue)
                      (snd (@backup_phase (Sample.host Sample.no_fault (Ok 1) [])
                              Sample.catalogue (World Sample.disk1 []))))))
    as [w' [Hr [_ [_ [Hu _]]]]].
  - apply run_result. vm_compute. reflexivity.
  - apply run_result. vm_compute. reflexivity.
  - reflexivity.
  - reflexivity.
  - exists w'. split; [exact Hr|]. exact (Hu eq_refl).
Defined.

(** C1, as stated, fails: when the removal of the temporary file is
    refused (the file is held by another process, say), the writer's
    exception is raised again but the temporary file is still there, with
    the bytes written before the failure. *)
Lemma atomic_write_leaves_temporary_file :
  let r := @atomic_write_file_with_vdf
             (Sample.host Sample.unlink_refused (Ok 1) [])
             Sample.catalogue (Writer [0; 115; 104] [] (Some OSError))
             (World Sample.disk1 []) in
  fst r = Raise OSError /\
  files (snd r) !! (Sample.config_dir // lit "tmpk3x9_q2a")
  = Some (File [0; 115; 104]).
Proof. vm_compute. split; reflexivity. Qed.

(** C5 (a defect of the code): the catalogue exists and a regular file
    named [backups_shortcuts] lies next to it; making the backup directory
    raises [FileExistsError] outside the [try] that guards the copy, so
    that [atomic_write_file_with_vdf] raises, the writer is never called
    and the catalogue is not rewritten: here a failure of the backup is
    fatal. *)
Lemma atomic_write_backup_dir_blocked :
  Sample.disk_blocked !! (Sample.config_dir // BACKUP_DIRNAME) = Some (File []) /\
  Sample.disk_blocked !! Sample.catalogue = Sample.disk1 !! Sample.catalogue /\
  forall wr : write_callable,
    @atomic_write_file_with_vdf (Sample.host Sample.no_fault (Ok 1) [])
      Sample.catalogue wr (World Sample.disk_blocked [])
    = (Raise FileExistsError, World Sample.disk_blocked []).
Proof.
  split; [vm_compute; reflexivity|]. split; [vm_compute; reflexivity|].
  intros wr.
  apply (@backup_dir_failure_is_fatal (Sample.host Sample.no_fault (Ok 1) [])).
  - apply (@mkdir_existing (Sample.host Sample.no_fault (Ok 1) []));
      [reflexivity|vm_compute; reflexivity].
  - vm_compute. discriminate.
  - apply (@mkdir_blocked (Sample.host Sample.no_fault (Ok 1) []) _ _ _ []);
      [reflexivity|vm_compute; reflexivity].
Qed.

(** On the same host a refused copy is survived: the write proceeds and
    the failure is in the log. *)
Example atomic_write_copy_refused :
  let r := @atomic_write_file_with_vdf
             (Sample.host Sample.copy_refused (Ok 1) [])
             Sample.catalogue (Writer [8] [] None) (World Sample.disk1 []) in
  fst r = Ok tt /\
  files (snd r) !! Sample.catalogue = Some (File [8]) /\
  trace (snd r)
  = [ Log WARNING "Не удалось создать бэкап: %s";
      Log DEBUG "Атомарная запись выполнена: %s" ].
Proof. vm_compute. repeat split; reflexivity. Qed.

(** And a copy that succeeds holds the bytes of the catalogue as they were
    before the write. *)
Example atomic_write_backup_made :
  let r := @atomic_write_file_with_vdf
             (Sample.host Sample.no_fault (Ok 1) [])
             Sample.catalogue (Writer [8] [] None) (World Sample.disk1 []) in
  fst r = Ok tt /\
  files (snd r) !! Sample.catalogue = Some (File [8]) /\
  files (snd r) !! (Sample.config_dir // BACKUP_DIRNAME
                    // lit "shortcuts.vdf.bak.20240229-235959")
  = Sample.disk1 !! Sample.catalogue.
Proof. vm_compute. repeat split; reflexivity. Qed.

(** ** Computations that leave a node alone *)

Section Stable.
Context `{Env}.
Variable q : fspath.

Lemma stable_ret {A} (a : A) : stable q (ret a).
Proof. intros w r w' E _. injection E as _ <-. reflexivity. Qed.

Lemma stable_raise {A} (e : exn) : stable q (@raise A e).
Proof. intros w r w' E _. injection E as _ <-. reflexivity. Qed.

Lemma stable_lift {A} (x : result A) : stable q (lift x).
Proof. intros w r w' E _. injection E as _ <-. reflexivity. Qed.

Lemma stable_logger (lv : level) (fmt : string) : stable q (logger lv fmt).
Proof. intros w r w' E _. injection E as _ <-. reflexivity. Qed.

Lemma stable_bind {A B} (m : M A) (k : A -> M B) :
  stable q m -> (forall a, stable q (k a)) -> stable q (bind m k).
Proof.
  intros Hm Hk w r w' E Hq. unfold bind in E.
  destruct (m w) as [[a|e] w1] eqn:Em.
  - pose proof (Hm _ _ _ Em Hq) as H1.
    rewrite <- H1. apply (Hk a _ _ _ E). rewrite H1. exact Hq.
  - injection E as _ <-. apply (Hm _ _ _ Em Hq).
Qed.

Lemma stable_try {A} (body : M A) (handler : exn -> M A) :
  stable q body -> (forall e, stable q (handler e)) ->
  stable q (try_except body handler).
Proof.
  intros Hm Hk w r w' E Hq. unfold try_except in E.
  destruct (body w) as [[a|e] w1] eqn:Em.
  - injection E as _ <-. apply (Hm _ _ _ Em Hq).
  - pose proof (Hm _ _ _ Em Hq) as H1.
    rewrite <- H1. apply (Hk e _ _ _ E). rewrite H1. exact Hq.
Qed.

Lemma stable_quiet {A} (P : event -> bool) (m : M A) : quiet P m -> stable q m.
Proof. intros Hm w r w' E _. destruct (Hm _ _ _ E) as [-> _]. reflexivity. Qed.

Lemma stable_mkdir (p : fspath) : stable q (mkdir p).
Proof.
  intros w r w' E Hq.
  destruct (mkdir_inv _ _ _ _ E) as [_ [[_ Ht]|[e [_ ->]]]]; [|reflexivity].
  apply (mkdir_tree_keeps _ _ _ _ Ht Hq).
Qed.

Lemma stable_open_wb (p : fspath) : p <> q -> stable q (open_wb p).
Proof.
  intros Hne w r w' E _. unfold open_wb, check_fault in E.
  destruct (fault (OpOpenW p)); unfold_monad;
    [injection E as _ <-; reflexivity|].
  destruct (is_dir (files w) p); [injection E as _ <-; reflexivity|].
  destruct (negb (is_dir (files w) (parent p))); injection E as _ <-;
    [reflexivity|].
  cbn [files]. apply lookup_insert_ne, Hne.
Qed.

Lemma stable_call_writer (wr : write_callable) (p : fspath) :
  p <> q -> stable q (call_writer wr p).
Proof.
  intros Hne w r w' E _. unfold call_writer in E. unfold_monad.
  destruct (node_at (files w) p) as [[c|]|]; cbn [files trace] in E;
    destruct (raised wr); injection E as _ <-; cbn [files];
    try reflexivity; apply lookup_insert_ne, Hne.
Qed.

Lemma stable_read_rb (p : fspath) : stable q (read_rb p).
Proof. intros w r w' E _. apply read_rb_world in E. subst. reflexivity. Qed.

End Stable.

Ltac stable_step :=
  first
    [ apply stable_ret
    | apply stable_raise
    | apply stable_lift
    | apply stable_logger
    | apply stable_mkdir
    | apply stable_read_rb
    | apply stable_open_wb; assumption
    | apply stable_call_writer; assumption
    | apply stable_try; [|intros ?]
    | apply stable_bind; [|intros ?]
    | match goal with
      | |- stable _ (if ?b then _ else _) => destruct b
      | |- stable _ (match ?x with _ => _ end) => destruct x
      end ].

Section AssetFacts.
Context `{Env}.
Variable steam_dir : fspath.

Lemma download_image_stable (q out_path : fspath) (url : str) (resize : bool) :
  out_path <> q -> stable q (download_image url out_path resize).
Proof. intros Hne. unfold download_image. repeat stable_step. Qed.

Lemma fetch_steamgriddb_image_url_stable (q : fspath) (game_id : Z) (t : str) :
  stable q (fetch_steamgriddb_image_url game_id t).
Proof. unfold fetch_steamgriddb_image_url. repeat stable_step. Qed.

(** The names of the images of an identifier made of digits are single
    components of a path. *)
Lemma is_decimal_digits (s : str) :
  is_decimal s ->
  exists d ds, s = d :: ds /\ Forall (fun c => 48 <= c <= 57) (d :: ds).
Proof.
  intros [n [_ Hv]]. destruct s as [|d ds]; [discriminate|].
  exists d, ds. split; [reflexivity|].
  exact (proj2 (decimal_value_digits _ _ Hv)).
Qed.

Lemma no_sep_intro (system : str) (s : str) :
  Forall (fun c => c <> 47 /\ c <> 92) s -> existsb (is_sep system) s = false.
Proof.
  induction 1 as [|c s [H47 H92] _ IH]; [reflexivity|].
  cbn [existsb]. rewrite IH. unfold is_sep.
  destruct (Z.eqb_spec c 47); [congruence|].
  destruct (Z.eqb_spec c 92); [congruence|].
  rewrite andb_false_r. reflexivity.
Qed.

Lemma digits_no_sep (system : str) (s : str) :
  Forall (fun c => 48 <= c <= 57) s -> existsb (is_sep system) s = false.
Proof.
  intros Hd. apply no_sep_intro. eapply Forall_impl; [exact Hd|].
  cbn. intros c Hc. lia.
Qed.

Lemma is_component_intro (system : str) (d : Z) (ds rest : str) :
  Forall (fun c => 48 <= c <= 57) (d :: ds) ->
  existsb (is_sep system) rest = false ->
  (exists c rest', rest = c :: rest' /\ c <> 58) ->
  is_component system ((d :: ds) ++ rest) = true.
Proof.
  intros Hd Hrest [c [rest' [-> Hc]]]. unfold is_component.
  rewrite existsb_app, (digits_no_sep _ _ Hd), Hrest.
  inversion Hd as [|? ? Hd0 Hds]; subst.
  cbn [app negb orb andb].
  rewrite bool_decide_eq_false_2 by discriminate.
  rewrite bool_decide_eq_false_2 by (intros E; injection E; intros; lia).
  rewrite bool_decide_eq_false_2 by (intros E; injection E; intros; lia).
  destruct ds as [|d2 ds]; cbn [app].
  - destruct (Z.eqb_spec c 58) as [->|_]; [congruence|reflexivity].
  - inversion Hds as [|? ? Hd2 _]; subst.
    destruct (Z.eqb_spec d2 58) as [->|_]; [lia|reflexivity].
Qed.

Lemma extension_shape (url : str) :
  let ext := match url_suffix url with [] => lit ".png" | e => e end in
  existsb (is_sep platform_system) ext = false /\
  exists rest, ext = 46 :: rest.
Proof.
  cbv zeta. pose proof (url_suffix_shape url) as Hs. unfold is_suffix in Hs.
  destruct (url_suffix url) as [|c e].
  - split; [|exists (lit "png"); reflexivity].
    apply no_sep_intro. cbv; repeat constructor; lia.
  - apply andb_true_iff in Hs. destruct Hs as [Hn Hc].
    apply negb_true_iff in Hn. apply Z.eqb_eq in Hc. subst c.
    split; [exact Hn|]. exists e. reflexivity.
Qed.

Lemma grid_file_name_component (app_id t : str) (url : str) :
  is_decimal app_id ->
  In t [lit "grid"; lit "wide_grid"; lit "hero"; lit "logo"; lit "icon"] ->
  is_component platform_system
    (grid_file_name app_id t
       (match url_suffix url with [] => lit ".png" | e => e end))
  = true.
Proof.
  intros Hdec Ht. destruct (is_decimal_digits _ Hdec) as [d [ds [-> Hd]]].
  destruct (extension_shape url) as [Hsep [rest Hext]].
  cbv zeta in Hsep, Hext. revert Hsep Hext.
  generalize (match url_suffix url with [] => lit ".png" | e => e end).
  intros ext Hsep ->.
  cbn [In] in Ht.
  assert (Hmid : forall mid,
            Forall (fun c => c <> 47 /\ c <> 92) mid ->
            (exists c rest', mid ++ 46 :: rest = c :: rest' /\ c <> 58) ->
            is_component platform_system ((d :: ds) ++ mid ++ 46 :: rest) = true).
  { intros mid Hm Hhead. apply is_component_intro; [exact Hd| |exact Hhead].
    rewrite existsb_app, (no_sep_intro _ _ Hm), Hsep. reflexivity. }
  destruct Ht as [<-|[<-|[<-|[<-|[<-|[]]]]]]; unfold grid_file_name.
  - rewrite bool_decide_eq_true_2 by reflexivity.
    apply (Hmid (lit "p")); [cbv; repeat constructor; lia|].
    eexists _, _. split; [reflexivity|]. cbn. lia.
  - rewrite bool_decide_eq_false_2 by discriminate.
    rewrite bool_decide_eq_true_2 by reflexivity.
    apply (Hmid []); [constructor|].
    eexists _, _. split; [reflexivity|]. lia.
  - rewrite !bool_decide_eq_false_2 by discriminate.
    change (lit "_" ++ lit "hero" ++ 46 :: rest)
      with (lit "_hero" ++ 46 :: rest).
    apply (Hmid (lit "_hero")); [cbv; repeat constructor; lia|].
    eexists _, _. split; [reflexivity|]. cbn. lia.
  - rewrite !bool_decide_eq_false_2 by discriminate.
    change (lit "_" ++ lit "logo" ++ 46 :: rest)
      with (lit "_logo" ++ 46 :: rest).
    apply (Hmid (lit "_logo")); [cbv; repeat constructor; lia|].
    eexists _, _. split; [reflexivity|]. cbn. lia.
  - rewrite !bool_decide_eq_false_2 by discriminate.
    change (lit "_" ++ lit "icon" ++ 46 :: rest)
      with (lit "_icon" ++ 46 :: rest).
    apply (Hmid (lit "_icon")); [cbv; repeat constructor; lia|].
    eexists _, _. split; [reflexivity|]. cbn. lia.
Qed.

Lemma save_image_stable (q grid_folder : fspath) (app_id t : str) (game_id : Z) :
  is_decimal app_id ->
  In t [lit "grid"; lit "wide_grid"; lit "hero"; lit "logo"; lit "icon"] ->
  length q <> S (length grid_folder) ->
  stable q (save_image grid_folder app_id game_id t).
Proof.
  intros Hdec Ht Hlen. unfold save_image.
  apply stable_bind; [apply fetch_steamgriddb_image_url_stable|].
  intros [[|c url]|]; try apply stable_ret.
  cbv zeta. rewrite (path_join_component _ _ (grid_file_name_component _ _ _ Hdec Ht)).
  apply stable_bind; [|intros ?; apply stable_ret].
  apply download_image_stable. intros E. apply Hlen. rewrite <- E. reflexivity.
Qed.

Lemma for_each_stable {A} (q : fspath) (body : A -> M unit) (l : list A) :
  (forall x, In x l -> stable q (body x)) -> stable q (for_each body l).
Proof.
  induction l as [|x l IH]; intros Hb; cbn [for_each]; [apply stable_ret|].
  apply stable_bind; [apply Hb; left; reflexivity|intros _].
  apply IH. intros y Hy. apply Hb. right. exact Hy.
Qed.

(** The artwork of an identifier made of digits never touches the
    catalogue of the user. *)
Lemma save_images_to_grid_stable (app_id user_id : str) (game_id : Z) :
  is_decimal app_id ->
  stable (shortcuts_file_of steam_dir user_id)
    (save_images_to_grid steam_dir app_id game_id user_id).
Proof.
  intros Hdec. unfold save_images_to_grid.
  apply stable_bind; [apply stable_mkdir|intros _].
  apply for_each_stable. intros t Ht. apply save_image_stable;
    [exact Hdec|exact Ht|].
  cbn. lia.
Qed.

End AssetFacts.

(** ** A write that succeeds *)

Section WriteSuccess.
Context `{Env}.

(** After the backup phase, the bytes of the catalogue are in the backup
    directory, unless the copy has failed and the log says so. *)
Lemma backup_phase_backup (path : fspath) (w w1 : world) (old : bytes) :
  backup_phase path w = (Ok tt, w1) ->
  node_at (files w) path = Some (File old) ->
  (exists target,
     (target = backup_path_of path \/
      target = backup_path_of path // name path) /\
     files w1 !! target = Some (File old)) \/
  In (Log WARNING "Не удалось создать бэкап: %s") (trace w1).
Proof.
  intros Hb Hold. destruct (node_at_File _ _ _ Hold) as [Hl Hne].
  unfold backup_phase in Hb. unfold bind at 1 in Hb.
  destruct (mkdir (parent path) w) as [r1 wa] eqn:Em1.
  destruct (mkdir_inv _ _ _ _ Em1) as [_ [[-> Ht1]|[e [-> _]]]]; [|discriminate].
  pose proof (mkdir_tree_parent path _ _ Ht1) as Hp1.
  assert (Ha : node_at (files wa) path = Some (File old)).
  { destruct path; [congruence|]. rewrite node_at_cons.
    exact (eq_trans Hp1 Hl). }
  unfold bind at 1 in Hb. rewrite exists_spec in Hb.
  unfold is_free in Hb. rewrite Ha in Hb. cbn [negb] in Hb.
  unfold bind in Hb.
  destruct (mkdir (backup_dir_of path) wa) as [r2 wb] eqn:Em2.
  destruct (mkdir_inv _ _ _ _ Em2) as [_ [[-> Ht2]|[e [-> _]]]]; [|discriminate].
  assert (Hbn : node_at (files wb) path = Some (File old)).
  { destruct path as [|c up]; [congruence|].
    assert (Hx : node_at (files wa) (c :: up) <> None)
      by (rewrite Ha; discriminate).
    exact (eq_trans (mkdir_tree_node_kept _ (c :: up) _ _ Ht2 Hx) Ha). }
  destruct (guarded_copy_cases path wb) as [[c [Hc Hg]]|[_ Hg]];
    rewrite Hg in Hb; injection Hb as <-; cbn [files trace].
  - left. exists (copy_target (files wb) path (backup_path_of path)).
    split; [apply copy_target_cases|].
    rewrite lookup_insert_eq. congruence.
  - right. apply in_or_app. right. left. reflexivity.
Qed.

Lemma backup_targets_apart (path tmp_path target : fspath) :
  parent tmp_path = parent path -> tmp_path <> [] ->
  target = backup_path_of path \/ target = backup_path_of path // name path ->
  target <> path /\ target <> tmp_path.
Proof.
  intros Hp Hne Ht.
  pose proof (path_length_le path) as Hl.
  pose proof (backup_path_length path) as Hb.
  assert (Htl : length tmp_path = S (length (parent path))).
  { rewrite <- Hp. destruct tmp_path; [congruence|reflexivity]. }
  split; intros E; apply (f_equal (@length str)) in E;
    destruct Ht as [-> | ->]; cbn [joinpath length] in E; lia.
Qed.

(** A call that returns has replaced the canonical file by exactly what
    the writer wrote; the writer has not raised; and the previous bytes of
    the canonical file are in the backup directory, unless the copy has
    failed and a warning is in the log. *)
Lemma atomic_write_ok (path : fspath) (wr : write_callable) (w w' : world) :
  atomic_write_file_with_vdf path wr w = (Ok tt, w') ->
  raised wr = None /\
  files w' !! path = Some (File (written wr)) /\
  forall old,
    node_at (files w) path = Some (File old) ->
    (exists target,
       (target = backup_path_of path \/
        target = backup_path_of path // name path) /\
       files w' !! target = Some (File old)) \/
    In (Log WARNING "Не удалось создать бэкап: %s") (trace w').
Proof.
  unfold atomic_write_file_with_vdf. unfold bind at 1.
  destruct (backup_phase path w) as [[[]|e] w1] eqn:Hb; [|discriminate].
  unfold bind at 1.
  destruct (NamedTemporaryFile (parent path) w1) as [[tmp_path|e] w2] eqn:Hn;
    [|discriminate].
  destruct (temporary_file_ready _ _ _ _ Hn)
    as [Hfree [Hne [Hpar [Hw2 [Hfile Hdir]]]]].
  unfold bind at 1. rewrite (write_phase_eq tmp_path wr w2 [] Hfile Hdir).
  destruct (fault (OpOpenW tmp_path)); [discriminate|].
  destruct (raised wr) eqn:Hraised; [discriminate|].
  unfold bind at 1.
  destruct (replace tmp_path path _) as [r4 w4] eqn:Hr.
  destruct (replace_inv _ _ _ _ _ Hr) as [Ht4 [[e [-> _]]|[c [-> [Hc Hf4]]]]];
    [discriminate|].
  cbn [files trace] in Hc, Hf4, Ht4.
  destruct tmp_path as [|n dir]; [congruence|].
  rewrite node_at_cons, lookup_insert_eq in Hc. injection Hc as <-.
  unfold logger, emit. intros E. injection E as <-. cbn [files trace].
  split; [reflexivity|]. rewrite Hf4.
  split; [apply lookup_insert_eq|].
  intros old Hold.
  destruct (backup_phase_backup _ _ _ _ Hb Hold) as [[target [Hta Hlk]]|Hwarn].
  - left. exists target. split; [exact Hta|].
    destruct (backup_targets_apart path (n :: dir) target Hpar Hne Hta)
      as [Hn1 Hn2].
    rewrite lookup_insert_ne by congruence.
    rewrite lookup_delete_ne by congruence.
    rewrite lookup_insert_ne by congruence.
    rewrite Hw2. cbn [files].
    rewrite lookup_insert_ne by congruence. exact Hlk.
  - right. rewrite Ht4, Hw2. cbn [trace].
    apply in_or_app. left. apply in_or_app. left. exact Hwarn.
Qed.



Lemma after_cleanup_other (tmp_path q : fspath) (f : gmap fspath node) :
  q <> tmp_path -> after_cleanup tmp_path f !! q = f !! q.
Proof.
  intros Hne. unfold after_cleanup.
  destruct (fault (OpUnlink tmp_path)); [reflexivity|].
  apply lookup_delete_ne. congruence.
Qed.

(** The temporary file is never the canonical file when the latter
    exists. *)
Lemma temporary_file_apart (path tmp_path : fspath) (f : gmap fspath node) :
  node_at f path <> None -> f !! tmp_path = None -> tmp_path <> [] ->
  path <> tmp_path.
Proof.
  intros Hex Hfree Hne ->. apply Hex.
  destruct tmp_path; [congruence|]. exact Hfree.
Qed.

(** A call that raises leaves a node that existed at the canonical path
    as it was. *)
Lemma atomic_write_raise_keeps (path : fspath) (wr : write_callable)
  (w w' : world) (e : exn) :
  atomic_write_file_with_vdf path wr w = (Raise e, w') ->
  node_at (files w) path <> None ->
  files w' !! path = files w !! path.
Proof.
  intros Hw Hex. unfold atomic_write_file_with_vdf in Hw.
  unfold bind at 1 in Hw.
  destruct (backup_phase path w) as [r1 w1] eqn:Hb.
  pose proof (backup_phase_path _ _ _ _ Hb) as Hpath.
  destruct r1 as [[]|e1]; [|injection Hw as _ <-; exact Hpath].
  unfold bind at 1 in Hw.
  destruct (NamedTemporaryFile (parent path) w1) as [[tmp_path|e2] w2] eqn:Hn.
  2:{ apply NamedTemporaryFile_raise in Hn. injection Hw as _ <-.
      rewrite Hn. exact Hpath. }
  destruct (temporary_file_ready _ _ _ _ Hn)
    as [Hfree [Hne [Hpar [Hw2 [Hfile Hdir]]]]].
  assert (Hapart : path <> tmp_path).
  { apply (temporary_file_apart path tmp_path (files w1)); [|exact Hfree|exact Hne].
    destruct path; [discriminate|].
    intros Hx. apply Hex. exact (eq_trans (eq_sym Hpath) Hx). }
  assert (H2 : files w2 !! path = files w !! path).
  { rewrite Hw2. cbn [files]. rewrite lookup_insert_ne by congruence. exact Hpath. }
  unfold bind at 1 in Hw. rewrite (write_phase_eq tmp_path wr w2 [] Hfile Hdir) in Hw.
  destruct (fault (OpOpenW tmp_path)).
  { injection Hw as _ <-. cbn [files].
    rewrite after_cleanup_other by exact Hapart. exact H2. }
  destruct (raised wr).
  { injection Hw as _ <-. cbn [files].
    rewrite after_cleanup_other by exact Hapart.
    rewrite lookup_insert_ne by congruence. exact H2. }
  unfold bind at 1 in Hw.
  destruct (replace tmp_path path _) as [r4 w4] eqn:Hr.
  destruct (replace_inv _ _ _ _ _ Hr) as [_ [[e4 [-> ->]]|[c [-> _]]]].
  - injection Hw as _ <-. cbn [files].
    rewrite lookup_insert_ne by congruence. exact H2.
  - unfold logger, emit in Hw. discriminate.
Qed.

End WriteSuccess.

(** ** The add operation on a catalogue that does not decode *)

Lemma bind_ok_inv {A B} (m : M A) (k : A -> M B) (w w' : world) (b : B) :
  bind m k w = (Ok b, w') ->
  exists a w1, m w = (Ok a, w1) /\ k a w1 = (Ok b, w').
Proof.
  unfold bind. destruct (m w) as [[a|e] w1]; [eauto|discriminate].
Qed.


Lemma logger_inv (lv : level) (fmt : string) (w w' : world) (r : result unit) :
  logger lv fmt w = (r, w') ->
  r = Ok tt /\ files w' = files w /\ trace w' = trace w ++ [Log lv fmt].
Proof. unfold logger, emit. intros E. injection E as <- <-. auto. Qed.


(** ** Computations that only add to the log *)

Section Appends.
Context `{Env} `{VdfLib}.













Lemma appends_quiet {A} (P : event -> bool) (m : M A) : quiet P m -> appends m.
Proof.
  intros Hq w r w' E. destruct (Hq _ _ _ E) as [_ [t [Ht _]]]. exists t. exact Ht.
Qed.

End Appends.


Section AddFacts.
Context `{Env} `{VdfLib}.
Variable steam_dir : fspath.




















End AddFacts.



(** On that disk the catalogue written decodes to the single new entry,
    and the bytes that did not decode are in the backup. *)
Example add_on_undecodable_catalogue :
  let r := @add_non_steam_game (Sample.host Sample.no_fault (Ok 1) [])
             Sample.vdf Sample.steam_dir Sample.game_exe (lit "Foo Game")
             Sample.user_id [] (World Sample.disk_bad []) in
  fst r = Ok [(lit "status", VStr (lit "success"));
              (lit "app_id", VStr (lit "2792489181"))] /\
  files (snd r) !! Sample.catalogue
  = Some (File (Sample.encode [(lit "shortcuts", VMap [(lit "0", Sample.foo_entry)])])) /\
  Sample.decode (Sample.encode [(lit "shortcuts", VMap [(lit "0", Sample.foo_entry)])])
  = Ok [(lit "shortcuts", VMap [(lit "0", Sample.foo_entry)])] /\
  files (snd r) !! (Sample.config_dir // BACKUP_DIRNAME
                    // lit "shortcuts.vdf.bak.20240229-235959")
  = Some (File [0; 115; 104; 111]).
Proof. vm_compute. repeat split; reflexivity. Qed.


(* ===================================================================== *)
(** * Further properties of the writer and the loader                     *)
(* ===================================================================== *)

Section WriterMore.
Context `{Env}.

Lemma replace_root_fails (src : fspath) (w w' : world) :
  replace src [] w <> (Ok tt, w').
Proof.
  unfold replace, check_fault. destruct (fault (OpReplace src [])); unfold_monad;
    [discriminate|].
  destruct (node_at (files w) src) as [[c|]|]; discriminate.
Qed.

(** X1: a call of [atomic_write_file_with_vdf] that returns has replaced
    the canonical file by exactly the bytes the writer wrote, the writer
    has not raised, and the bytes the canonical file held before are in
    the backup directory (under the timestamped name, or inside a
    directory of that name) unless the copy failed, in which case the
    warning is in the log. *)
Theorem atomic_write_success (path : fspath) (wr : write_callable)
  (w w' : world) :
  atomic_write_file_with_vdf path wr w = (Ok tt, w') ->
  raised wr = None /\
  files w' !! path = Some (File (written wr)) /\
  forall old,
    node_at (files w) path = Some (File old) ->
    (exists target,
       (target = backup_path_of path \/
        target = backup_path_of path // name path) /\
       files w' !! target = Some (File old)) \/
    In (Log WARNING "Не удалось создать бэкап: %s") (trace w').
Proof. apply atomic_write_ok. Qed.

(** X2: whatever makes [atomic_write_file_with_vdf] raise (a directory
    that cannot be made, no temporary name, a failing writer, a refused
    rename), a node that existed at the canonical path is exactly as it
    was before the call. *)
Theorem atomic_write_failure_keeps_canonical (path : fspath)
  (wr : write_callable) (w w' : world) (e : exn) :
  atomic_write_file_with_vdf path wr w = (Raise e, w') ->
  node_at (files w) path <> None ->
  files w' !! path = files w !! path.
Proof. apply atomic_write_raise_keeps. Qed.

(** X3: when the temporary file has been written in full and the final
    rename is refused, the exception of the rename is raised, the
    canonical path is as before, and the temporary file is not removed:
    it stays in the directory with the complete new content. *)
Theorem atomic_write_rename_refused (path tmp_path : fspath)
  (wr : write_callable) (w w1 w2 : world) (e : exn) :
  backup_phase path w = (Ok tt, w1) ->
  NamedTemporaryFile (parent path) w1 = (Ok tmp_path, w2) ->
  fault (OpOpenW tmp_path) = None ->
  raised wr = None ->
  fault (OpReplace tmp_path path) = Some e ->
  exists w',
    atomic_write_file_with_vdf path wr w = (Raise e, w') /\
    files w' !! tmp_path = Some (File (written wr)) /\
    (tmp_path <> path -> files w' !! path = files w !! path).
Proof.
  intros Hb Hn Hopen Hraised Hrep.
  pose proof (backup_phase_path _ _ _ _ Hb) as Hpath.
  destruct (temporary_file_ready _ _ _ _ Hn)
    as [Hfree [Hne [_ [Hw2 [Hfile Hdir]]]]].
  pose proof (write_phase_eq tmp_path wr w2 [] Hfile Hdir) as Hwp.
  rewrite Hopen, Hraised in Hwp.
  eexists. split.
  { unfold atomic_write_file_with_vdf, bind. rewrite Hb, Hn, Hwp.
    unfold replace, check_fault. rewrite Hrep. reflexivity. }
  cbn [files]. split; [apply lookup_insert_eq|].
  intros Hd. rewrite lookup_insert_ne by exact Hd.
  rewrite Hw2. cbn [files]. rewrite lookup_insert_ne by exact Hd. exact Hpath.
Qed.

End WriterMore.

Lemma atomic_write_success_witness :
  exists w',
    @atomic_write_file_with_vdf (Sample.host Sample.no_fault (Ok 1) [])
      Sample.catalogue (Writer [8] [] None) (World Sample.disk1 [])
    = (Ok tt, w') /\
    files w' !! Sample.catalogue = Some (File [8]).
Proof.
  eexists. split.
  - apply run_result. vm_compute. reflexivity.
  - refine (proj1 (proj2 (@atomic_write_success
                            (Sample.host Sample.no_fault (Ok 1) [])
                            Sample.catalogue (Writer [8] [] None)
                            (World Sample.disk1 []) _ _))).
    apply run_result. vm_compute. reflexivity.
Defined.

(** A writer that fails on a disk that has a catalogue. *)
Lemma atomic_write_failure_keeps_canonical_witness :
  exists w',
    @atomic_write_file_with_vdf (Sample.host Sample.unlink_refused (Ok 1) [])
      Sample.catalogue (Writer [0; 115] [] (Some OSError)) (World Sample.disk1 [])
    = (Raise OSError, w') /\
    files w' !! Sample.catalogue = Sample.disk1 !! Sample.catalogue.
Proof.
  assert (Hrun : @atomic_write_file_with_vdf
                   (Sample.host Sample.unlink_refused (Ok 1) [])
                   Sample.catalogue (Writer [0; 115] [] (Some OSError))
                   (World Sample.disk1 [])
                 = (Raise OSError,
                    snd (@atomic_write_file_with_vdf
                           (Sample.host Sample.unlink_refused (Ok 1) [])
                           Sample.catalogue (Writer [0; 115] [] (Some OSError))
                           (World Sample.disk1 [])))).
  { apply run_exception. vm_compute. reflexivity. }
  eexists. split; [exact Hrun|].
  apply (@atomic_write_failure_keeps_canonical
           (Sample.host Sample.unlink_refused (Ok 1) []) _ _ _ _ _ Hrun).
  vm_compute. discriminate.
Defined.

Lemma atomic_write_rename_refused_witness :
  exists w',
    @atomic_write_file_with_vdf (Sample.host Sample.replace_refused (Ok 1) [])
      Sample.catalogue (Writer [8] [] None) (World Sample.disk1 [])
    = (Raise PermissionError, w') /\
    files w' !! (Sample.config_dir // lit "tmpk3x9_q2a") = Some (File [8]).
Proof.
  destruct (@atomic_write_rename_refused
              (Sample.host Sample.replace_refused (Ok 1) [])
              Sample.catalogue (Sample.config_dir // lit "tmpk3x9_q2a")
              (Writer [8] [] None) (World Sample.disk1 [])
              (snd (@backup_phase (Sample.host Sample.replace_refused (Ok 1) [])
                      Sample.catalogue (World Sample.disk1 [])))
              (snd (@NamedTemporaryFile (Sample.host Sample.replace_refused (Ok 1) [])
                      (parent Sample.catalogue)
                      (snd (@backup_phase (Sample.host Sample.replace_refused (Ok 1) [])
                              Sample.catalogue (World Sample.disk1 [])))))
              PermissionError)
    as [w' [Hr [Ht _]]].
  - apply run_result. vm_compute. reflexivity.
  - apply run_result. vm_compute. reflexivity.
  - reflexivity.
  - reflexivity.
  - reflexivity.
  - exists w'. split; [exact Hr|exact Ht].
Defined.

Section RoundTrip.
Context `{Env} `{VdfLib}.

Lemma atomic_write_ok_not_root (path : fspath) (wr : write_callable)
  (w w' : world) :
  atomic_write_file_with_vdf path wr w = (Ok tt, w') -> path <> [].
Proof.
  intros Hw ->. unfold atomic_write_file_with_vdf in Hw.
  apply bind_ok_inv in Hw. destruct Hw as [[] [w1 [_ Hw]]].
  apply bind_ok_inv in Hw. destruct Hw as [tmp_path [w2 [_ Hw]]].
  apply bind_ok_inv in Hw. destruct Hw as [[] [w3 [_ Hw]]].
  apply bind_ok_inv in Hw. destruct Hw as [[] [w4 [Hr _]]].
  exact (replace_root_fails _ _ _ Hr).
Qed.

(** X4: after [dump_shortcuts_binary(path, doc)] has returned,
    [load_shortcuts_binary(path)] returns [doc] and changes nothing,
    provided the [vdf] package decodes what the writer has produced for
    [doc] back to [doc], [doc] has the ["shortcuts"] key, and the file can
    be opened. *)
Theorem dump_then_load (path : fspath) (doc : dict) (w w' : world) :
  binary_load (written (writer doc)) = Ok doc ->
  dict_has (lit "shortcuts") doc = true ->
  fault (OpOpenR path) = None ->
  dump_shortcuts_binary path doc w = (Ok tt, w') ->
  load_shortcuts_binary path w' = (Ok doc, w').
Proof.
  intros Hdec Hkey Hfault Hdump. unfold dump_shortcuts_binary in Hdump.
  apply bind_ok_inv in Hdump. destruct Hdump as [[] [w0 [Hwrite Hlog]]].
  apply logger_inv in Hlog. destruct Hlog as [_ [Hf _]].
  destruct (atomic_write_ok _ _ _ _ Hwrite) as [_ [Hcontent _]].
  pose proof (atomic_write_ok_not_root _ _ _ _ Hwrite) as Hne.
  assert (Hn : node_at (files w') path = Some (File (written (writer doc)))).
  { destruct path; [congruence|]. rewrite node_at_cons, Hf. exact Hcontent. }
  rewrite (load_shortcuts_binary_decoded _ _ _ _ Hn Hfault Hdec).
  rewrite (ensure_shortcuts_present _ Hkey). reflexivity.
Qed.

End RoundTrip.

Lemma dump_then_load_witness :
  exists w',
    @dump_shortcuts_binary (Sample.host Sample.no_fault (Ok 1) []) Sample.vdf
      Sample.catalogue [(lit "shortcuts", VMap [(lit "0", Sample.foo_entry)])]
      (World Sample.disk0 [])
    = (Ok tt, w') /\
    @load_shortcuts_binary (Sample.host Sample.no_fault (Ok 1) []) Sample.vdf
      Sample.catalogue w'
    = (Ok [(lit "shortcuts", VMap [(lit "0", Sample.foo_entry)])], w').
Proof.
  assert (Hd : @dump_shortcuts_binary (Sample.host Sample.no_fault (Ok 1) [])
                 Sample.vdf Sample.catalogue
                 [(lit "shortcuts", VMap [(lit "0", Sample.foo_entry)])]
                 (World Sample.disk0 [])
               = (Ok tt,
                  snd (@dump_shortcuts_binary (Sample.host Sample.no_fault (Ok 1) [])
                         Sample.vdf Sample.catalogue
                         [(lit "shortcuts", VMap [(lit "0", Sample.foo_entry)])]
                         (World Sample.disk0 [])))).
  { apply run_result. vm_compute. reflexivity. }
  assert (Hdec : @binary_load Sample.vdf
                   (written (@writer Sample.vdf
                               [(lit "shortcuts", VMap [(lit "0", Sample.foo_entry)])]))
                 = Ok [(lit "shortcuts", VMap [(lit "0", Sample.foo_entry)])])
    by (vm_compute; reflexivity).
  assert (Hkey : dict_has (lit "shortcuts")
                   [(lit "shortcuts", VMap [(lit "0", Sample.foo_entry)])] = true)
    by reflexivity.
  exists (snd (@dump_shortcuts_binary (Sample.host Sample.no_fault (Ok 1) [])
                 Sample.vdf Sample.catalogue
                 [(lit "shortcuts", VMap [(lit "0", Sample.foo_entry)])]
                 (World Sample.disk0 []))).
  split; [exact Hd|].
  exact (@dump_then_load (Sample.host Sample.no_fault (Ok 1) []) Sample.vdf
           Sample.catalogue
           [(lit "shortcuts", VMap [(lit "0", Sample.foo_entry)])]
           (World Sample.disk0 [])
           (snd (@dump_shortcuts_binary (Sample.host Sample.no_fault (Ok 1) [])
                   Sample.vdf Sample.catalogue
                   [(lit "shortcuts", VMap [(lit "0", Sample.foo_entry)])]
                   (World Sample.disk0 [])))
           Hdec Hkey eq_refl Hd).
Defined.

(** * Further properties of the process coordinator *)

Section CoordinatorMore.
Context `{Env}.

(** X5: on a variant that is none of the four known ones, [stop_steam]
    and [start_steam] run no command at all and return [False]. *)
Theorem unknown_variant_is_left_alone (variant : str) (w : world) :
  variant <> lit "windows" -> variant <> lit "linux_flatpak" ->
  variant <> lit "linux_native" -> variant <> lit "darwin_native" ->
  stop_steam variant w = (Ok false, w) /\
  start_steam variant w = (Ok false, w).
Proof.
  intros H1 H2 H3 H4.
  unfold stop_steam, stop_commands, start_steam, start_commands.
  rewrite !bool_decide_eq_false_2 by assumption. split; reflexivity.
Qed.

(** The four known variants. *)
Lemma known_variant_cases (variant : str) :
  In variant [lit "windows"; lit "linux_flatpak"; lit "linux_native";
              lit "darwin_native"] ->
  variant = lit "windows" \/ variant = lit "linux_flatpak" \/
  variant = lit "linux_native" \/ variant = lit "darwin_native".
Proof. cbn [In]. intuition. Qed.

(** X6: for each known variant, [stop_steam] returns [True] as soon as
    its commands can be started, whatever their return codes are (a
    [pkill] that has found nothing to kill included). *)
Theorem stop_steam_reports_dispatch (variant : str) (w : world) :
  In variant [lit "windows"; lit "linux_flatpak"; lit "linux_native";
              lit "darwin_native"] ->
  (forall cmd, exists rc out, subprocess_run cmd = Ok (rc, out)) ->
  fst (stop_steam variant w) = Ok true.
Proof.
  intros Hin Hrun. unfold stop_steam, stop_commands, try_except, bind, run, lift.
  unfold emit.
  destruct (known_variant_cases variant Hin) as [-> | [-> | [-> | ->]]];
    cbn [bool_decide decide_rel orb];
    repeat match goal with
           | |- context [subprocess_run ?cmd] =>
               let rc := fresh "rc" in let out := fresh "out" in
               let E := fresh "E" in
               destruct (Hrun cmd) as [rc [out E]]; rewrite E
           end; reflexivity.
Qed.

Ltac in_literals :=
  cbn [In]; repeat (first [left; reflexivity | right]).

(** X7: the result of [detect_steam_variant] is one of the five variant
    names. *)
Theorem detect_steam_variant_classifies (w w' : world) (v : str) :
  detect_steam_variant w = (Ok v, w') ->
  In v [lit "windows"; lit "linux_flatpak"; lit "linux_native";
        lit "darwin_native"; lit "unknown"].
Proof.
  unfold detect_steam_variant.
  destruct (startswith (str_lower platform_system) (lit "windows")).
  { unfold ret. intros E. injection E as <- _. in_literals. }
  intros Hd. apply bind_ok_inv in Hd. destruct Hd as [found [w1 [Hfound Hret]]].
  assert (Hf : found = Some (lit "linux_flatpak") \/
               found = Some (lit "linux_native") \/ found = None).
  { destruct (startswith (str_lower platform_system) (lit "linux"));
      [|unfold ret in Hfound; injection Hfound as <- _; auto].
    apply bind_ok_inv in Hfound. destruct Hfound as [flatpak [w2 [_ Hfound]]].
    destruct flatpak; [unfold ret in Hfound; injection Hfound as <- _; auto|].
    destruct (truthy (which (lit "steam")));
      [unfold ret in Hfound; injection Hfound as <- _; auto|].
    apply bind_ok_inv in Hfound. destruct Hfound as [h [w3 [_ Hfound]]].
    apply bind_ok_inv in Hfound. destruct Hfound as [ex [w4 [_ Hfound]]].
    destruct ex; unfold ret in Hfound; injection Hfound as <- _; auto. }
  destruct Hf as [-> | [-> | ->]].
  - unfold ret in Hret. injection Hret as <- _. in_literals.
  - unfold ret in Hret. injection Hret as <- _. in_literals.
  - destruct (startswith (str_lower platform_system) (lit "darwin"));
      unfold ret in Hret; injection Hret as <- _; in_literals.
Qed.

Lemma startswith_linux_not_windows (s : str) :
  startswith s (lit "linux") = true -> startswith s (lit "windows") = false.
Proof.
  destruct s as [|c s]; [discriminate|]. cbn [lit List.map list_ascii_of_string startswith].
  change (Z.of_N (N_of_ascii "l")) with 108.
  change (Z.of_N (N_of_ascii "w")) with 119.
  destruct (Z.eqb_spec 108 c) as [<-|]; [reflexivity|discriminate].
Qed.

(** X8: on Linux a Flatpak installation takes precedence: when [flatpak]
    is on the PATH and [flatpak info com.valvesoftware.Steam] returns 0,
    the variant is [linux_flatpak], whether or not a native [steam] is
    installed as well, and that probe is the only command run. *)
Theorem detect_flatpak_first (w : world) (out : str) :
  startswith (str_lower platform_system) (lit "linux") = true ->
  truthy (which (lit "flatpak")) = true ->
  subprocess_run [lit "flatpak"; lit "info"; lit "com.valvesoftware.Steam"]
  = Ok (0, out) ->
  detect_steam_variant w
  = (Ok (lit "linux_flatpak"),
     World (files w)
       (trace w ++ [Run [lit "flatpak"; lit "info"; lit "com.valvesoftware.Steam"]])).
Proof.
  intros Hlinux Hfp Hrun. unfold detect_steam_variant.
  rewrite (startswith_linux_not_windows _ Hlinux), Hlinux, Hfp.
  unfold bind, try_except, run, bind, emit, lift. rewrite Hrun. reflexivity.
Qed.

(** X9: when the probe of the process table cannot be run (no [pgrep] or
    [tasklist]), [restart_steam_if_running] takes the client for stopped:
    it returns [(variant, False)] without a prompt, a stop or a start. *)
Theorem restart_without_probe (prompt_before_restart allow_restart : bool)
  (w w1 w2 : world) (variant : str) (e : exn) :
  detect_steam_variant w = (Ok variant, w1) ->
  probe variant w1 = (Raise e, w2) ->
  restart_steam_if_running prompt_before_restart allow_restart w
  = (Ok (variant, false), w2).
Proof.
  intros Hd Hp. unfold restart_steam_if_running, bind. rewrite Hd.
  unfold is_steam_running. rewrite (guarded_raise _ _ _ _ Hp). reflexivity.
Qed.

(** X10: the confirmation prompt is not guarded: when the client runs,
    the restart is allowed, a prompt is asked on a terminal and [input]
    raises (end of file), [restart_steam_if_running] raises that
    exception; nothing has been stopped or started. *)
Theorem restart_prompt_raises (w w1 w2 : world) (variant : str) (e : exn) :
  detect_steam_variant w = (Ok variant, w1) ->
  is_steam_running variant w1 = (Ok true, w2) ->
  stdin_isatty = true ->
  stdin_input = Raise e ->
  restart_steam_if_running true true w
  = (Raise e,
     World (files w2)
       (trace w2 ++ [Prompt "Steam (%s) работает. Остановить и перезапустить? [y/N]: "])).
Proof.
  intros Hd Hr Htty Hin. unfold restart_steam_if_running, bind.
  rewrite Hd, Hr. cbn [negb]. unfold declined_at_prompt. rewrite Htty.
  cbn [andb]. unfold bind, emit, lift. rewrite Hin. reflexivity.
Qed.

End CoordinatorMore.

Lemma unknown_variant_is_left_alone_witness :
  @stop_steam (Sample.host Sample.no_fault (Ok 0) []) (lit "unknown") (World ∅ [])
  = (Ok false, World ∅ []) /\
  @start_steam (Sample.host Sample.no_fault (Ok 0) []) (lit "unknown") (World ∅ [])
  = (Ok false, World ∅ []).
Proof.
  apply (@unknown_variant_is_left_alone (Sample.host Sample.no_fault (Ok 0) []));
    discriminate.
Defined.

(** [pkill] returns 1 when no process matched; the answer is still
    [True]. *)
Lemma stop_steam_reports_dispatch_witness :
  fst (@stop_steam (Sample.host Sample.no_fault (Ok 1) []) (lit "linux_native")
         (World ∅ [])) = Ok true.
Proof.
  apply (@stop_steam_reports_dispatch (Sample.host Sample.no_fault (Ok 1) [])).
  - cbn. auto.
  - intros cmd. exists 1, []. reflexivity.
Defined.

Lemma detect_steam_variant_classifies_witness :
  In (lit "linux_native")
    [lit "windows"; lit "linux_flatpak"; lit "linux_native";
     lit "darwin_native"; lit "unknown"].
Proof.
  apply (@detect_steam_variant_classifies (Sample.host Sample.no_fault (Ok 0) [])
           (World ∅ []) (World ∅ [])).
  vm_compute. reflexivity.
Defined.

Lemma detect_flatpak_first_witness :
  @detect_steam_variant
    (Sample.custom_host (lit "Linux") Sample.both_on_path (Ok 0) (Ok []))
    (World ∅ [])
  = (Ok (lit "linux_flatpak"),
     World ∅ [Run [lit "flatpak"; lit "info"; lit "com.valvesoftware.Steam"]]).
Proof.
  apply (@detect_flatpak_first
           (Sample.custom_host (lit "Linux") Sample.both_on_path (Ok 0) (Ok []))
           (World ∅ []) []); reflexivity.
Defined.

Lemma restart_without_probe_witness :
  @restart_steam_if_running
    (Sample.host Sample.no_fault (Raise FileNotFoundError) []) true true
    (World ∅ [])
  = (Ok (lit "linux_native", false),
     World ∅ [Run [lit "pgrep"; lit "-f"; lit "steam"]]).
Proof.
  apply (@restart_without_probe
           (Sample.host Sample.no_fault (Raise FileNotFoundError) [])
           true true (World ∅ []) (World ∅ []) _ _ FileNotFoundError);
    vm_compute; reflexivity.
Defined.

Lemma restart_prompt_raises_witness :
  @restart_steam_if_running
    (Sample.custom_host (lit "Linux") Sample.both_on_path (Ok 0) (Raise EOFError))
    true true (World ∅ [])
  = (Raise EOFError,
     World ∅
       [ Run [lit "flatpak"; lit "info"; lit "com.valvesoftware.Steam"];
         Run [lit "pgrep"; lit "-f"; lit "com.valvesoftware.Steam"];
         Prompt "Steam (%s) работает. Остановить и перезапустить? [y/N]: " ]).
Proof.
  apply (@restart_prompt_raises
           (Sample.custom_host (lit "Linux") Sample.both_on_path (Ok 0) (Raise EOFError))
           (World ∅ [])
           (World ∅ [Run [lit "flatpak"; lit "info"; lit "com.valvesoftware.Steam"]])
           (World ∅ [Run [lit "flatpak"; lit "info"; lit "com.valvesoftware.Steam"];
                     Run [lit "pgrep"; lit "-f"; lit "com.valvesoftware.Steam"]])
           (lit "linux_flatpak") EOFError);
    vm_compute; reflexivity.
Defined.

(** * Further properties of entry insertion and of the add operation *)

Lemma dict_set_length_present (k : str) (v : value) (d : dict) :
  dict_has k d = true -> length (dict_set k v d) = length d.
Proof.
  intros Hk. pose proof (dict_keys_set_present k v d Hk) as Hkeys.
  apply (f_equal (@length str)) in Hkeys. unfold dict_keys in Hkeys.
  rewrite !length_map in Hkeys. exact Hkeys.
Qed.

(** X11: the key of a new entry is the number of entries, whether or not
    that key is free.  When the mapping already binds the key [str(len)]
    (a catalogue whose keys are not contiguous, say ["1"] alone), the
    entry bound to it is replaced by the new one: the mapping keeps its
    keys and its size, and the old entry is gone. *)
Theorem append_entry_overwrites (doc m : dict) (entry old : value) :
  dict_get (lit "shortcuts") doc = Some (VMap m) ->
  dict_get (str_of_nat (length m)) m = Some old ->
  exists doc' m',
    append_entry doc entry = Ok (doc', str_of_nat (length m)) /\
    dict_get (lit "shortcuts") doc' = Some (VMap m') /\
    dict_keys m' = dict_keys m /\
    length m' = length m /\
    dict_get (str_of_nat (length m)) m' = Some entry.
Proof.
  intros Hd Hold.
  assert (Hhas : dict_has (str_of_nat (length m)) m = true)
    by (unfold dict_has; rewrite Hold; reflexivity).
  exists (dict_set (lit "shortcuts")
            (VMap (dict_set (str_of_nat (length m)) entry m)) doc),
         (dict_set (str_of_nat (length m)) entry m).
  split; [apply append_entry_present, Hd|].
  split; [apply dict_get_set_same|].
  split; [apply dict_keys_set_present, Hhas|].
  split; [apply dict_set_length_present, Hhas|].
  apply dict_get_set_same.
Qed.

Lemma append_entry_overwrites_witness :
  exists doc' m',
    append_entry [(lit "shortcuts", VMap [(lit "1", VInt 7)])] Sample.foo_entry
    = Ok (doc', lit "1") /\
    dict_get (lit "shortcuts") doc' = Some (VMap m') /\
    dict_keys m' = [lit "1"] /\
    length m' = 1%nat /\
    dict_get (lit "1") m' = Some Sample.foo_entry.
Proof.
  exact (append_entry_overwrites
           [(lit "shortcuts", VMap [(lit "1", VInt 7)])] [(lit "1", VInt 7)]
           Sample.foo_entry (VInt 7) eq_refl eq_refl).
Defined.

(** X12: when ["shortcuts"] is bound to something that is not a mapping
    (an integer, on which [len] fails, or a string, which has a length but
    no item assignment), the insertion raises [TypeError]. *)
Theorem append_entry_rejects_non_mapping (doc : dict) (entry v : value) :
  dict_get (lit "shortcuts") doc = Some v ->
  (forall m, v <> VMap m) ->
  append_entry doc entry = Raise TypeError.
Proof.
  intros Hd Hv. unfold append_entry, dict_setdefault, dict_has. rewrite Hd.
  cbn [from_option id]. destruct v as [s|n|m].
  - cbn [py_len]. rewrite Hd. reflexivity.
  - reflexivity.
  - exfalso. exact (Hv m eq_refl).
Qed.

Lemma append_entry_rejects_non_mapping_witness :
  append_entry [(lit "shortcuts", VStr (lit "oops"))] Sample.foo_entry
  = Raise TypeError.
Proof.
  apply (append_entry_rejects_non_mapping
           [(lit "shortcuts", VStr (lit "oops"))] Sample.foo_entry
           (VStr (lit "oops")) eq_refl).
  intros m. discriminate.
Defined.

Section AddMore.
Context `{Env} `{VdfLib}.
Variable steam_dir : fspath.

(** X13: [add_non_steam_game] stops before it has done anything when the
    executable does not exist ([FileNotFoundError]) and when the
    identifier cannot be generated ([UnicodeEncodeError]): no request is
    made, no file is written, nothing is logged. *)
Theorem add_fails_before_any_effect
  (game_exe_path game_name user_id launch_options : str) (w : world)
  (exe_p : fspath) :
  expanduser (Path game_exe_path) = Ok exe_p ->
  (node_at (files w) (Path (path_str exe_p)) = None ->
   add_non_steam_game steam_dir game_exe_path game_name user_id launch_options w
   = (Raise FileNotFoundError, w)) /\
  (node_at (files w) (Path (path_str exe_p)) <> None ->
   forall e, generate_appid game_name (path_str exe_p) = Raise e ->
   add_non_steam_game steam_dir game_exe_path game_name user_id launch_options w
   = (Raise e, w)).
Proof.
  intros Hexp. split.
  - intros Hn. unfold add_non_steam_game, bind, lift. rewrite Hexp, exists_spec.
    unfold is_free. rewrite Hn. reflexivity.
  - intros Hn e Hid. unfold add_non_steam_game, bind, lift.
    rewrite Hexp, exists_spec. unfold is_free.
    destruct (node_at (files w) (Path (path_str exe_p))); [|congruence].
    cbn [negb]. rewrite Hid. reflexivity.
Qed.



(** X15: for an identifier made of decimal digits, as the generator
    gives, downloading the artwork leaves an existing catalogue of the
    user as it is, whatever the network answers and whatever fails: every
    image goes to a file of its own in the [grid] folder.  (Another
    identifier, one with a separator or dots in it, is joined to the
    folder as [pathlib] reads it, and can lead out of the folder.) *)
Theorem artwork_leaves_catalogue (app_id user_id : str) (game_id : Z)
  (w w' : world) (r : result unit) :
  is_decimal app_id ->
  save_images_to_grid steam_dir app_id game_id user_id w = (r, w') ->
  files w !! shortcuts_file_of steam_dir user_id <> None ->
  files w' !! shortcuts_file_of steam_dir user_id
  = files w !! shortcuts_file_of steam_dir user_id.
Proof. intros Hdec. apply save_images_to_grid_stable, Hdec. Qed.

End AddMore.

(** X16: [download_image] returns a boolean and never raises; without an
    answer, or with a status other than 200, it returns [False] and writes
    no file. *)
Theorem download_image_never_raises `{Env} (url : str) (out_path : fspath)
  (resize : bool) (w : world) :
  (exists b w', download_image url out_path resize w = (Ok b, w')) /\
  (http_get url = None ->
   fst (download_image url out_path resize w) = Ok false /\
   files (snd (download_image url out_path resize w)) = files w) /\
  (forall status body, http_get url = Some (status, body) -> status <> 200 ->
   fst (download_image url out_path resize w) = Ok false /\
   files (snd (download_image url out_path resize w)) = files w).
Proof.
  split; [|split].
  - unfold download_image, try_except.
    match goal with
    | |- context [match ?b w with _ => _ end] => destruct (b w) as [[b0|e0] w0]
    end.
    + eauto.
    + unfold bind, logger, emit, ret. eauto.
  - intros Hg. unfold download_image, try_except. rewrite Hg.
    split; reflexivity.
  - intros status body Hg Hs. unfold download_image, try_except. rewrite Hg.
    destruct (Z.eqb_spec status 200) as [|_]; [congruence|].
    cbn [negb]. split; reflexivity.
Qed.

(** The executable is not on the disk. *)
Lemma add_fails_before_any_effect_witness :
  @add_non_steam_game (Sample.host Sample.no_fault (Ok 1) []) Sample.vdf
    Sample.steam_dir Sample.game_exe (lit "Foo Game") Sample.user_id []
    (World ∅ [])
  = (Raise FileNotFoundError, World ∅ []).
Proof.
  apply (proj1 (@add_fails_before_any_effect
                  (Sample.host Sample.no_fault (Ok 1) []) Sample.vdf
                  Sample.steam_dir Sample.game_exe (lit "Foo Game")
                  Sample.user_id [] (World ∅ [])
                  (Sample.posix_path Sample.game_exe) eq_refl)).
  vm_compute. reflexivity.
Defined.


(** Five images are downloaded next to a catalogue. *)
Lemma artwork_leaves_catalogue_witness :
  files (snd (@save_images_to_grid (Sample.online_host 200) Sample.steam_dir
                (lit "2792489181") 77 Sample.user_id (World Sample.disk1 [])))
    !! Sample.catalogue
  = Sample.disk1 !! Sample.catalogue.
Proof.
  refine (@artwork_leaves_catalogue (Sample.online_host 200) Sample.steam_dir
            (lit "2792489181") Sample.user_id 77 (World Sample.disk1 []) _ _
            _ (surjective_pairing _) _).
  - exists 2792489181. split; [lia|vm_compute; reflexivity].
  - vm_compute. discriminate.
Defined.

(** The hypothesis on the identifier is needed: the image of kind
    [wide_grid] of the identifier [../shortcuts], with the suffix [.vdf],
    is written over the catalogue. *)
Example artwork_outside_the_grid_folder :
  files (snd (@save_images_to_grid Sample.online_host_vdf Sample.steam_dir
                (lit "../shortcuts") 77 Sample.user_id (World Sample.disk1 [])))
    !! Sample.catalogue
  = Some (File [137; 80; 78; 71]).
Proof. vm_compute. reflexivity. Qed.

(** The image service answers 404. *)
Lemma download_image_never_raises_witness :
  fst (@download_image (Sample.online_host 404) (lit "https://cdn.example/hero.png")
         (Sample.config_dir // lit "grid" // lit "1_hero.png") false
         (World Sample.disk0 []))
  = Ok false.
Proof.
  refine (proj1 (proj2 (proj2 (@download_image_never_raises
                                 (Sample.online_host 404) _ _ _ _))
                   404 [137; 80; 78; 71] eq_refl _)).
  discriminate.
Defined.

(** * The local users *)

Lemma find_most_recent_found (users : dict) (uid : str) (info : dict) :
  find_most_recent users = Found uid info ->
  exists pre post,
    users = pre ++ (uid, VMap info) :: post /\
    most_recent info = true /\
    Forall unflagged pre.
Proof.
  induction users as [|[u v] rest IH]; cbn [find_most_recent]; [discriminate|].
  destruct v as [s|n|d]; try discriminate.
  destruct (most_recent d) eqn:E.
  - intros Hf. injection Hf as -> ->. exists [], rest.
    split; [reflexivity|]. split; [exact E|constructor].
  - intros Hf. destruct (IH Hf) as [pre [post [-> [Hm Hall]]]].
    exists ((u, VMap d) :: pre), post. split; [reflexivity|].
    split; [exact Hm|]. constructor; [exists d; auto|exact Hall].
Qed.

Lemma find_most_recent_first (pre post : dict) (uid : str) (info : dict) :
  Forall unflagged pre -> most_recent info = true ->
  find_most_recent (pre ++ (uid, VMap info) :: post) = Found uid info.
Proof.
  intros Hall Hm. induction Hall as [|[u v] pre [d [Hv Hd]] _ IH];
    cbn [app find_most_recent].
  - rewrite Hm. reflexivity.
  - cbn [snd] in Hv. subst v. rewrite Hd. exact IH.
Qed.

Lemma find_most_recent_broken (pre post : dict) (uid : str) (v : value) :
  Forall unflagged pre -> (forall d, v <> VMap d) ->
  find_most_recent (pre ++ (uid, v) :: post) = Broken.
Proof.
  intros Hall Hv. induction Hall as [|[u v0] pre [d [Hv0 Hd]] _ IH];
    cbn [app find_most_recent].
  - destruct v as [s|n|d]; try reflexivity. exfalso. exact (Hv d eq_refl).
  - cbn [snd] in Hv0. subst v0. rewrite Hd. exact IH.
Qed.

Section UsersFacts.
Context `{Env}.
Variable steam_dir : fspath.
Variable vdf_load : bytes -> result dict.
Variable iterdir_fault : fspath -> option exn.
Variable unsearchable : fspath -> bool.

(** A path that can be opened can be examined. *)
Lemma stat_fault_open (p : fspath) :
  fault (OpOpenR p) = None -> stat_fault unsearchable p = None.
Proof. intros Hf. unfold stat_fault. rewrite Hf. destruct (unsearchable p); reflexivity. Qed.

Lemma path_exists_ok (p : fspath) (w : world) :
  stat_fault unsearchable p = None ->
  path_exists unsearchable p w = (Ok (negb (is_free (files w) p)), w).
Proof. intros Hs. unfold path_exists. rewrite Hs. apply exists_spec. Qed.

Lemma path_exists_raise (p : fspath) (w : world) (e : exn) :
  stat_fault unsearchable p = Some e ->
  path_exists unsearchable p w = (Raise e, w).
Proof. intros Hs. unfold path_exists. rewrite Hs. reflexivity. Qed.

Lemma read_rb_inv (p : fspath) (w w' : world) (raw : bytes) :
  read_rb p w = (Ok raw, w') ->
  node_at (files w) p = Some (File raw) /\ fault (OpOpenR p) = None /\ w' = w.
Proof.
  unfold read_rb, check_fault. destruct (fault (OpOpenR p)); unfold_monad;
    [discriminate|].
  destruct (node_at (files w) p) as [[c|]|]; intros E; try discriminate.
  injection E as <- <-. auto.
Qed.

(** X17: [get_current_steam_user] raises only what [loginusers.exists()]
    raises, the call of line 369 being outside the [try]: when the path
    cannot be examined, the exception of [os.stat] leaves the function.
    Otherwise the function returns and changes no file, and a user it
    returns is a record of the mapping ["users"] of [loginusers.vdf]: the
    first one whose [MostRecent] reads [1], [true] or [True], every record
    before it being a mapping without that flag. *)
Theorem get_current_steam_user_first_flagged (w : world) :
  (forall e,
     stat_fault unsearchable (loginusers_file steam_dir) = Some e ->
     get_current_steam_user steam_dir vdf_load unsearchable w = (Raise e, w)) /\
  (stat_fault unsearchable (loginusers_file steam_dir) = None ->
   exists r w',
     get_current_steam_user steam_dir vdf_load unsearchable w = (Ok r, w') /\
     files w' = files w /\
     forall uid info, r = Some (uid, info) ->
       exists raw data users pre post,
         node_at (files w) (loginusers_file steam_dir) = Some (File raw) /\
         vdf_load raw = Ok data /\
         dict_get (lit "users") data = Some (VMap users) /\
         users = pre ++ (uid, VMap info) :: post /\
         most_recent info = true /\
         Forall unflagged pre).
Proof.
  split.
  { intros e Hs. unfold get_current_steam_user. unfold bind at 1.
    rewrite (path_exists_raise _ _ _ Hs). reflexivity. }
  intros Hs.
  unfold get_current_steam_user. unfold bind at 1.
  rewrite (path_exists_ok _ _ Hs).
  destruct (negb (negb (is_free (files w) (loginusers_file steam_dir)))).
  { exists None, w. split; [reflexivity|]. split; [reflexivity|]. discriminate. }
  unfold try_except. unfold bind at 1.
  destruct (read_rb (loginusers_file steam_dir) w) as [[raw|e] w1] eqn:Er.
  2:{ apply read_rb_world in Er. subst w1. eexists None, _.
      split; [reflexivity|]. split; [reflexivity|]. discriminate. }
  destruct (read_rb_inv _ _ _ _ Er) as [Hraw [_ ->]].
  unfold bind at 1, lift.
  destruct (vdf_load raw) as [data|e] eqn:Ed.
  2:{ eexists None, _. split; [reflexivity|]. split; [reflexivity|].
      discriminate. }
  destruct (dict_get (lit "users") data) as [v|] eqn:Eu; cbn [from_option id].
  2:{ cbn [find_most_recent]. exists None, w. split; [reflexivity|].
      split; [reflexivity|]. discriminate. }
  destruct v as [s|n|users];
    try (eexists None, _; split; [reflexivity|]; split; [reflexivity|];
         discriminate).
  destruct (find_most_recent users) as [uid info| |] eqn:Ef.
  - exists (Some (uid, info)), w. split; [reflexivity|]. split; [reflexivity|].
    intros uid' info' E. injection E as <- <-.
    destruct (find_most_recent_found _ _ _ Ef) as [pre [post [Hu [Hm Hall]]]].
    exists raw, data, users, pre, post. auto 10.
  - exists None, w. split; [reflexivity|]. split; [reflexivity|]. discriminate.
  - eexists None, _. split; [reflexivity|]. split; [reflexivity|]. discriminate.
Qed.

(** X18: when [loginusers.vdf] can be read and parsed, the first record
    with the flag is returned, provided every record before it is a
    mapping; a record before it that is not a mapping hides it, and the
    answer is [None]. *)
Theorem get_current_steam_user_finds (w : world) (raw : bytes)
  (data pre post : dict) (uid : str) (v : value) :
  node_at (files w) (loginusers_file steam_dir) = Some (File raw) ->
  fault (OpOpenR (loginusers_file steam_dir)) = None ->
  vdf_load raw = Ok data ->
  dict_get (lit "users") data = Some (VMap (pre ++ (uid, v) :: post)) ->
  Forall unflagged pre ->
  (forall info, v = VMap info -> most_recent info = true ->
   get_current_steam_user steam_dir vdf_load unsearchable w
   = (Ok (Some (uid, info)), w)) /\
  ((forall d, v <> VMap d) ->
   fst (get_current_steam_user steam_dir vdf_load unsearchable w) = Ok None).
Proof.
  intros Hraw Hfault Hd Hu Hall.
  pose proof (stat_fault_open _ Hfault) as Hs.
  assert (Hex : negb (negb (is_free (files w) (loginusers_file steam_dir)))
                = false) by (unfold is_free; rewrite Hraw; reflexivity).
  split.
  - intros info -> Hm. unfold get_current_steam_user. unfold bind at 1.
    rewrite (path_exists_ok _ _ Hs), Hex. unfold try_except. unfold bind at 1.
    rewrite (read_rb_file _ _ _ Hraw Hfault). unfold bind at 1, lift.
    rewrite Hd, Hu. cbn [from_option id].
    rewrite (find_most_recent_first _ _ _ _ Hall Hm). reflexivity.
  - intros Hv. unfold get_current_steam_user. unfold bind at 1.
    rewrite (path_exists_ok _ _ Hs), Hex. unfold try_except. unfold bind at 1.
    rewrite (read_rb_file _ _ _ Hraw Hfault). unfold bind at 1, lift.
    rewrite Hd, Hu. cbn [from_option id].
    rewrite (find_most_recent_broken _ _ _ _ Hall Hv). reflexivity.
Qed.

End UsersFacts.

Lemma dict_has_set_iff (k k' : str) (v : value) (d : dict) :
  dict_has k (dict_set k' v d) = true <-> k = k' \/ dict_has k d = true.
Proof.
  destruct (decide (k' = k)) as [->|Hne].
  - rewrite dict_has_set. tauto.
  - unfold dict_has. rewrite (dict_get_set_other _ _ _ _ Hne). split; [auto|].
    intros [->|Hk]; [congruence|exact Hk].
Qed.

Lemma is_dir_child (f : gmap fspath node) (d : fspath) (c : str) :
  is_dir f (d // c) = true <-> f !! (d // c) = Some Dir.
Proof.
  unfold is_dir, joinpath. cbn [node_at].
  match goal with
  | |- (match ?x with _ => _ end = true) <-> ?y = _ =>
      change y with x; destruct x as [[b|]|]
  end; split; intros E; first [reflexivity | discriminate E].
Qed.

Section UserScanFacts.
Context `{Env}.
Variable steam_dir : fspath.
Variable vdf_load : bytes -> result dict.
Variable iterdir_fault : fspath -> option exn.
Variable unsearchable : fspath -> bool.

(** The name of one user: the exception of [lc.exists()], or a name, with
    no file changed. *)
Lemma local_user_name_run (d : fspath) (w : world) :
  (forall e,
     stat_fault unsearchable (d // lit "config" // lit "localconfig.vdf") = Some e ->
     local_user_name vdf_load unsearchable d w = (Raise e, w)) /\
  (stat_fault unsearchable (d // lit "config" // lit "localconfig.vdf") = None ->
   exists v w',
     local_user_name vdf_load unsearchable d w = (Ok v, w') /\
     files w' = files w /\
     name_source vdf_load (files w) d v).
Proof.
  split.
  { intros e Hs. unfold local_user_name. unfold bind at 1.
    rewrite (path_exists_raise _ _ _ _ Hs). reflexivity. }
  intros Hs.
  unfold local_user_name, name_source. unfold bind at 1.
  rewrite (path_exists_ok _ _ _ Hs).
  destruct (negb (is_free (files w) (d // lit "config" // lit "localconfig.vdf"))).
  2:{ exists (VStr (lit "Unknown")), w. auto. }
  unfold try_except. unfold bind at 1.
  destruct (read_rb (d // lit "config" // lit "localconfig.vdf") w)
    as [[raw|e] w1] eqn:Er.
  2:{ apply read_rb_world in Er. subst w1. eexists (VStr (lit "Unknown")), _.
      split; [reflexivity|]. split; [reflexivity|]. left. reflexivity. }
  destruct (read_rb_inv _ _ _ _ Er) as [Hraw [_ ->]].
  unfold bind at 1, lift.
  destruct (vdf_load raw) as [data|e] eqn:Ed.
  2:{ eexists (VStr (lit "Unknown")), _.
      split; [reflexivity|]. split; [reflexivity|]. left. reflexivity. }
  destruct (persona_name data) as [v|] eqn:Ep.
  - exists v, w. split; [reflexivity|]. split; [reflexivity|].
    right. exists raw, data. auto.
  - eexists (VStr (lit "Unknown")), _.
    split; [reflexivity|]. split; [reflexivity|]. left. reflexivity.
Qed.

(** The result of the name of one user is a name or an exception, and no
    file is changed in either case. *)
Lemma local_user_name_cases (d : fspath) (w : world) :
  (exists e, local_user_name vdf_load unsearchable d w = (Raise e, w)) \/
  (exists v w',
     local_user_name vdf_load unsearchable d w = (Ok v, w') /\
     files w' = files w /\
     name_source vdf_load (files w) d v).
Proof.
  destruct (local_user_name_run d w) as [Hr Ho].
  destruct (stat_fault unsearchable (d // lit "config" // lit "localconfig.vdf"))
    as [e|]; [left; exists e; auto|right; auto].
Qed.

(** What a scan that returns has listed. *)
Lemma scan_user_dirs_run (ds : list fspath) :
  forall (out out' : dict) (w w' : world),
    scan_user_dirs vdf_load unsearchable ds out w = (Ok out', w') ->
    files w' = files w /\
    (forall uid,
       dict_has uid out' = true <->
       dict_has uid out = true \/
       exists d, In d ds /\ is_dir (files w) d = true /\ name d = uid) /\
    (forall uid v,
       dict_get uid out' = Some v ->
       dict_get uid out = Some v \/
       exists d, In d ds /\ is_dir (files w) d = true /\ name d = uid /\
                 name_source vdf_load (files w) d v).
Proof.
  induction ds as [|d rest IH]; intros out out' w w' Hrun;
    cbn [scan_user_dirs] in Hrun.
  - unfold ret in Hrun. injection Hrun as <- <-.
    split; [reflexivity|]. split.
    + intros uid. split; [auto|]. intros [Hk|[d [[] _]]]. exact Hk.
    + auto.
  - unfold bind at 1, path_is_dir in Hrun.
    destruct (stat_fault unsearchable d); [discriminate|].
    unfold bind at 1, get_files, ret in Hrun.
    destruct (is_dir (files w) d) eqn:Edir; cbn [negb] in Hrun.
    + unfold bind at 1 in Hrun.
      destruct (local_user_name_cases d w) as [[e He]|[v [w1 [Hn [Hf1 Hsrc]]]]];
        [rewrite He in Hrun; discriminate|].
      rewrite Hn in Hrun.
      destruct (IH _ _ _ _ Hrun) as [Hf [Hkeys Hvals]].
      split; [congruence|]. split.
      * intros uid. rewrite Hkeys, dict_has_set_iff, Hf1. split.
        -- intros [[->|Hk]|[d' [Hin [Hd' Hn']]]].
           ++ right. exists d. cbn [In]. auto.
           ++ left. exact Hk.
           ++ right. exists d'. cbn [In]. auto.
        -- intros [Hk|[d' [[<-|Hin] [Hd' Hn']]]].
           ++ left. right. exact Hk.
           ++ left. left. symmetry. exact Hn'.
           ++ right. exists d'. auto.
      * intros uid v' Hget. destruct (Hvals uid v' Hget) as [Hset|Hrest].
        -- destruct (decide (name d = uid)) as [Hn'|Hn'].
           ++ subst uid. rewrite dict_get_set_same in Hset.
              injection Hset as <-. right. exists d. cbn [In]. auto.
           ++ rewrite (dict_get_set_other _ _ _ _ Hn') in Hset. left. exact Hset.
        -- destruct Hrest as [d' [Hin [Hd' [Hn' Hs]]]]. rewrite Hf1 in Hd', Hs.
           right. exists d'. cbn [In]. auto.
    + destruct (IH _ _ _ _ Hrun) as [Hf [Hkeys Hvals]].
      split; [exact Hf|]. split.
      * intros uid. rewrite Hkeys. split.
        -- intros [Hk|[d' [Hin [Hd' Hn']]]]; [auto|].
           right. exists d'. cbn [In]. auto.
        -- intros [Hk|[d' [[<-|Hin] [Hd' Hn']]]]; [auto|congruence|].
           right. exists d'. auto.
      * intros uid v' Hget. destruct (Hvals uid v' Hget) as [Hout|Hrest];
          [auto|].
        destruct Hrest as [d' [Hin Hrest]]. right. exists d'. cbn [In]. auto.
Qed.

(** A scan returns when every entry and every [localconfig.vdf] can be
    examined. *)
Lemma scan_user_dirs_returns (ds : list fspath) :
  (forall d, In d ds ->
     stat_fault unsearchable d = None /\
     stat_fault unsearchable (d // lit "config" // lit "localconfig.vdf") = None) ->
  forall (out : dict) (w : world),
    exists out' w', scan_user_dirs vdf_load unsearchable ds out w = (Ok out', w').
Proof.
  induction ds as [|d rest IH]; intros Hs out w; cbn [scan_user_dirs].
  - exists out, w. reflexivity.
  - destruct (Hs d (or_introl eq_refl)) as [Hd Hlc].
    assert (Hrest : forall d', In d' rest ->
              stat_fault unsearchable d' = None /\
              stat_fault unsearchable
                (d' // lit "config" // lit "localconfig.vdf") = None)
      by (intros d' Hin; apply Hs; right; exact Hin).
    unfold bind at 1, path_is_dir. rewrite Hd.
    unfold bind at 1, get_files, ret.
    destruct (is_dir (files w) d); cbn [negb]; [|apply (IH Hrest)].
    unfold bind at 1.
    destruct (proj2 (local_user_name_run d w) Hlc) as [v [w1 [-> _]]].
    apply (IH Hrest).
Qed.

(** A scan raises when an entry cannot be examined. *)
Lemma scan_user_dirs_raises (ds : list fspath) :
  forall (d : fspath) (e : exn),
    In d ds -> stat_fault unsearchable d = Some e ->
    forall (out : dict) (w : world),
      exists e' w', scan_user_dirs vdf_load unsearchable ds out w = (Raise e', w').
Proof.
  induction ds as [|d0 rest IH]; intros d e Hin Hs out w; [destruct Hin|].
  cbn [scan_user_dirs]. unfold bind at 1, path_is_dir.
  destruct (stat_fault unsearchable d0) as [e0|] eqn:H0.
  { exists e0, w. reflexivity. }
  destruct Hin as [->|Hin]; [congruence|].
  unfold bind at 1, get_files, ret.
  destruct (is_dir (files w) d0); cbn [negb]; [|exact (IH d e Hin Hs _ _)].
  unfold bind at 1.
  destruct (local_user_name_cases d0 w) as [[e1 ->]|[v [w1 [-> _]]]].
  - exists e1, w. reflexivity.
  - exact (IH d e Hin Hs _ _).
Qed.

Lemma iterdir_inv (d : fspath) (w w' : world) (ds : list fspath) :
  iterdir iterdir_fault d w = (Ok ds, w') ->
  w' = w /\ node_at (files w) d = Some Dir /\
  forall p, In p ds <-> p <> [] /\ parent p = d /\ files w !! p <> None.
Proof.
  unfold iterdir. destruct (iterdir_fault d); [discriminate|].
  unfold bind, get_files.
  destruct (node_at (files w) d) as [[c|]|] eqn:En; try discriminate.
  unfold ret. intros E. injection E as <- <-.
  split; [reflexivity|]. split; [reflexivity|].
  intros p. rewrite filter_In, in_map_iff, bool_decide_eq_true. split.
  - intros [[[p' n] [Hp Hin]] [Hne Hpar]]. cbn [fst] in Hp. subst p'.
    apply list_elem_of_In, elem_of_map_to_list in Hin.
    split; [exact Hne|]. split; [exact Hpar|].
    intros Hx. pose proof (eq_trans (eq_sym Hin) Hx) as Hbad. discriminate Hbad.
  - intros [Hne [Hpar Hl]]. split; [|auto].
    destruct (files w !! p) as [n|] eqn:El; [|congruence].
    exists (p, n). split; [reflexivity|].
    apply list_elem_of_In, elem_of_map_to_list. exact El.
Qed.

Lemma iterdir_ok (d : fspath) (w : world) :
  iterdir_fault d = None -> node_at (files w) d = Some Dir ->
  exists ds, iterdir iterdir_fault d w = (Ok ds, w).
Proof.
  intros Hf Hn. unfold iterdir. rewrite Hf. unfold bind, get_files.
  rewrite Hn. eexists. reflexivity.
Qed.

(** X19: on a user data directory that exists, the users listed by
    [get_local_steam_usernames] are exactly the sub-directories of it, and
    no file is changed.  A user whose [localconfig.vdf] is missing,
    unreadable or without a name is listed as ["Unknown"], not dropped:
    each name is that default or the [PersonaName] of the file. *)
Theorem get_local_steam_usernames_lists_directories (w w' : world) (out : dict) :
  node_at (files w) steam_dir <> None ->
  get_local_steam_usernames steam_dir vdf_load iterdir_fault unsearchable w
  = (Ok out, w') ->
  files w' = files w /\
  (forall uid,
     dict_has uid out = true <-> files w !! (steam_dir // uid) = Some Dir) /\
  (forall uid v,
     dict_get uid out = Some v ->
     name_source vdf_load (files w) (steam_dir // uid) v).
Proof.
  intros Hex Hrun. unfold get_local_steam_usernames in Hrun.
  unfold bind at 1, path_exists in Hrun.
  destruct (stat_fault unsearchable steam_dir); [discriminate|].
  rewrite exists_spec in Hrun. unfold is_free in Hrun.
  destruct (node_at (files w) steam_dir) as [n|] eqn:En; [|congruence].
  cbn [negb] in Hrun.
  apply bind_ok_inv in Hrun. destruct Hrun as [ds [w1 [Hit Hscan]]].
  destruct (iterdir_inv _ _ _ _ Hit) as [-> [_ Hds]].
  destruct (scan_user_dirs_run _ _ _ _ _ Hscan) as [Hf [Hkeys Hvals]].
  assert (Hchild : forall d uid, In d ds -> name d = uid -> d = steam_dir // uid).
  { intros d uid Hin Hn. apply Hds in Hin. destruct Hin as [Hne [Hpar _]].
    destruct d as [|c d]; [congruence|]. cbn in Hpar, Hn. subst. reflexivity. }
  split; [exact Hf|]. split.
  - intros uid. rewrite Hkeys. split.
    + intros [Hk|[d [Hin [Hd Hn]]]]; [discriminate|].
      rewrite (Hchild d uid Hin Hn) in Hd. apply is_dir_child. exact Hd.
    + intros Hl. right. exists (steam_dir // uid). split; [|split].
      * apply Hds. split; [discriminate|]. split; [reflexivity|].
        intros Hx. pose proof (eq_trans (eq_sym Hl) Hx) as Hbad.
        discriminate Hbad.
      * apply is_dir_child. exact Hl.
      * reflexivity.
  - intros uid v Hget. destruct (Hvals uid v Hget) as [Hk|[d [Hin [_ [Hn Hs]]]]];
      [discriminate|].
    rewrite (Hchild d uid Hin Hn) in Hs. exact Hs.
Qed.

(** X20: the calls [steam_dir.exists()], [d.is_dir()] and [lc.exists()]
    of lines 346, 350 and 354 are outside the [try] of the function, so
    what [os.stat] raises on them leaves it.  On a directory that can be
    listed, [get_local_steam_usernames] returns when the directory, its
    entries and their [localconfig.vdf] can be examined, whatever those
    files hold, and it raises as soon as an entry cannot be examined.  It
    returns the empty dictionary when the directory does not exist, and
    raises [NotADirectoryError] when a regular file is in its place. *)
Theorem get_local_steam_usernames_returns (w : world) :
  iterdir_fault steam_dir = None ->
  (forall e,
     stat_fault unsearchable steam_dir = Some e ->
     get_local_steam_usernames steam_dir vdf_load iterdir_fault unsearchable w
     = (Raise e, w)) /\
  (stat_fault unsearchable steam_dir = None ->
   (node_at (files w) steam_dir = None ->
    fst (get_local_steam_usernames steam_dir vdf_load iterdir_fault
           unsearchable w) = Ok []) /\
   (forall c, node_at (files w) steam_dir = Some (File c) ->
    get_local_steam_usernames steam_dir vdf_load iterdir_fault unsearchable w
    = (Raise NotADirectoryError, w)) /\
   (node_at (files w) steam_dir = Some Dir ->
    ((forall d, parent d = steam_dir ->
        stat_fault unsearchable d = None /\
        stat_fault unsearchable (d // lit "config" // lit "localconfig.vdf")
        = None) ->
     exists out w',
       get_local_steam_usernames steam_dir vdf_load iterdir_fault
         unsearchable w
       = (Ok out, w')) /\
    (forall d e,
       d <> [] -> parent d = steam_dir -> files w !! d <> None ->
       stat_fault unsearchable d = Some e ->
       exists e' w',
         get_local_steam_usernames steam_dir vdf_load iterdir_fault
           unsearchable w
         = (Raise e', w')))).
Proof.
  intros Hfault. split.
  { intros e Hs. unfold get_local_steam_usernames. unfold bind at 1.
    rewrite (path_exists_raise _ _ _ _ Hs). reflexivity. }
  intros Hs. split; [|split].
  - intros Hn. unfold get_local_steam_usernames. unfold bind at 1.
    rewrite (path_exists_ok _ _ _ Hs). unfold is_free. rewrite Hn. reflexivity.
  - intros c Hn. unfold get_local_steam_usernames. unfold bind at 1.
    rewrite (path_exists_ok _ _ _ Hs). unfold is_free. rewrite Hn.
    cbn [negb]. unfold bind at 1, iterdir.
    rewrite Hfault. unfold bind at 1, get_files. rewrite Hn. reflexivity.
  - intros Hn.
    destruct (iterdir_ok _ _ Hfault Hn) as [ds Hit].
    destruct (iterdir_inv _ _ _ _ Hit) as [_ [_ Hds]].
    assert (Hstart :
              get_local_steam_usernames steam_dir vdf_load iterdir_fault
                unsearchable w
              = scan_user_dirs vdf_load unsearchable ds [] w).
    { unfold get_local_steam_usernames. unfold bind at 1.
      rewrite (path_exists_ok _ _ _ Hs). unfold is_free. rewrite Hn.
      cbn [negb]. unfold bind at 1. rewrite Hit. reflexivity. }
    rewrite Hstart. split.
    + intros Hall. apply scan_user_dirs_returns.
      intros d Hin. apply Hall. apply Hds in Hin. tauto.
    + intros d e Hne Hpar Hl Hd.
      apply (scan_user_dirs_raises ds d e); [|exact Hd].
      apply Hds. auto.
Qed.

End UserScanFacts.

(** The directory of [loginusers.vdf] cannot be searched: the exception
    of [exists()] leaves the function. *)
Lemma get_current_steam_user_first_flagged_witness :
  @get_current_steam_user (Sample.host Sample.open_refused (Ok 1) [])
    Sample.steam_dir Sample.decode (fun _ => true) (World Sample.disk_users [])
  = (Raise PermissionError, World Sample.disk_users []).
Proof.
  apply (proj1 (@get_current_steam_user_first_flagged
                  (Sample.host Sample.open_refused (Ok 1) []) Sample.steam_dir
                  Sample.decode (fun _ => true) (World Sample.disk_users []))).
  reflexivity.
Defined.

(** The second user of the disk has the flag, the first has not. *)
Lemma get_current_steam_user_finds_witness :
  @get_current_steam_user (Sample.host Sample.no_fault (Ok 1) [])
    Sample.steam_dir Sample.decode (fun _ => false) (World Sample.disk_users [])
  = (Ok (Some (lit "4242",
               [(lit "AccountName", VStr (lit "deck"));
                (lit "MostRecent", VStr (lit "1"))])),
     World Sample.disk_users []).
Proof.
  assert (Hraw : node_at (files (World Sample.disk_users []))
                   (loginusers_file Sample.steam_dir)
                 = Some (File (Sample.encode Sample.loginusers)))
    by (vm_compute; reflexivity).
  assert (Hd : Sample.decode (Sample.encode Sample.loginusers)
               = Ok Sample.loginusers) by (vm_compute; reflexivity).
  assert (Hpre : Forall unflagged
                   [(lit "111", VMap [(lit "AccountName", VStr (lit "guest"));
                                      (lit "MostRecent", VStr (lit "0"))])]).
  { constructor; [|constructor]. eexists. split; [reflexivity|].
    vm_compute. reflexivity. }
  refine (proj1 (@get_current_steam_user_finds
                   (Sample.host Sample.no_fault (Ok 1) []) Sample.steam_dir
                   Sample.decode (fun _ => false) (World Sample.disk_users [])
                   (Sample.encode Sample.loginusers) Sample.loginusers
                   [(lit "111", VMap [(lit "AccountName", VStr (lit "guest"));
                                      (lit "MostRecent", VStr (lit "0"))])]
                   [] (lit "4242")
                   (VMap [(lit "AccountName", VStr (lit "deck"));
                          (lit "MostRecent", VStr (lit "1"))])
                   Hraw eq_refl Hd eq_refl Hpre)
            _ eq_refl _).
  vm_compute. reflexivity.
Defined.

(** The two directories of the disk are listed, the regular file is not:
    the user [111] of the list is a directory, and the name of the user
    [4242] comes from the file of that user. *)
Lemma get_local_steam_usernames_lists_directories_witness :
  Sample.disk_users !! (Sample.steam_dir // lit "111") = Some Dir /\
  @name_source (Sample.host Sample.no_fault (Ok 1) []) Sample.decode
    Sample.disk_users (Sample.steam_dir // lit "4242") (VStr (lit "deck")).
Proof.
  assert (Hrun : fst (@get_local_steam_usernames
                        (Sample.host Sample.no_fault (Ok 1) [])
                        Sample.steam_dir Sample.decode (fun _ => None)
                        (fun _ => false) (World Sample.disk_users []))
                 = Ok [(lit "111", VStr (lit "Unknown"));
                       (lit "4242", VStr (lit "deck"))])
    by (vm_compute; reflexivity).
  apply run_result in Hrun.
  assert (Hex : node_at (files (World Sample.disk_users [])) Sample.steam_dir
                <> None) by (vm_compute; discriminate).
  destruct (@get_local_steam_usernames_lists_directories
              (Sample.host Sample.no_fault (Ok 1) [])
              Sample.steam_dir Sample.decode (fun _ => None) (fun _ => false)
              (World Sample.disk_users []) _ _ Hex Hrun)
    as [_ [Hkeys Hvals]].
  split.
  - exact (proj1 (Hkeys (lit "111")) eq_refl).
  - exact (Hvals (lit "4242") (VStr (lit "deck")) eq_refl).
Defined.

Lemma get_local_steam_usernames_returns_witness :
  (exists out w',
     @get_local_steam_usernames (Sample.host Sample.no_fault (Ok 1) [])
       Sample.steam_dir Sample.decode (fun _ => None) (fun _ => false)
       (World Sample.disk_users [])
     = (Ok out, w')) /\
  (exists e' w',
     @get_local_steam_usernames (Sample.host Sample.open_refused (Ok 1) [])
       Sample.steam_dir Sample.decode (fun _ => None)
       (fun p => bool_decide (p = Sample.steam_dir // lit "111"))
       (World Sample.disk_users [])
     = (Raise e', w')).
Proof.
  split.
  - refine (proj1 (proj2 (proj2 (proj2 (@get_local_steam_usernames_returns
                     (Sample.host Sample.no_fault (Ok 1) []) Sample.steam_dir
                     Sample.decode (fun _ => None) (fun _ => false)
                     (World Sample.disk_users []) eq_refl) eq_refl)) _) _).
    + vm_compute. reflexivity.
    + intros d _. split; reflexivity.
  - refine (proj2 (proj2 (proj2 (proj2 (@get_local_steam_usernames_returns
                     (Sample.host Sample.open_refused (Ok 1) []) Sample.steam_dir
                     Sample.decode (fun _ => None)
                     (fun p => bool_decide (p = Sample.steam_dir // lit "111"))
                     (World Sample.disk_users []) eq_refl) _)) _)
              (Sample.steam_dir // lit "111") PermissionError _ eq_refl _ _).
    + vm_compute. reflexivity.
    + vm_compute. reflexivity.
    + discriminate.
    + vm_compute. discriminate.
    + vm_compute. reflexivity.
Defined.

(** * Two writes under one time stamp *)

Section SameSecond.
Context `{Env}.

Lemma longer_not_suffix (q p : fspath) :
  (length p < length q)%nat -> ~ q `suffix_of` p.
Proof. intros Hl Hs. apply suffix_length in Hs. lia. Qed.

Lemma is_dir_lookup (f f' : gmap fspath node) (q : fspath) :
  q <> [] -> f' !! q = f !! q -> is_dir f' q = is_dir f q.
Proof.
  intros Hq E. destruct q as [|c q]; [congruence|].
  unfold is_dir. rewrite !node_at_cons.
  exact (f_equal (fun n => match n with Some Dir => true | _ => false end) E).
Qed.

(** When the backup path is not a directory, the copy goes to the backup
    path itself. *)
Lemma backup_phase_at (path : fspath) (w w1 : world) (old : bytes) :
  backup_phase path w = (Ok tt, w1) ->
  node_at (files w) path = Some (File old) ->
  is_dir (files w) (backup_path_of path) = false ->
  files w1 !! backup_path_of path = Some (File old) \/
  In (Log WARNING "Не удалось создать бэкап: %s") (trace w1).
Proof.
  intros Hb Hold Hnd. destruct (node_at_File _ _ _ Hold) as [Hl Hne].
  unfold backup_phase in Hb. unfold bind at 1 in Hb.
  destruct (mkdir (parent path) w) as [r1 wa] eqn:Em1.
  destruct (mkdir_inv _ _ _ _ Em1) as [_ [[-> Ht1]|[e [-> _]]]]; [|discriminate].
  pose proof (mkdir_tree_parent path _ _ Ht1) as Hp1.
  assert (Ha : node_at (files wa) path = Some (File old)).
  { destruct path; [congruence|]. rewrite node_at_cons.
    exact (eq_trans Hp1 Hl). }
  unfold bind at 1 in Hb. rewrite exists_spec in Hb.
  unfold is_free in Hb. rewrite Ha in Hb. cbn [negb] in Hb.
  unfold bind in Hb.
  destruct (mkdir (backup_dir_of path) wa) as [r2 wb] eqn:Em2.
  destruct (mkdir_inv _ _ _ _ Em2) as [_ [[-> Ht2]|[e [-> _]]]]; [|discriminate].
  assert (Hdir : is_dir (files wb) (backup_path_of path) = false).
  { rewrite <- Hnd.
    transitivity (is_dir (files wa) (backup_path_of path)).
    - apply is_dir_lookup; [discriminate|].
      apply (mkdir_tree_elsewhere _ _ _ _ Ht2), longer_not_suffix.
      rewrite backup_path_length. unfold backup_dir_of, joinpath. cbn [length].
      lia.
    - apply is_dir_lookup; [discriminate|].
      apply (mkdir_tree_elsewhere _ _ _ _ Ht1), longer_not_suffix.
      rewrite backup_path_length. lia. }
  destruct (guarded_copy_cases path wb) as [[c [Hc Hg]]|[_ Hg]];
    rewrite Hg in Hb; injection Hb as <-; cbn [files trace].
  - left. unfold copy_target. rewrite Hdir. rewrite lookup_insert_eq.
    assert (Hbn : node_at (files wb) path = Some (File old)).
    { destruct path as [|c0 up]; [congruence|].
      assert (Hx : node_at (files wa) (c0 :: up) <> None)
        by (rewrite Ha; discriminate).
      exact (eq_trans (mkdir_tree_node_kept _ (c0 :: up) _ _ Ht2 Hx) Ha). }
    congruence.
  - right. apply in_or_app. right. left. reflexivity.
Qed.

Lemma atomic_write_backup_at (path : fspath) (wr : write_callable)
  (w w' : world) (old : bytes) :
  atomic_write_file_with_vdf path wr w = (Ok tt, w') ->
  node_at (files w) path = Some (File old) ->
  is_dir (files w) (backup_path_of path) = false ->
  files w' !! backup_path_of path = Some (File old) \/
  In (Log WARNING "Не удалось создать бэкап: %s") (trace w').
Proof.
  unfold atomic_write_file_with_vdf. unfold bind at 1.
  destruct (backup_phase path w) as [[[]|e] w1] eqn:Hb; [|discriminate].
  unfold bind at 1.
  destruct (NamedTemporaryFile (parent path) w1) as [[tmp_path|e] w2] eqn:Hn;
    [|discriminate].
  destruct (temporary_file_ready _ _ _ _ Hn)
    as [Hfree [Hne [Hpar [Hw2 [Hfile Hdir]]]]].
  unfold bind at 1. rewrite (write_phase_eq tmp_path wr w2 [] Hfile Hdir).
  destruct (fault (OpOpenW tmp_path)); [discriminate|].
  destruct (raised wr) eqn:Hraised; [discriminate|].
  unfold bind at 1.
  destruct (replace tmp_path path _) as [r4 w4] eqn:Hr.
  destruct (replace_inv _ _ _ _ _ Hr) as [Ht4 [[e [-> _]]|[c [-> [Hc Hf4]]]]];
    [discriminate|].
  cbn [files trace] in Hc, Hf4, Ht4.
  destruct tmp_path as [|n dir]; [congruence|].
  unfold logger, emit. intros E Hold Hnd. injection E as <-. cbn [files trace].
  destruct (backup_phase_at _ _ _ _ Hb Hold Hnd) as [Hlk|Hwarn].
  - left.
    destruct (backup_targets_apart path (n :: dir) (backup_path_of path)
                Hpar Hne (or_introl eq_refl)) as [Hn1 Hn2].
    rewrite Hf4.
    rewrite lookup_insert_ne by congruence.
    rewrite lookup_delete_ne by congruence.
    rewrite lookup_insert_ne by congruence.
    rewrite Hw2. cbn [files].
    rewrite lookup_insert_ne by congruence. exact Hlk.
  - right. rewrite Ht4, Hw2. cbn [trace].
    apply in_or_app. left. apply in_or_app. left. exact Hwarn.
Qed.

(** X21: the name of a backup has the time of the write to the second, so
    two writes under one time stamp use one backup path.  When both copies
    succeed (no warning in the log), the backup of the first write, which
    holds the original bytes, is overwritten by the backup of the second,
    which holds what the first write has written: the original is no
    longer at the backup path. *)
Theorem backups_of_one_second_collide (path : fspath)
  (wr1 wr2 : write_callable) (w w1 w2 : world) (old : bytes) :
  atomic_write_file_with_vdf path wr1 w = (Ok tt, w1) ->
  atomic_write_file_with_vdf path wr2 w1 = (Ok tt, w2) ->
  node_at (files w) path = Some (File old) ->
  is_dir (files w) (backup_path_of path) = false ->
  ~ In (Log WARNING "Не удалось создать бэкап: %s") (trace w1) ->
  ~ In (Log WARNING "Не удалось создать бэкап: %s") (trace w2) ->
  files w1 !! backup_path_of path = Some (File old) /\
  files w2 !! backup_path_of path = Some (File (written wr1)).
Proof.
  intros H1 H2 Hold Hnd Hq1 Hq2.
  destruct (atomic_write_backup_at _ _ _ _ _ H1 Hold Hnd) as [Hb1|Hw]; [|tauto].
  split; [exact Hb1|].
  destruct (atomic_write_ok _ _ _ _ H1) as [_ [Hc1 _]].
  assert (Hp : path <> []) by (destruct path; [discriminate Hold|discriminate]).
  assert (Hold1 : node_at (files w1) path = Some (File (written wr1))).
  { destruct path as [|c up]; [congruence|]. rewrite node_at_cons. exact Hc1. }
  assert (Hnd1 : is_dir (files w1) (backup_path_of path) = false).
  { unfold is_dir, backup_path_of, joinpath. rewrite node_at_cons.
    unfold backup_path_of, joinpath in Hb1.
    match goal with
    | |- match ?x with _ => _ end = false =>
        replace x with (Some (File old)) by (symmetry; exact Hb1)
    end.
    reflexivity. }
  destruct (atomic_write_backup_at _ _ _ _ _ H2 Hold1 Hnd1) as [Hb2|Hw]; [|tauto].
  exact Hb2.
Qed.

End SameSecond.

(** Two writes in a row on the disk that has a catalogue. *)
Lemma backups_of_one_second_collide_witness :
  files (snd (@atomic_write_file_with_vdf (Sample.host Sample.no_fault (Ok 1) [])
                Sample.catalogue (Writer [9] [] None)
                (snd (@atomic_write_file_with_vdf
                        (Sample.host Sample.no_fault (Ok 1) [])
                        Sample.catalogue (Writer [8] [] None)
                        (World Sample.disk1 [])))))
    !! @backup_path_of (Sample.host Sample.no_fault (Ok 1) []) Sample.catalogue
  = Some (File [8]).
Proof.
  assert (H1 : fst (@atomic_write_file_with_vdf
                      (Sample.host Sample.no_fault (Ok 1) [])
                      Sample.catalogue (Writer [8] [] None)
                      (World Sample.disk1 []))
               = Ok tt) by (vm_compute; reflexivity).
  apply run_result in H1.
  assert (H2 : fst (@atomic_write_file_with_vdf
                      (Sample.host Sample.no_fault (Ok 1) [])
                      Sample.catalogue (Writer [9] [] None)
                      (snd (@atomic_write_file_with_vdf
                              (Sample.host Sample.no_fault (Ok 1) [])
                              Sample.catalogue (Writer [8] [] None)
                              (World Sample.disk1 []))))
               = Ok tt) by (vm_compute; reflexivity).
  apply run_result in H2.
  refine (proj2 (@backups_of_one_second_collide
                   (Sample.host Sample.no_fault (Ok 1) []) Sample.catalogue
                   (Writer [8] [] None) (Writer [9] [] None)
                   (World Sample.disk1 []) _ _
                   (Sample.encode [(lit "shortcuts",
                                    VMap [(lit "0", Sample.foo_entry)])])
                   H1 H2 _ _ _ _)).
  - vm_compute. reflexivity.
  - vm_compute. reflexivity.
  - intros Hin. vm_compute in Hin. intuition discriminate.
  - intros Hin. vm_compute in Hin. intuition discriminate.
Defined.
